(** * Grade and statistics computation layer of the academic tracker

    A shallow embedding of [enhanced_calculations.py] (mirrored by
    [utils/calculations2.py]), of the record store of
    [utils/data_manager.py] and of the deadline counting loop of
    [enhanced_analytics.py], followed by the properties the specification
    states about them.

    Numbers.  The Python functions are written against whatever number the
    caller passes (int, float, NumPy scalar).  They are embedded once, over
    an interface [PyNum], which has two instances:
    - [Q], exact rational arithmetic, in which the general laws are proved;
    - [float], IEEE 754 binary64 as computed by CPython, in which the worked
      examples are evaluated bit for bit.

    Exceptions.  A Python function that may raise returns a [result]. *)

From Stdlib Require Import ZArith QArith Lqa Floats Ascii String List Sorted Permutation.
From stdpp Require Import base option list strings gmap.

Local Open Scope string_scope.

(** ** Python run time: exceptions *)

Inductive exn : Type :=
| ZeroDivisionError
| ValueError
| KeyError
| IndexError
| TypeError.

Inductive result (A : Type) : Type :=
| Ok (a : A)
| Raise (e : exn).
Arguments Ok {A} a.
Arguments Raise {A} e.

#[export] Instance result_ret : MRet result := fun A a => Ok a.
#[export] Instance result_bind : MBind result :=
  fun A B f m => match m with Ok a => f a | Raise e => Raise e end.
#[export] Instance result_fmap : FMap result :=
  fun A B f m => match m with Ok a => Ok (f a) | Raise e => Raise e end.

(** [try: body except: handler], with a bare [except] clause. *)
Definition try_except {A} (body : result A) (handler : A) : A :=
  match body with Ok a => a | Raise _ => handler end.

(** ** Python run time: numbers *)

Declare Scope py_scope.
Delimit Scope py_scope with py.

Class PyNum (T : Type) : Type := {
  (** an int operand, and a decimal literal such as [3.7] *)
  of_Z : Z -> T;
  of_Q : Q -> T;
  add : T -> T -> T;
  sub : T -> T -> T;
  mul : T -> T -> T;
  (** division as the arithmetic unit performs it (NumPy's [true_divide]);
      Python's scalar [/] is [truediv] below, which raises on a zero divisor
      before dividing *)
  div : T -> T -> T;
  eqb : T -> T -> bool;
  ltb : T -> T -> bool;
  leb : T -> T -> bool;
  (** [pd.isna] *)
  isna : T -> bool
}.

Notation "x + y" := (add x y) : py_scope.
Notation "x - y" := (sub x y) : py_scope.
Notation "x * y" := (mul x y) : py_scope.
Notation "x == y" := (eqb x y) (at level 70, no associativity) : py_scope.
Notation "x < y" := (ltb x y) : py_scope.
Notation "x > y" := (ltb y x) : py_scope.
Notation "x <= y" := (leb x y) : py_scope.
Notation "x >= y" := (leb y x) : py_scope.

(** Exact rationals.  There is no NaN and no infinity: [div] by zero is
    [Qdiv]'s 0, which the functions below reach only where NumPy would
    produce a non-finite value. *)
#[export] Instance Q_PyNum : PyNum Q := {
  of_Z := inject_Z;
  of_Q := fun q => q;
  add := Qplus;
  sub := Qminus;
  mul := Qmult;
  div := Qdiv;
  eqb := Qeq_bool;
  ltb := fun x y => negb (Qle_bool y x);
  leb := Qle_bool;
  isna := fun _ => false
}.

(** IEEE 754 binary64.  An int converts exactly (it is below 2^53 in every
    use here); a decimal literal [n/d] is the correctly rounded quotient,
    which is the double the Python parser reads for it. *)
Definition float_of_Z (z : Z) : float :=
  match z with
  | Z0 => PrimFloat.of_uint63 (Uint63.of_Z 0)
  | Zpos _ => PrimFloat.of_uint63 (Uint63.of_Z z)
  | Zneg p => PrimFloat.opp (PrimFloat.of_uint63 (Uint63.of_Z (Zpos p)))
  end.

Definition float_of_Q (q : Q) : float :=
  PrimFloat.div (float_of_Z (Qnum q)) (float_of_Z (Zpos (Qden q))).

#[export] Instance float_PyNum : PyNum float := {
  of_Z := float_of_Z;
  of_Q := float_of_Q;
  add := PrimFloat.add;
  sub := PrimFloat.sub;
  mul := PrimFloat.mul;
  div := PrimFloat.div;
  eqb := PrimFloat.eqb;
  ltb := PrimFloat.ltb;
  leb := PrimFloat.leb;
  isna := PrimFloat.is_nan
}.

Section Numbers.
Context {T : Type} `{PyNum T}.
Local Open Scope py_scope.

(** Python's [x / y] on scalars. *)
Definition truediv (x y : T) : result T :=
  if y == of_Z 0 then Raise ZeroDivisionError else Ok (div x y).

(** Python's two-argument [min] and [max]: the first argument is kept
    unless the second is strictly smaller (resp. larger). *)
Definition py_min (a b : T) : T := if b < a then b else a.
Definition py_max (a b : T) : T := if b > a then b else a.

(** [Series.fillna(0)]. *)
Definition fillna0 (x : T) : T := if isna x then of_Z 0 else x.

(** [Series.sum()], [Series.count()] and [Series.mean()], which skip
    missing values.  The sum is a left fold; NumPy adds pairwise, which on
    doubles can differ from it in the last bits once a column has more than
    a few cells (the exact instance does not depend on the order). *)
Definition notna (x : T) : bool := negb (isna x).
Definition series_sum (xs : list T) : T :=
  fold_left add (List.filter notna xs) (of_Z 0).
Definition series_count (xs : list T) : nat :=
  length (List.filter notna xs).
Definition series_mean (xs : list T) : T :=
  div (series_sum xs) (of_Z (Z.of_nat (series_count xs))).

End Numbers.

Notation "x / y" := (truediv x y) : py_scope.

(** ** Records and frames (spec section 3)

    A [DataFrame] is its column labels and its rows.  A row is a typed
    record; the field of a column that the frame does not have is never
    read, because every column access goes through [col]. *)

Definition Timestamp : Type := Z.   (* microseconds since 1970-01-01T00:00 *)
Definition us_per_day : Z := 86400000000.

Module CarryMark.
Record t (T : Type) : Type := mk {
  course_code : string;
  element_type : string;
  element_name : string;
  earned : T;
  max_possible : T;
  weight_percentage : T;
  final_contribution : T;
  percentage : T;
  date_added : string
}.
Arguments mk {T}.
Arguments course_code {T}.
Arguments element_type {T}.
Arguments element_name {T}.
Arguments earned {T}.
Arguments max_possible {T}.
Arguments weight_percentage {T}.
Arguments final_contribution {T}.
Arguments percentage {T}.
Arguments date_added {T}.
End CarryMark.

Module Assignment.
(** [due_date] is [None] for a missing cell (NaN, None or NaT). *)
Record t : Type := mk {
  title : string;
  course_code : string;
  type_ : string;
  due_date : option string;
  status : string;
  description : string
}.
End Assignment.

Module CourseStat.
Record t (T : Type) : Type := mk {
  Course_Code : string;
  Average_pct : T;
  Letter_Grade : string;
  Carry_Weight : T;
  Exam_Weight : T
}.
Arguments mk {T}.
Arguments Course_Code {T}.
Arguments Average_pct {T}.
Arguments Letter_Grade {T}.
Arguments Carry_Weight {T}.
Arguments Exam_Weight {T}.
End CourseStat.

Record DataFrame (Row : Type) : Type := mkDF {
  columns : list string;
  rows : list Row
}.
Arguments mkDF {Row}.
Arguments columns {Row}.
Arguments rows {Row}.

(** [df.empty]: an axis of length 0. *)
Definition empty {Row} (df : DataFrame Row) : bool :=
  match rows df, columns df with
  | [], _ => true
  | _, [] => true
  | _, _ => false
  end.

(** [name in df.columns]. *)
Definition has_column {Row} (name : string) (df : DataFrame Row) : bool :=
  bool_decide (name ∈ columns df).

(** [df[name]]: the cells of a column, [KeyError] if there is none. *)
Definition col {Row A} (name : string) (field : Row -> A) (df : DataFrame Row)
  : result (list A) :=
  if has_column name df then Ok (List.map field (rows df)) else Raise KeyError.

(** [df[mask]]: the rows a boolean mask selects. *)
Fixpoint select {Row} (rs : list Row) (mask : list bool) : list Row :=
  match rs, mask with
  | r :: rs', b :: mask' => if b then r :: select rs' mask' else select rs' mask'
  | _, _ => []
  end.

Definition df_mask {Row} (df : DataFrame Row) (mask : list bool) : DataFrame Row :=
  mkDF (columns df) (select (rows df) mask).

(** [len(df)]. *)
Definition len {Row} (df : DataFrame Row) : nat := length (rows df).

(** ** enhanced_calculations.py: the grade calculator *)

Section GradeCalculator.
Context {T : Type} `{PyNum T}.
Local Open Scope py_scope.

Notation "0" := (of_Z 0%Z) : py_scope.
Notation "100" := (of_Z 100%Z) : py_scope.

Definition calculate_carry_percentage
  (course_code : string) (carry_marks_df : DataFrame (CarryMark.t T)) : result T :=
  if empty carry_marks_df then Ok 0 else
  codes ← col "course_code" CarryMark.course_code carry_marks_df;
  let course_marks :=
    df_mask carry_marks_df (List.map (fun c => String.eqb c course_code) codes) in
  if empty course_marks then Ok 0 else
  (* If percentage column exists, use average *)
  if has_column "percentage" course_marks then
    percentages ← col "percentage" CarryMark.percentage course_marks;
    Ok (series_mean percentages)
  else
  (* Otherwise calculate from earned/max_possible *)
  earned ← col "earned" CarryMark.earned course_marks;
  let total_earned := series_sum earned in
  max_possible ← col "max_possible" CarryMark.max_possible course_marks;
  let total_max := series_sum max_possible in
  if total_max == 0 then Ok 0 else
  ratio ← total_earned / total_max;
  Ok (ratio * 100).

Definition calculate_final_exam_requirement
  (target_grade carry_percentage carry_weight exam_weight : T) : result T :=
  if exam_weight == 0 then Ok 0 else
  a ← carry_percentage / 100;
  b ← carry_weight / 100;
  let carry_contribution := a * b * 100 in
  let required_exam_contribution := target_grade - carry_contribution in
  c ← required_exam_contribution / exam_weight;
  let required_exam_percentage := c * 100 in
  Ok (py_max 0 (py_min 100 required_exam_percentage)).

Definition get_grade_letter (percentage : T) : string :=
  if isna percentage || (percentage < 0) then "F"
  else if percentage >= of_Z 90 then "A+"
  else if percentage >= of_Z 85 then "A"
  else if percentage >= of_Z 80 then "A-"
  else if percentage >= of_Z 75 then "B+"
  else if percentage >= of_Z 70 then "B"
  else if percentage >= of_Z 65 then "B-"
  else if percentage >= of_Z 60 then "C+"
  else if percentage >= of_Z 55 then "C"
  else if percentage >= of_Z 50 then "C-"
  else "F".

Definition calculate_completion_rate (assignments_df : DataFrame Assignment.t)
  : result T :=
  if empty assignments_df then Ok 0 else
  statuses ← col "status" Assignment.status assignments_df;
  let completed :=
    len (df_mask assignments_df
           (List.map (fun s => String.eqb s "completed") statuses)) in
  let total := len assignments_df in
  if (0 <? total)%nat then
    ratio ← of_Z (Z.of_nat completed) / of_Z (Z.of_nat total);
    Ok (ratio * 100)
  else Ok 0.

(** The letter-to-points table of [calculate_weighted_gpa]. *)
Definition grade_points : gmap string T :=
  list_to_map
    [ ("A+", of_Q 4.0); ("A", of_Q 4.0); ("A-", of_Q 3.7);
      ("B+", of_Q 3.3); ("B", of_Q 3.0); ("B-", of_Q 2.7);
      ("C+", of_Q 2.3); ("C", of_Q 2.0); ("C-", of_Q 1.7);
      ("F", of_Q 0.0); ("N/A", of_Q 0.0) ].

(** [grade_points.get(letter, 0.0)]. *)
Definition grade_point (letter : string) : T :=
  default (of_Q 0.0) (grade_points !! letter).

(** One turn of the loop over [course_stats_df.iterrows()]; the state is
    [(total_points, total_weight)]. *)
Definition gpa_step (has_both : bool) (acc : T * T) (row : CourseStat.t T) : T * T :=
  let '(total_points, total_weight) := acc in
  if has_both then
    let points := grade_point (CourseStat.Letter_Grade row) in
    let weight := CourseStat.Carry_Weight row in
    (total_points + points * weight, total_weight + weight)
  else acc.

Definition calculate_weighted_gpa (course_stats_df : DataFrame (CourseStat.t T))
  : result T :=
  if empty course_stats_df then Ok 0 else
  let has_both :=
    has_column "Letter Grade" course_stats_df
    && has_column "Carry Weight" course_stats_df in
  let '(total_points, total_weight) :=
    fold_left (gpa_step has_both) (rows course_stats_df) (0, 0) in
  if total_weight > 0 then total_points / total_weight else Ok 0.

End GradeCalculator.

(** ** Dates

    [pd.to_datetime] and [datetime.strptime] are library parsers: the
    analyzers below take them as parameters, a reading that fails being
    [None].  [read_iso_date] is the strict [YYYY-MM-DD] reader the examples
    instantiate them with. *)

Definition digit (c : ascii) : option Z :=
  let n := Z.of_nat (nat_of_ascii c) in
  if (48 <=? n)%Z && (n <=? 57)%Z then Some (n - 48)%Z else None.

Definition is_leap (y : Z) : bool :=
  ((y mod 4 =? 0) && (negb (y mod 100 =? 0) || (y mod 400 =? 0)))%Z.

Definition days_in_month (y m : Z) : Z :=
  if (m =? 2)%Z then (if is_leap y then 29 else 28)%Z
  else if ((m =? 4) || (m =? 6) || (m =? 9) || (m =? 11))%Z then 30%Z
  else 31%Z.

(** Days from 1970-01-01 to the civil date [y-m-d] (proleptic Gregorian). *)
Definition days_from_civil (y m d : Z) : Z :=
  (let y' := if m <=? 2 then y - 1 else y in
   let era := y' / 400 in
   let yoe := y' - era * 400 in
   let mp := if m >? 2 then m - 3 else m + 9 in
   let doy := (153 * mp + 2) / 5 + d - 1 in
   let doe := yoe * 365 + yoe / 4 - yoe / 100 + doy in
   era * 146097 + doe - 719468)%Z.

Definition read_iso_date (s : string) : option Timestamp :=
  match list_ascii_of_string s with
  | [y1; y2; y3; y4; s1; m1; m2; s2; d1; d2] =>
    if Ascii.eqb s1 "-"%char && Ascii.eqb s2 "-"%char then
      a ← digit y1; b ← digit y2; c ← digit y3; d ← digit y4;
      e ← digit m1; f ← digit m2; g ← digit d1; h ← digit d2;
      let y := (a * 1000 + b * 100 + c * 10 + d)%Z in
      let m := (e * 10 + f)%Z in
      let dd := (g * 10 + h)%Z in
      if ((1 <=? y) && (1 <=? m) && (m <=? 12) && (1 <=? dd)
          && (dd <=? days_in_month y m))%Z
      then Some (days_from_civil y m dd * us_per_day)%Z
      else None
    else None
  | _ => None
  end.

(** The calendar day of an instant ([.date()]), as a day number, and its
    Monday-to-Sunday week ([.dt.to_period('W')]), as a week number;
    1970-01-01 is a Thursday. *)
Definition day_of (t : Timestamp) : Z := (t / us_per_day)%Z.
Definition week_of (t : Timestamp) : Z := ((day_of t + 3) / 7)%Z.

(** ** Sorting: [sort_values] and the sorted keys of [groupby] *)

Section Sorting.
Context {A : Type} (le : A -> A -> bool).

Fixpoint insert_sorted (x : A) (l : list A) : list A :=
  match l with
  | [] => [x]
  | y :: l' => if le x y then x :: y :: l' else y :: insert_sorted x l'
  end.

(** A stable insertion sort.  NumPy's default quicksort may order rows
    with equal keys differently. *)
Definition sort_by (l : list A) : list A := fold_right insert_sorted [] l.

End Sorting.

(** Missing keys go last ([na_position='last']). *)
Definition na_last_le (a b : option Z) : bool :=
  match a, b with
  | Some x, Some y => (x <=? y)%Z
  | Some _, None => true
  | None, Some _ => false
  | None, None => true
  end.

(** ** enhanced_calculations.py: completion and workload analyzer *)

Record WeeklyRow : Type := mkWeek {
  week : Z;
  total_assignments : nat;
  pending_assignments : nat
}.

Record DeadlineRow : Type := mkDeadline {
  assignment : Assignment.t;
  due : option Timestamp;
  days_remaining : option Z
}.

Definition from_option {A} (e : exn) (o : option A) : result A :=
  match o with Some a => Ok a | None => Raise e end.

Section WorkloadAnalyzer.
(** [datetime.strptime(_, "%Y-%m-%d")] and [pd.to_datetime]. *)
Variable strptime : string -> option Timestamp.
Variable to_datetime : string -> option Timestamp.

(** [pd.to_datetime] of one cell, [errors='raise']: a missing cell is NaT. *)
Definition to_datetime_cell (c : option string) : result (option Timestamp) :=
  match c with
  | None => Ok None
  | Some s => t ← from_option ValueError (to_datetime s); Ok (Some t)
  end.

Definition calculate_days_until_due (now : Timestamp) (due_date_str : string) : Z :=
  try_except
    (due_date ← from_option ValueError (strptime due_date_str);
     let today := now in
     let delta := (due_date - today)%Z in
     Ok (delta / us_per_day)%Z)
    0%Z.

Definition get_weekly_workload (assignments_df : DataFrame Assignment.t)
  : result (list WeeklyRow) :=
  if empty assignments_df then Ok [] else
  cells ← col "due_date" Assignment.due_date assignments_df;
  due_date ← mapM to_datetime_cell cells;
  let week := List.map (option_map week_of) due_date in
  _ ← col "title" Assignment.title assignments_df;
  statuses ← col "status" Assignment.status assignments_df;
  let keyed := zip week statuses in
  let groups := sort_by Z.leb (remove_dups (omap id week)) in
  Ok (List.map
        (fun w =>
           mkWeek w
             (length (List.filter (fun r => bool_decide (r.1 = Some w)) keyed))
             (length (List.filter
                        (fun r => bool_decide (r.1 = Some w)
                                  && String.eqb r.2 "pending") keyed)))
        groups).

Definition calculate_time_to_deadline (now : Timestamp)
  (assignments_df : DataFrame Assignment.t) : result (list DeadlineRow) :=
  if empty assignments_df then Ok [] else
  statuses ← col "status" Assignment.status assignments_df;
  let pending_assignments :=
    df_mask assignments_df (List.map (fun s => String.eqb s "pending") statuses) in
  if empty pending_assignments then Ok [] else
  cells ← col "due_date" Assignment.due_date pending_assignments;
  due_date ← mapM to_datetime_cell cells;
  let table :=
    zip_with
      (fun a d => mkDeadline a d (option_map (fun t => ((t - now) / us_per_day)%Z) d))
      (rows pending_assignments) due_date in
  Ok (sort_by (fun r1 r2 => na_last_le (days_remaining r1) (days_remaining r2)) table).

(** ** enhanced_analytics.py: the overdue / near-due loop of [analytics_tab] *)

Definition deadline_step (today : Z) (has_due_date : bool)
  (acc : nat * nat) (a : Assignment.t) : nat * nat :=
  let '(overdue_count, upcoming_count) := acc in
  if String.eqb (Assignment.status a) "pending" then
    try_except
      (cell ← (if has_due_date then Ok (Assignment.due_date a) else Raise KeyError);
       parsed ← to_datetime_cell cell;
       (* NaT.date() is NaT, and NaT - today is a TypeError *)
       t ← from_option TypeError parsed;
       let due_date := day_of t in
       let days_diff := (due_date - today)%Z in
       Ok (if (days_diff <? 0)%Z then (S overdue_count, upcoming_count)
           else if (days_diff <=? 7)%Z then (overdue_count, S upcoming_count)
           else acc))
      acc
  else acc.

Definition analytics_tab_deadline_counts (now : Timestamp)
  (assignments_df : DataFrame Assignment.t) : result (nat * nat) :=
  if empty assignments_df then Ok (0%nat, 0%nat) else
  let today := day_of now in
  _ ← col "status" Assignment.status assignments_df;
  Ok (fold_left (deadline_step today (has_column "due_date" assignments_df))
        (rows assignments_df) (0%nat, 0%nat)).

End WorkloadAnalyzer.

(** ** enhanced_calculations.py: trend analyzer *)

Section TrendAnalyzer.
Context {T : Type} `{PyNum T}.
(** [np.polyfit(x, y, 1)[0]] is NumPy's: the analyzer takes it as a
    parameter.  It hands back the leading coefficient of the fitted line as
    NumPy's least-squares solver computes it, or raises. *)
Variable polyfit : list T -> list T -> result T.
Variable to_datetime : string -> option Timestamp.
Local Open Scope py_scope.

(** [np.arange(n)]. *)
Definition arange (n : nat) : list T :=
  List.map (fun i => of_Z (Z.of_nat i)) (seq 0 n).

Definition get_performance_trend (carry_marks_df : DataFrame (CarryMark.t T))
  : result string :=
  if empty carry_marks_df || (len carry_marks_df <? 2)%nat
  then Ok "Insufficient data" else
  (* Ensure we have percentage and date columns *)
  let df := carry_marks_df in
  percentage ←
    (if negb (has_column "percentage" df) then
       earned ← col "earned" CarryMark.earned df;
       max_possible ← col "max_possible" CarryMark.max_possible df;
       Ok (zip_with (fun e m => fillna0 (div e m * of_Z 100)) earned max_possible)
     else col "percentage" CarryMark.percentage df);
  if negb (has_column "date_added" df) then Ok "No date information" else
  cells ← col "date_added" CarryMark.date_added df;
  date_added ← mapM (fun s => from_option ValueError (to_datetime s)) cells;
  let sorted := sort_by (fun r1 r2 => (r1.1 <=? r2.1)%Z) (zip date_added percentage) in
  (* Calculate trend using linear regression *)
  let x := arange (length sorted) in
  let y := List.map snd sorted in
  if (length x <? 2)%nat then Ok "Insufficient data" else
  slope ← polyfit x y;
  if slope > of_Z 2 then Ok "Improving"
  else if slope < of_Z (-2) then Ok "Declining"
  else Ok "Stable".

End TrendAnalyzer.

(** The line of least squares through the points [(x_i, y_i)], in closed
    form (the normal equations): what a degree-1 fit computes when its
    arithmetic is exact. *)
Section LeastSquares.
Context {T : Type} `{PyNum T}.
Local Open Scope py_scope.

Definition total (xs : list T) : T := fold_left add xs (of_Z 0).

Definition least_squares_slope (x y : list T) : T :=
  let n := of_Z (Z.of_nat (length x)) in
  let sx := total x in
  let sy := total y in
  let sxy := total (zip_with mul x y) in
  let sxx := total (zip_with mul x x) in
  div (n * sxy - sx * sy) (n * sxx - sx * sx).

Definition least_squares_intercept (x y : list T) : T :=
  let n := of_Z (Z.of_nat (length x)) in
  div (total y - least_squares_slope x y * total x) n.

End LeastSquares.

(** ** utils/data_manager.py: the record store

    The store keeps each collection as a Python list of dicts. *)

Inductive value : Type :=
| VStr (s : string)
| VNum (q : Q).

(** Python's [==] on two values. *)
Definition value_eqb (a b : value) : bool :=
  match a, b with
  | VStr s, VStr t => String.eqb s t
  | VNum p, VNum q => Qeq_bool p q
  | _, _ => false
  end.

(** [d.get(key) != v]: an absent key reads as [None], which differs from
    every value. *)
Definition get_ne (d : gmap string value) (key : string) (v : value) : bool :=
  match d !! key with
  | Some w => negb (value_eqb w v)
  | None => true
  end.

Record SessionState : Type := mkState {
  courses : list (gmap string value);
  carry_marks : list (gmap string value);
  final_exams : list (gmap string value);
  assignments : list (gmap string value);
  theme_color : string;
  sample_data_loaded : bool
}.

Definition delete_course (index : Z) (st : SessionState) : result SessionState :=
  if ((0 <=? index) && (index <? Z.of_nat (length (courses st))))%Z then
    course ← from_option IndexError (courses st !! Z.to_nat index);
    course_code ← from_option KeyError (course !! "code");
    (* Remove associated carry marks and assignments *)
    let carry_marks' :=
      List.filter (fun cm => get_ne cm "course_code" course_code) (carry_marks st) in
    let assignments' :=
      List.filter (fun a => get_ne a "course_code" course_code) (assignments st) in
    let final_exams' :=
      List.filter (fun fe => get_ne fe "course_code" course_code) (final_exams st) in
    Ok (mkState (delete (Z.to_nat index) (courses st))
          carry_marks' final_exams' assignments'
          (theme_color st) (sample_data_loaded st))
  else Ok st.

(** ** Reference notions the statements compare the code with *)

Definition Qsum (xs : list Q) : Q := fold_right Qplus 0%Q xs.

(** The arithmetic mean, as the specification words it. *)
Definition mean (xs : list Q) : Q :=
  (Qsum xs / inject_Z (Z.of_nat (length xs)))%Q.

(** Clamping to an interval. *)
Definition clamped (lo hi v r : Q) : Prop :=
  (v <= lo -> r == lo)%Q /\ (lo <= v <= hi -> r == v)%Q /\ (hi <= v -> r == hi)%Q.

(** The final-exam percentage that reaches the target, before clamping. *)
Definition required_exam_percentage
  (target_grade carry_percentage carry_weight exam_weight : Q) : Q :=
  ((target_grade - (carry_percentage / 100) * (carry_weight / 100) * 100)
   / exam_weight * 100)%Q.

(** The rows of a carry-marks frame that belong to a course. *)
Definition marks_of {T} (code : string) (df : DataFrame (CarryMark.t T))
  : list (CarryMark.t T) :=
  List.filter (fun r => String.eqb (CarryMark.course_code r) code) (rows df).

(** The sums the loop of [calculate_weighted_gpa] accumulates, over the rows
    it counts: all of them when both columns are there, none otherwise. *)
Definition weighted_points (rs : list (CourseStat.t Q)) : Q :=
  Qsum (List.map
          (fun r => grade_point (CourseStat.Letter_Grade r) * CourseStat.Carry_Weight r)%Q
          rs).
Definition weights (rs : list (CourseStat.t Q)) : Q :=
  Qsum (List.map CourseStat.Carry_Weight rs).
Definition counted_rows (df : DataFrame (CourseStat.t Q)) : list (CourseStat.t Q) :=
  if has_column "Letter Grade" df && has_column "Carry Weight" df
  then rows df else [].

(** *** Trend *)

(** The squared error of the line [a * x + b] on the points [(x_i, y_i)]. *)
Definition squared_error (x y : list Q) (a b : Q) : Q :=
  Qsum (zip_with (fun xi yi => (yi - (a * xi + b)) * (yi - (a * xi + b)))%Q x y).

(** Rows in the order of their dates, as a relation and as the test
    [sort_values] sorts with. *)
Definition by_date (r1 r2 : Timestamp * Q) : Prop := (r1.1 <= r2.1)%Z.
Definition by_date_b (r1 r2 : Timestamp * Q) : bool := (r1.1 <=? r2.1)%Z.

(** The percentage of every row: the column when the frame has it, else
    [earned / max_possible * 100]. *)
Definition percentage_column (df : DataFrame (CarryMark.t Q)) : list Q :=
  if has_column "percentage" df then List.map CarryMark.percentage (rows df)
  else List.map (fun r => (CarryMark.earned r / CarryMark.max_possible r * 100)%Q) (rows df).

(** Percentages are present, or derivable: no [max_possible] is 0. *)
Definition usable_percentages (df : DataFrame (CarryMark.t Q)) : Prop :=
  has_column "percentage" df = true \/
  (has_column "earned" df = true /\ has_column "max_possible" df = true /\
   Forall (fun r => ~ (CarryMark.max_possible r == 0)%Q) (rows df)).

(** Every [date_added] cell is read, to the instants [dates]. *)
Definition dates_read {T} (to_datetime : string -> option Timestamp)
  (df : DataFrame (CarryMark.t T)) (dates : list Timestamp) : Prop :=
  Forall2 (fun r d => to_datetime (CarryMark.date_added r) = Some d) (rows df) dates.

(** *** Dates and the clock *)

(** A due-date cell that [to_datetime] cannot read. *)
Definition unparseable (to_datetime : string -> option Timestamp)
  (a : Assignment.t) : Prop :=
  exists s, Assignment.due_date a = Some s /\ to_datetime s = None.

(** Whether the deadline loop can use the due date of a record. *)
Definition readable (to_datetime : string -> option Timestamp)
  (a : Assignment.t) : bool :=
  match Assignment.due_date a with
  | Some s => bool_decide (is_Some (to_datetime s))
  | None => false
  end.

(** The day count of a deadline [d] is the same at the clock readings [t1]
    and [t2]. *)
Definition same_day_count (t1 t2 d : Timestamp) : Prop :=
  ((d - t1) / us_per_day = (d - t2) / us_per_day)%Z.

(** *** The record store *)

(** A record references a course code when its [course_code] entry equals it. *)
Definition references (d : gmap string value) (code : value) : Prop :=
  exists w, d !! "course_code" = Some w /\ value_eqb w code = true.

(** ** Worked examples (spec section 8, and the sample data of
    [data_manager.py]) *)

Section Examples.
Context {T : Type} `{PyNum T}.

(** A mark given by its course, [earned] and [max_possible], and a frame
    built from such marks: it has no [percentage] column. *)
Definition mark (code : string) (earned max_possible : Z) : CarryMark.t T :=
  CarryMark.mk code "" "" (of_Z earned) (of_Z max_possible)
    (of_Z 0) (of_Z 0) (of_Z 0) "".
Definition marks_frame (rs : list (CarryMark.t T)) : DataFrame (CarryMark.t T) :=
  mkDF ["course_code"; "earned"; "max_possible"] rs.

(** [pd.DataFrame([])]. *)
Definition no_records {Row} : DataFrame Row := mkDF [] [].

(** A mark given by its percentage and its date. *)
Definition dated_mark (percentage : Z) (date_added : string) : CarryMark.t T :=
  CarryMark.mk "C1" "Quiz" "" (of_Z 0) (of_Z 0) (of_Z 0) (of_Z 0)
    (of_Z percentage) date_added.
Definition dated_frame (rs : list (CarryMark.t T)) : DataFrame (CarryMark.t T) :=
  mkDF ["course_code"; "percentage"; "date_added"] rs.

(** Four marks of 60, 65, 70 and 75 percent over four dates, stored out of
    order. *)
Definition rising_marks : DataFrame (CarryMark.t T) :=
  dated_frame [ dated_mark 70 "2025-01-29"; dated_mark 60 "2025-01-15";
                dated_mark 75 "2025-02-05"; dated_mark 65 "2025-01-22" ].

End Examples.

Definition assignment_of (status : string) (due_date : option string) : Assignment.t :=
  Assignment.mk "Report" "C1" "Assignment" due_date status "".
Definition assignments_frame (rs : list Assignment.t) : DataFrame Assignment.t :=
  mkDF ["title"; "course_code"; "type"; "due_date"; "status"; "description"] rs.

(** Clock readings: noon of 2025-08-14 and of 2025-08-15. *)
Definition noon_aug_14 : Timestamp := (20314 * us_per_day + us_per_day / 2)%Z.
Definition noon_aug_15 : Timestamp := (20315 * us_per_day + us_per_day / 2)%Z.

(** The first three marks of [get_sample_carry_marks]. *)
Definition sample_marks : DataFrame (CarryMark.t Q) :=
  mkDF ["course_code"; "element_type"; "element_name"; "earned"; "max_possible";
        "weight_percentage"; "final_contribution"; "percentage"; "date_added"]
    [ CarryMark.mk "BSD 1323" "Quiz" "Quiz 1" 18 20 10 9.0 90.0 "2025-01-15";
      CarryMark.mk "BSD 1323" "Assignment" "Data Viz Project" 42 50 25 21.0 84.0
        "2025-01-22";
      CarryMark.mk "BSD 2143" "Test" "Mid-term Test" 35 40 20 17.5 87.5 "2025-01-20" ]%Q.

(** A store with two of the default courses and records that depend on
    them. *)
Definition course_record (code name : string) (carry_weight exam_weight : Q)
  : gmap string value :=
  list_to_map [ ("code", VStr code); ("name", VStr name);
                ("carry_weight", VNum carry_weight); ("exam_weight", VNum exam_weight) ].
Definition dependent_record (course_code label : string) : gmap string value :=
  list_to_map [ ("course_code", VStr course_code); ("title", VStr label) ].
Definition sample_store : SessionState :=
  mkState
    [ course_record "BSD 1323" "Storytelling & Data Visualization" 60 40;
      course_record "BSD 2143" "Operational Research" 60 40 ]
    [ dependent_record "BSD 1323" "Quiz 1"; dependent_record "BSD 2143" "Mid-term Test";
      dependent_record "BSD 1323" "Data Viz Project" ]
    [ dependent_record "BSD 1323" "Final" ]
    [ dependent_record "BSD 1323" "Data Visualization Dashboard";
      dependent_record "BSD 2143" "Linear Programming Exercise" ]
    "#1f77b4" true.

(** ** enhanced_calculations.py: the remaining calculators *)

Module Course.
Record t (T : Type) : Type := mk {
  code : string;
  name : string;
  carry_weight : T;
  exam_weight : T
}.
Arguments mk {T}.
Arguments code {T}.
Arguments name {T}.
Arguments carry_weight {T}.
Arguments exam_weight {T}.
End Course.

(** One value of the dict [calculate_workload_balance] returns. *)
Module Balance.
Record t (T : Type) : Type := mk {
  assignments : nat;
  percentage : T;
  load_level : string
}.
Arguments mk {T}.
Arguments assignments {T}.
Arguments percentage {T}.
Arguments load_level {T}.
End Balance.

(** [df.groupby(key).size()]: the distinct keys in sorted order, each with
    the number of rows that carry it. *)
Definition groupby_size (keys : list string) : list (string * nat) :=
  List.map (fun k => (k, length (List.filter (String.eqb k) keys)))
    (sort_by String.leb (remove_dups keys)).

Section CourseCalculators.
Context {T : Type} `{PyNum T}.
Local Open Scope py_scope.

Notation "0" := (of_Z 0%Z) : py_scope.
Notation "100" := (of_Z 100%Z) : py_scope.

Definition calculate_current_grade (course_code : string)
  (carry_marks_df : DataFrame (CarryMark.t T)) (courses_df : DataFrame (Course.t T))
  : result T :=
  codes ← col "code" Course.code courses_df;
  let course_info :=
    df_mask courses_df (List.map (fun c => String.eqb c course_code) codes) in
  if empty course_info then Ok 0 else
  mark_codes ← col "course_code" CarryMark.course_code carry_marks_df;
  let course_marks :=
    df_mask carry_marks_df (List.map (fun c => String.eqb c course_code) mark_codes) in
  if empty course_marks then Ok 0 else
  (* If we have weighted contributions, use those *)
  if has_column "final_contribution" course_marks then
    contributions ← col "final_contribution" CarryMark.final_contribution course_marks;
    Ok (series_sum contributions)
  else
  (* Fallback to percentage-based calculation *)
  first ← from_option IndexError (head (rows course_info));
  carry_weight ←
    (if has_column "carry_weight" course_info then Ok (Course.carry_weight first)
     else Raise KeyError);
  avg_percentage ←
    (if has_column "percentage" course_marks then
       percentages ← col "percentage" CarryMark.percentage course_marks;
       Ok (series_mean percentages)
     else
       (* Calculate from earned/max_possible *)
       earned ← col "earned" CarryMark.earned course_marks;
       let total_earned := series_sum earned in
       max_possible ← col "max_possible" CarryMark.max_possible course_marks;
       let total_max := series_sum max_possible in
       if total_max > 0 then
         ratio ← total_earned / total_max;
         Ok (ratio * 100)
       else Ok 0);
  (* Return the contribution to final grade *)
  share ← avg_percentage / 100;
  Ok (share * carry_weight).

Definition calculate_workload_balance (assignments_df : DataFrame Assignment.t)
  : result (list (string * Balance.t T)) :=
  if empty assignments_df then Ok [] else
  codes ← col "course_code" Assignment.course_code assignments_df;
  let course_workload := groupby_size codes in
  let total_assignments := of_Z (Z.of_nat (len assignments_df)) in
  mapM
    (fun '(course, count) =>
       let count' := of_Z (Z.of_nat count) in
       share ← count' / total_assignments;
       Ok (course,
           Balance.mk count (share * 100)
             (if count' > total_assignments * of_Q 0.3 then "High"
              else if count' > total_assignments * of_Q 0.15 then "Medium"
              else "Low")))
    course_workload.

(** [format(x, ".1f")], the rendering of a number in an f-string. *)
Variable format_1f : T -> string.

Definition calculate_study_recommendations
  (course_stats_df : DataFrame (CourseStat.t T)) (assignments_df : DataFrame Assignment.t)
  : result (list string) :=
  let recommendations : list string := [] in
  if empty course_stats_df then
    Ok ["Add some carry marks to get personalized recommendations!"]
  else
  (* Find courses that need attention *)
  averages ← col "Average %" CourseStat.Average_pct course_stats_df;
  let low_performing_courses :=
    df_mask course_stats_df (List.map (fun a => a < of_Z 70) averages) in
  recommendations ←
    (if negb (empty low_performing_courses) then
       if has_column "Course Code" low_performing_courses then
         Ok (recommendations ++
             List.map
               (fun course =>
                  "📚 Focus more study time on " +:+ CourseStat.Course_Code course
                  +:+ " (current: " +:+ format_1f (CourseStat.Average_pct course) +:+ "%)")
               (rows low_performing_courses))%list
       else Raise KeyError
     else Ok recommendations);
  (* Find courses with low assignment completion *)
  recommendations ←
    (if negb (empty assignments_df) then
       codes ← col "course_code" Assignment.course_code assignments_df;
       statuses ← col "status" Assignment.status assignments_df;
       let keyed := zip codes statuses in
       let course_completion :=
         List.map
           (fun course =>
              let x := List.filter (fun r => String.eqb course r.1) keyed in
              let completed :=
                length (List.filter (fun r => String.eqb r.2 "completed") x) in
              (course,
               div (of_Z (Z.of_nat completed)) (of_Z (Z.of_nat (length x))) * 100))
           (sort_by String.leb (remove_dups codes)) in
       let low_completion :=
         List.filter (fun course => course.2 < of_Z 80) course_completion in
       Ok (recommendations ++
           List.map
             (fun course =>
                "📝 Improve assignment completion for " +:+ course.1
                +:+ " (current: " +:+ format_1f course.2 +:+ "%)")
             low_completion)%list
     else Ok recommendations);
  (* General recommendations based on overall performance *)
  let recommendations :=
    if negb (empty course_stats_df) then
      let avg_performance := series_mean averages in
      if avg_performance < of_Z 60 then
        (recommendations ++ ["🆘 Consider seeking academic support or tutoring services"])%list
      else if avg_performance < of_Z 75 then
        (recommendations ++ ["📖 Create a more structured study schedule"])%list
      else
        (recommendations ++ ["🎯 Great work! Focus on maintaining consistency"])%list
    else recommendations in
  Ok (match recommendations with
      | [] => ["Keep up the good work! 🎉"]
      | _ => recommendations
      end).

End CourseCalculators.

(** ** enhanced_analytics.py: the course statistics of [analytics_tab] *)

Module CourseStatRow.
Record t (T : Type) : Type := mk {
  Course_Code : string;
  Course_Name : string;
  Carry_pct : T;
  Current_Grade : T;
  Average_pct : T;
  Letter_Grade : string;
  Total_Assignments : nat;
  Completed_Assignments : nat;
  Carry_Weight : T;
  Exam_Weight : T
}.
Arguments mk {T}.
Arguments Course_Code {T}.
Arguments Course_Name {T}.
Arguments Carry_pct {T}.
Arguments Current_Grade {T}.
Arguments Average_pct {T}.
Arguments Letter_Grade {T}.
Arguments Total_Assignments {T}.
Arguments Completed_Assignments {T}.
Arguments Carry_Weight {T}.
Arguments Exam_Weight {T}.
End CourseStatRow.

Section CourseStatistics.
Context {T : Type} `{PyNum T}.
Local Open Scope py_scope.

(** [course[name]] on a row of [iterrows()]. *)
Definition cell {Row A} (name : string) (field : Row -> A) (df : DataFrame Row) (row : Row)
  : result A :=
  if has_column name df then Ok (field row) else Raise KeyError.

(** [df['percentage'] = (df['earned'] / df['max_possible'] * 100).fillna(0)],
    when the frame has no such column yet. *)
Definition ensure_percentage (carry_marks_df : DataFrame (CarryMark.t T))
  : result (DataFrame (CarryMark.t T)) :=
  if negb (has_column "percentage" carry_marks_df) then
    _ ← col "earned" CarryMark.earned carry_marks_df;
    _ ← col "max_possible" CarryMark.max_possible carry_marks_df;
    Ok (mkDF (columns carry_marks_df ++ ["percentage"])%list
          (List.map
             (fun r =>
                CarryMark.mk (CarryMark.course_code r) (CarryMark.element_type r)
                  (CarryMark.element_name r) (CarryMark.earned r)
                  (CarryMark.max_possible r) (CarryMark.weight_percentage r)
                  (CarryMark.final_contribution r)
                  (fillna0 (div (CarryMark.earned r) (CarryMark.max_possible r)
                            * of_Z 100))
                  (CarryMark.date_added r))
             (rows carry_marks_df)))
  else Ok carry_marks_df.

(** The list [course_stats] that [analytics_tab] builds, one entry per
    course; it stays empty when there are no carry marks. *)
Definition analytics_tab_course_stats
  (courses_df : DataFrame (Course.t T)) (carry_marks_df : DataFrame (CarryMark.t T))
  (assignments_df : DataFrame Assignment.t) : result (list (CourseStatRow.t T)) :=
  if negb (empty carry_marks_df) then
    (* Ensure percentage column exists *)
    carry_marks_df ← ensure_percentage carry_marks_df;
    (* Calculate comprehensive course statistics *)
    mapM
      (fun course =>
         course_code ← cell "code" Course.code courses_df course;
         course_name ← cell "name" Course.name courses_df course;
         carry_pct ← calculate_carry_percentage course_code carry_marks_df;
         current_grade ← calculate_current_grade course_code carry_marks_df courses_df;
         (* Calculate letter grade *)
         codes ← col "course_code" CarryMark.course_code carry_marks_df;
         let course_marks :=
           df_mask carry_marks_df (List.map (fun c => String.eqb c course_code) codes) in
         graded ←
           (if negb (empty course_marks) then
              percentages ← col "percentage" CarryMark.percentage course_marks;
              let avg_percentage := series_mean percentages in
              Ok (get_grade_letter avg_percentage, avg_percentage)
            else Ok ("N/A", of_Z 0));
         let '(letter_grade, avg_percentage) := graded in
         (* Count assignments for this course *)
         course_assignments ←
           (if negb (empty assignments_df) then
              codes ← col "course_code" Assignment.course_code assignments_df;
              Ok (df_mask assignments_df
                    (List.map (fun c => String.eqb c course_code) codes))
            else Ok (mkDF [] []));
         let total_assignments := len course_assignments in
         completed_assignments ←
           (if negb (empty course_assignments) then
              statuses ← col "status" Assignment.status course_assignments;
              Ok (len (df_mask course_assignments
                         (List.map (fun s => String.eqb s "completed") statuses)))
            else Ok 0%nat);
         carry_weight ← cell "carry_weight" Course.carry_weight courses_df course;
         exam_weight ← cell "exam_weight" Course.exam_weight courses_df course;
         Ok (CourseStatRow.mk course_code course_name carry_pct current_grade
               avg_percentage letter_grade total_assignments completed_assignments
               carry_weight exam_weight))
      (rows courses_df)
  else Ok [].

End CourseStatistics.

(** ** utils/data_manager.py: the remaining store operations

    Each cell of a collection is taken to be a dict object of its own, as
    the forms of the application build one per record; an in-place update
    of a record then changes that cell only. *)

Definition get_default_courses : list (gmap string value) :=
  [ course_record "BSD 1323" "Storytelling & Data Visualization" 60 40;
    course_record "BSD 2143" "Operational Research" 60 40;
    course_record "BUM 2413" "Applied Statistics" 60 40;
    course_record "BUM 2123" "Applied Calculus" 60 40;
    course_record "BCU 1023" "Programming Technique" 60 40;
    course_record "ULS 1312" "Spanish A1" 60 40;
    course_record "UHE 3032" "Introduction to Human Behaviour" 60 40 ].

Definition carry_mark_record (course_code element_type element_name : string)
  (earned max_possible weight_percentage final_contribution percentage : Q)
  (date_added : string) : gmap string value :=
  list_to_map
    [ ("course_code", VStr course_code); ("element_type", VStr element_type);
      ("element_name", VStr element_name); ("earned", VNum earned);
      ("max_possible", VNum max_possible);
      ("weight_percentage", VNum weight_percentage);
      ("final_contribution", VNum final_contribution);
      ("percentage", VNum percentage); ("date_added", VStr date_added) ].

Definition get_sample_carry_marks : list (gmap string value) :=
  [ carry_mark_record "BSD 1323" "Quiz" "Quiz 1" 18 20 10 9.0 90.0 "2025-01-15";
    carry_mark_record "BSD 1323" "Assignment" "Data Viz Project" 42 50 25 21.0 84.0
      "2025-01-22";
    carry_mark_record "BSD 2143" "Test" "Mid-term Test" 35 40 20 17.5 87.5 "2025-01-20";
    carry_mark_record "BUM 2413" "Lab" "Statistics Lab 1" 28 30 15 14.0 93.3
      "2025-01-18" ]%Q.

Definition assignment_record (title course_code type_ due_date status description : string)
  : gmap string value :=
  list_to_map
    [ ("title", VStr title); ("course_code", VStr course_code); ("type", VStr type_);
      ("due_date", VStr due_date); ("status", VStr status);
      ("description", VStr description) ].

Definition get_sample_assignments : list (gmap string value) :=
  [ assignment_record "Data Visualization Dashboard" "BSD 1323" "Project" "2025-08-15"
      "pending" "Create an interactive dashboard using Tableau";
    assignment_record "Linear Programming Exercise" "BSD 2143" "Assignment" "2025-08-10"
      "completed" "Solve optimization problems using simplex method";
    assignment_record "Hypothesis Testing Report" "BUM 2413" "Report" "2025-08-20"
      "pending" "Statistical analysis of provided dataset";
    assignment_record "Calculus Problem Set 3" "BUM 2123" "Problem Set" "2025-08-08"
      "completed" "Integration and differentiation problems";
    assignment_record "Python Programming Assignment" "BCU 1023" "Assignment" "2025-08-25"
      "in_progress" "Implement sorting algorithms" ].

(** The call returns whether it loaded the samples; the store is threaded. *)
Definition load_sample_data (st : SessionState) : bool * SessionState :=
  if negb (sample_data_loaded st) then
    (true,
     mkState (courses st) get_sample_carry_marks (final_exams st) get_sample_assignments
       (theme_color st) true)
  else (false, st).

(** [0 <= index < len(l)]. *)
Definition in_range {A} (index : Z) (l : list A) : bool :=
  ((0 <=? index) && (index <? Z.of_nat (length l)))%Z.

Definition add_course (course_data : gmap string value) (st : SessionState)
  : SessionState :=
  mkState (courses st ++ [course_data]) (carry_marks st) (final_exams st)
    (assignments st) (theme_color st) (sample_data_loaded st).

Definition update_course (index : Z) (course_data : gmap string value)
  (st : SessionState) : SessionState :=
  if in_range index (courses st) then
    mkState (<[Z.to_nat index := course_data]> (courses st)) (carry_marks st)
      (final_exams st) (assignments st) (theme_color st) (sample_data_loaded st)
  else st.

Definition add_assignment (assignment_data : gmap string value) (st : SessionState)
  : SessionState :=
  mkState (courses st) (carry_marks st) (final_exams st)
    (assignments st ++ [assignment_data]) (theme_color st) (sample_data_loaded st).

Definition update_assignment_status (index : Z) (new_status : value)
  (st : SessionState) : SessionState :=
  if in_range index (assignments st) then
    mkState (courses st) (carry_marks st) (final_exams st)
      (alter (fun a => <["status" := new_status]> a) (Z.to_nat index) (assignments st))
      (theme_color st) (sample_data_loaded st)
  else st.

Definition delete_assignment (index : Z) (st : SessionState) : SessionState :=
  if in_range index (assignments st) then
    mkState (courses st) (carry_marks st) (final_exams st)
      (delete (Z.to_nat index) (assignments st))
      (theme_color st) (sample_data_loaded st)
  else st.

Definition delete_carry_mark (index : Z) (st : SessionState) : SessionState :=
  if in_range index (carry_marks st) then
    mkState (courses st) (delete (Z.to_nat index) (carry_marks st)) (final_exams st)
      (assignments st) (theme_color st) (sample_data_loaded st)
  else st.

(** The truth value of a record entry: zero and the empty string are false. *)
Definition truthy (v : value) : bool :=
  match v with
  | VStr s => negb (String.eqb s "")
  | VNum q => negb (Qeq_bool q 0)
  end.

Section CarryMarkEntry.
(** [float(s)] on a string, [None] where it raises; and
    [datetime.now().strftime("%Y-%m-%d")] as a function of the clock. *)
Variable float_of_str : string -> option Q.
Variable strftime : Timestamp -> string.
Local Open Scope py_scope.

(** [float(v)]. *)
Definition to_float (v : value) : result Q :=
  match v with
  | VNum q => Ok q
  | VStr s => from_option ValueError (float_of_str s)
  end.

(** The lines [add_carry_mark] and [update_carry_mark] share: they fill in
    [percentage] when it is absent, then [final_contribution]. *)
Definition recalculate (carry_data : gmap string value) : result (gmap string value) :=
  (* Calculate percentage if not provided *)
  carry_data ←
    match carry_data !! "percentage", carry_data !! "earned",
          carry_data !! "max_possible" with
    | None, Some earned, Some max_possible =>
      max_possible ← (if truthy max_possible then to_float max_possible else Ok 1%Q);
      percentage ←
        (if max_possible > 0%Q then
           e ← to_float earned;
           ratio ← e / max_possible;
           Ok (ratio * 100%Q)
         else Ok 0%Q);
      Ok (<["percentage" := VNum percentage]> carry_data)
    | _, _, _ => Ok carry_data
    end;
  (* Calculate final contribution if weight is provided *)
  match carry_data !! "weight_percentage", carry_data !! "percentage" with
  | Some weight_percentage, Some percentage =>
    weight ← (if truthy weight_percentage then to_float weight_percentage else Ok 0%Q);
    percentage ← (if truthy percentage then to_float percentage else Ok 0%Q);
    share ← percentage / 100%Q;
    Ok (<["final_contribution" := VNum (share * weight)]> carry_data)
  | _, _ => Ok carry_data
  end.

Definition add_carry_mark (now : Timestamp) (carry_data : gmap string value)
  (st : SessionState) : result SessionState :=
  carry_data ← recalculate carry_data;
  let carry_data := <["date_added" := VStr (strftime now)]> carry_data in
  Ok (mkState (courses st) (carry_marks st ++ [carry_data]) (final_exams st)
        (assignments st) (theme_color st) (sample_data_loaded st)).

Definition update_carry_mark (index : Z) (carry_data : gmap string value)
  (st : SessionState) : result SessionState :=
  if in_range index (carry_marks st) then
    (* Recalculate percentage and contribution *)
    carry_data ← recalculate carry_data;
    Ok (mkState (courses st) (<[Z.to_nat index := carry_data]> (carry_marks st))
          (final_exams st) (assignments st) (theme_color st) (sample_data_loaded st))
  else Ok st.

End CarryMarkEntry.

(** ** Reference notions for the remaining functions *)

(** The overall grade of a course whose final exam is marked
    [exam_percentage]: the carry contribution, as
    [calculate_final_exam_requirement] computes it, plus the share of the
    exam. *)
Definition overall_grade (carry_percentage carry_weight exam_weight exam_percentage : Q) : Q :=
  ((carry_percentage / 100) * (carry_weight / 100) * 100
   + exam_percentage / 100 * exam_weight)%Q.

(** *** Deadlines *)

(** The instant the due date of a record is read to, if it has one that is
    readable. *)
Definition due_instant (to_datetime : string -> option Timestamp) (a : Assignment.t)
  : option Timestamp :=
  s ← Assignment.due_date a; to_datetime s.

(** The row of [calculate_time_to_deadline] for a record. *)
Definition deadline_row (to_datetime : string -> option Timestamp) (now : Timestamp)
  (a : Assignment.t) : DeadlineRow :=
  let d := due_instant to_datetime a in
  mkDeadline a d (option_map (fun t => ((t - now) / us_per_day)%Z) d).

(** Every due date is missing or readable. *)
Definition dates_readable (to_datetime : string -> option Timestamp)
  (rs : list Assignment.t) : Prop :=
  Forall (fun a => forall s, Assignment.due_date a = Some s -> is_Some (to_datetime s)) rs.

Definition is_pending (a : Assignment.t) : bool :=
  String.eqb (Assignment.status a) "pending".
Definition is_completed (a : Assignment.t) : bool :=
  String.eqb (Assignment.status a) "completed".
Definition has_due_date (a : Assignment.t) : bool :=
  bool_decide (is_Some (Assignment.due_date a)).

(** The whole days from [today] to the due day of a pending record whose
    due date is read; [None] for the records the loop passes over. *)
Definition days_to_due_day (to_datetime : string -> option Timestamp) (today : Z)
  (a : Assignment.t) : option Z :=
  if is_pending a then
    t ← due_instant to_datetime a; Some (day_of t - today)%Z
  else None.

Definition is_overdue (to_datetime : string -> option Timestamp) (today : Z)
  (a : Assignment.t) : bool :=
  match days_to_due_day to_datetime today a with
  | Some d => (d <? 0)%Z
  | None => false
  end.

Definition is_upcoming (to_datetime : string -> option Timestamp) (today : Z)
  (a : Assignment.t) : bool :=
  match days_to_due_day to_datetime today a with
  | Some d => ((0 <=? d) && (d <=? 7))%Z
  | None => false
  end.

(** The instant a [date_added] cell is read to, 0 standing for an
    unreadable one. *)
Definition instant_of (to_datetime : string -> option Timestamp) (r : CarryMark.t Q)
  : Timestamp :=
  default 0%Z (to_datetime (CarryMark.date_added r)).

(** *** Workload and completion by course *)

(** The number of rows of a course. *)
Definition rows_of_course (c : string) (df : DataFrame Assignment.t) : nat :=
  length (List.filter (fun a => String.eqb c (Assignment.course_code a)) (rows df)).

(** The entry of a course that holds [count] of [total] rows: its share in
    percent, and its level by the 30% and 15% marks. *)
Definition balance_of (count total : nat) : Balance.t Q :=
  let c := inject_Z (Z.of_nat count) in
  let t := inject_Z (Z.of_nat total) in
  Balance.mk count (c / t * 100)%Q
    (if Qle_bool c (t * 0.3) then
       if Qle_bool c (t * 0.15) then "Low" else "Medium"
     else "High").

(** The number of entries of a level. *)
Definition level_count (level : string) (table : list (string * Balance.t Q)) : nat :=
  length (List.filter (fun e => String.eqb (Balance.load_level e.2) level) table).

(** The share of completed rows among the rows of a course, in percent. *)
Definition completion_of (c : string) (df : DataFrame Assignment.t) : Q :=
  let x := List.filter (fun a => String.eqb c (Assignment.course_code a)) (rows df) in
  (inject_Z (Z.of_nat (length (List.filter is_completed x)))
   / inject_Z (Z.of_nat (length x)) * 100)%Q.

(** The courses of a frame of assignments whose completion is below 80. *)
Definition low_completion_courses (df : DataFrame Assignment.t) : list string :=
  if empty df then []
  else List.filter (fun c => negb (Qle_bool 80 (completion_of c df)))
         (remove_dups (List.map Assignment.course_code (rows df))).

(** *** The record store *)

(** What the recalculation leaves in [record], for data whose [earned],
    [max_possible] and [weight_percentage] are the numbers [e], [m] and [w]
    and which carry no [percentage]. *)
Definition recalculated (carry_data record : gmap string value) (e m w : Q) : Prop :=
  exists p c : Q,
    record !! "percentage" = Some (VNum p) /\
    record !! "final_contribution" = Some (VNum c) /\
    ((0 < m)%Q -> (p == e / m * 100)%Q) /\
    ((m == 0)%Q -> (p == e * 100)%Q) /\
    ((m < 0)%Q -> (p == 0)%Q) /\
    (c == p / 100 * w)%Q /\
    (forall k, k <> "percentage" -> k <> "final_contribution" ->
               record !! k = carry_data !! k).

(** The course code of a record is the code of a listed course. *)
Definition course_listed (listed : list (gmap string value)) (d : gmap string value) : bool :=
  match d !! "course_code" with
  | Some code =>
    existsb (fun c => match c !! "code" with
                      | Some v => value_eqb v code
                      | None => false
                      end) listed
  | None => false
  end.

(** What [analytics_tab] records for a course, given the frames it read. *)
Definition course_statistics (marks : DataFrame (CarryMark.t Q))
  (work : DataFrame Assignment.t) (course : Course.t Q) (s : CourseStatRow.t Q) : Prop :=
  CourseStatRow.Course_Code s = Course.code course /\
  CourseStatRow.Course_Name s = Course.name course /\
  CourseStatRow.Carry_Weight s = Course.carry_weight course /\
  CourseStatRow.Exam_Weight s = Course.exam_weight course /\
  CourseStatRow.Carry_pct s = CourseStatRow.Average_pct s /\
  (CourseStatRow.Letter_Grade s = "N/A" <-> marks_of (Course.code course) marks = []) /\
  (marks_of (Course.code course) marks = [] ->
     CourseStatRow.Average_pct s = 0%Q /\ CourseStatRow.Current_Grade s = 0%Q) /\
  (marks_of (Course.code course) marks <> [] ->
     CourseStatRow.Letter_Grade s = get_grade_letter (CourseStatRow.Average_pct s)) /\
  (CourseStatRow.Completed_Assignments s <= CourseStatRow.Total_Assignments s)%nat /\
  (CourseStatRow.Total_Assignments s <= len work)%nat.

(** ** Further worked data (the sample data of [data_manager.py]) *)

Definition courses_frame {T} (rs : list (Course.t T)) : DataFrame (Course.t T) :=
  mkDF ["code"; "name"; "carry_weight"; "exam_weight"] rs.

(** Two of the default courses, as [get_courses_df] frames them. *)
Definition sample_courses : DataFrame (Course.t Q) :=
  courses_frame [ Course.mk "BSD 1323" "Storytelling & Data Visualization" 60 40;
                  Course.mk "BSD 2143" "Operational Research" 60 40 ]%Q.

(** The first two sample marks, by [earned] and [max_possible] only. *)
Definition quiz_marks : DataFrame (CarryMark.t Q) :=
  marks_frame [ mark "BSD 1323" 18 20; mark "BSD 1323" 42 50 ].

(** The sample assignments, with one due date left out. *)
Definition sample_assignments : DataFrame Assignment.t :=
  assignments_frame
    [ Assignment.mk "Data Visualization Dashboard" "BSD 1323" "Project"
        (Some "2025-08-15") "pending" "Create an interactive dashboard using Tableau";
      Assignment.mk "Linear Programming Exercise" "BSD 2143" "Assignment"
        (Some "2025-08-10") "completed" "Solve optimization problems using simplex method";
      Assignment.mk "Hypothesis Testing Report" "BUM 2413" "Report"
        (Some "2025-08-20") "pending" "Statistical analysis of provided dataset";
      Assignment.mk "Calculus Problem Set 3" "BUM 2123" "Problem Set"
        (Some "2025-08-08") "completed" "Integration and differentiation problems";
      Assignment.mk "Python Programming Assignment" "BCU 1023" "Assignment"
        None "in_progress" "Implement sorting algorithms" ].

(** The assignment of the sample data that is due on 2025-08-15. *)
Definition dashboard : Assignment.t :=
  Assignment.mk "Data Visualization Dashboard" "BSD 1323" "Project"
    (Some "2025-08-15") "pending" "Create an interactive dashboard using Tableau".

(** Course statistics as [analytics_tab] frames them: two marked courses
    and one without marks. *)
Definition stats_columns : list string :=
  [ "Course Code"; "Course Name"; "Carry %"; "Current Grade"; "Average %";
    "Letter Grade"; "Total Assignments"; "Completed Assignments"; "Carry Weight";
    "Exam Weight" ].
Definition marked_courses : list (CourseStat.t Q) :=
  [ CourseStat.mk "BSD 1323" 87 "A" 60 40; CourseStat.mk "BSD 2143" 87.5 "A" 60 40 ]%Q.
Definition unmarked_course : CourseStat.t Q :=
  (CourseStat.mk "BUM 2123" 0 "N/A" 60 40)%Q.
Definition sample_stats : DataFrame (CourseStat.t Q) :=
  mkDF stats_columns (marked_courses ++ [unmarked_course])%list.

(** A carry mark as the entry form hands it over: no [percentage] yet. *)
Definition new_mark : gmap string value :=
  list_to_map
    [ ("course_code", VStr "BSD 1323"); ("element_type", VStr "Quiz");
      ("element_name", VStr "Quiz 2"); ("earned", VNum 18); ("max_possible", VNum 20);
      ("weight_percentage", VNum 10) ].

(** A reader of ISO dates that places a date at noon, and a rendering of
    the clock that ignores it. *)
Definition read_iso_noon (s : string) : option Timestamp :=
  t ← read_iso_date s; Some (t + us_per_day / 2)%Z.
Definition fixed_day (now : Timestamp) : string := "2025-08-14".
Definition no_float (s : string) : option Q := None.
Definition plain_format (x : Q) : string := "0.0".

(** ** The analyzers as programs over frame objects and a clock

    A pandas frame is an object: [df.copy()] makes a new one, and
    [df[name] = cells] changes the one [df] refers to, for every holder of
    the reference.  [datetime.now()] and [pd.Timestamp.now()] read the
    clock.  A world is the clock together with the frame objects that
    exist; a program takes a world to a result (or an exception) and the
    world it leaves.  Module-level variables would be part of the world as
    well: [enhanced_calculations.py] has none. *)

Definition loc : Type := nat.

(** The frames the record store supplies, by the records they hold. *)
Inductive Table (T : Type) : Type :=
| Courses (df : DataFrame (Course.t T))
| CarryMarks (df : DataFrame (CarryMark.t T))
| Assignments (df : DataFrame Assignment.t)
| CourseStats (df : DataFrame (CourseStat.t T)).
Arguments Courses {T}.
Arguments CarryMarks {T}.
Arguments Assignments {T}.
Arguments CourseStats {T}.

(** The cells a program assigns to a column: instants ([datetime64], NaT
    as [None]), whole numbers (weeks, day counts) or numbers. *)
Inductive Cells (T : Type) : Type :=
| Instants (v : list (option Timestamp))
| Integers (v : list (option Z))
| Numbers (v : list T).
Arguments Instants {T}.
Arguments Integers {T}.
Arguments Numbers {T}.

(** A frame object: the table it was built from and the columns assigned
    since, the latest first. *)
Record Object (T : Type) : Type := mkObject {
  table : Table T;
  assigned : list (string * Cells T)
}.
Arguments mkObject {T}.
Arguments table {T}.
Arguments assigned {T}.

Record World (T : Type) : Type := mkWorld {
  clock : Timestamp;
  heap : list (Object T)
}.
Arguments mkWorld {T}.
Arguments clock {T}.
Arguments heap {T}.

Definition Program (T A : Type) : Type := World T -> result A * World T.

Definition program_ret {T A} (a : A) : Program T A := fun w => (Ok a, w).
Definition program_bind {T A B} (m : Program T A) (k : A -> Program T B)
  : Program T B :=
  fun w => match m w with
           | (Ok a, w') => k a w'
           | (Raise e, w') => (Raise e, w')
           end.

Declare Scope program_scope.
Delimit Scope program_scope with program.
Notation "x <- m ;; k" := (program_bind m (fun x => k))
  (at level 100, m at next level, right associativity) : program_scope.
Notation "m ;;; k" := (program_bind m (fun _ => k))
  (at level 100, right associativity) : program_scope.

Section Programs.
Context {T : Type} `{PyNum T}.
Variable polyfit : list T -> list T -> result T.
Variable strptime : string -> option Timestamp.
Variable to_datetime : string -> option Timestamp.
Variable format_1f : T -> string.
Local Open Scope program_scope.

(** A value or an exception of a computation that touches no object. *)
Definition lift {A} (r : result A) : Program T A := fun w => (r, w).

(** [datetime.now()], [pd.Timestamp.now()]. *)
Definition now : Program T Timestamp := fun w => (Ok (clock w), w).

(** The object a reference points to; a reference to no object does not
    occur in Python, here it raises. *)
Definition load (p : loc) : Program T (Object T) :=
  fun w => (from_option KeyError (heap w !! p), w).

(** [try: body except: return handler]. *)
Definition try_except_program {A} (body : Program T A) (handler : A) : Program T A :=
  fun w => match body w with
           | (Ok a, w') => (Ok a, w')
           | (Raise _, w') => (Ok handler, w')
           end.

(** A new object. *)
Definition alloc (o : Object T) : Program T loc :=
  fun w => (Ok (length (heap w)), mkWorld (clock w) (heap w ++ [o])).

(** [df.copy()]. *)
Definition copy (p : loc) : Program T loc :=
  o <- load p ;; alloc o.

(** [df[name] = cells]. *)
Definition assign (p : loc) (name : string) (cells : Cells T) : Program T unit :=
  fun w => match heap w !! p with
           | Some o =>
             (Ok tt, mkWorld (clock w)
                       (<[p := mkObject (table o) ((name, cells) :: assigned o)]> (heap w)))
           | None => (Raise KeyError, w)
           end.

(** The table behind a reference, by the kind of its records. *)
Definition courses_table (p : loc) : Program T (DataFrame (Course.t T)) :=
  o <- load p ;;
  lift (match table o with Courses df => Ok df | _ => Raise TypeError end).
Definition carry_marks_table (p : loc) : Program T (DataFrame (CarryMark.t T)) :=
  o <- load p ;;
  lift (match table o with CarryMarks df => Ok df | _ => Raise TypeError end).
Definition assignments_table (p : loc) : Program T (DataFrame Assignment.t) :=
  o <- load p ;;
  lift (match table o with Assignments df => Ok df | _ => Raise TypeError end).
Definition course_stats_table (p : loc) : Program T (DataFrame (CourseStat.t T)) :=
  o <- load p ;;
  lift (match table o with CourseStats df => Ok df | _ => Raise TypeError end).

(** [df[name]] for a column the program has assigned. *)
Definition assigned_column (p : loc) (name : string) : Program T (Cells T) :=
  o <- load p ;;
  lift (from_option KeyError (snd <$> List.find (fun c => String.eqb (fst c) name) (assigned o))).
Definition instants (p : loc) (name : string) : Program T (list (option Timestamp)) :=
  c <- assigned_column p name ;;
  lift (match c with Instants v => Ok v | _ => Raise TypeError end).
Definition integers (p : loc) (name : string) : Program T (list (option Z)) :=
  c <- assigned_column p name ;;
  lift (match c with Integers v => Ok v | _ => Raise TypeError end).
Definition numbers (p : loc) (name : string) : Program T (list T) :=
  c <- assigned_column p name ;;
  lift (match c with Numbers v => Ok v | _ => Raise TypeError end).


(** The functions of [enhanced_calculations.py], each on references to
    the frames it is passed.  A function that only reads its frames
    ([df[mask]], [df[name]], [groupby], [iterrows] build new values) is the
    calculation on the tables behind the references; the three that write
    ([get_weekly_workload], [get_performance_trend],
    [calculate_time_to_deadline]) are given statement by statement. *)

Definition run_calculate_carry_percentage (course_code : string) (carry_marks_df : loc)
  : Program T T :=
  df <- carry_marks_table carry_marks_df ;;
  lift (calculate_carry_percentage course_code df).

Definition run_calculate_final_exam_requirement
  (target_grade carry_percentage carry_weight exam_weight : T) : Program T T :=
  lift (calculate_final_exam_requirement target_grade carry_percentage carry_weight
          exam_weight).

Definition run_calculate_current_grade (course_code : string)
  (carry_marks_df courses_df : loc) : Program T T :=
  marks <- carry_marks_table carry_marks_df ;;
  info <- courses_table courses_df ;;
  lift (calculate_current_grade course_code marks info).

Definition run_get_grade_letter (percentage : T) : Program T string :=
  program_ret (get_grade_letter percentage).

Definition run_calculate_days_until_due (due_date_str : string) : Program T Z :=
  try_except_program
    (due_date <- lift (from_option ValueError (strptime due_date_str)) ;;
     today <- now ;;
     let delta := (due_date - today)%Z in
     program_ret (delta / us_per_day)%Z)
    0%Z.

Definition run_get_weekly_workload (assignments_df : loc)
  : Program T (list WeeklyRow) :=
  df <- assignments_table assignments_df ;;
  if empty df then program_ret [] else
  assignments_df <- copy assignments_df ;;
  df <- assignments_table assignments_df ;;
  cells <- lift (col "due_date" Assignment.due_date df) ;;
  due_date <- lift (mapM (to_datetime_cell to_datetime) cells) ;;
  assign assignments_df "due_date" (Instants due_date) ;;;
  due_date <- instants assignments_df "due_date" ;;
  assign assignments_df "week" (Integers (List.map (option_map week_of) due_date)) ;;;
  week <- integers assignments_df "week" ;;
  _ <- lift (col "title" Assignment.title df) ;;
  statuses <- lift (col "status" Assignment.status df) ;;
  let keyed := zip week statuses in
  let groups := sort_by Z.leb (remove_dups (omap id week)) in
  program_ret
    (List.map
       (fun w =>
          mkWeek w
            (length (List.filter (fun r => bool_decide (r.1 = Some w)) keyed))
            (length (List.filter
                       (fun r => bool_decide (r.1 = Some w)
                                 && String.eqb r.2 "pending") keyed)))
       groups).

Definition run_calculate_completion_rate (assignments_df : loc) : Program T T :=
  df <- assignments_table assignments_df ;;
  lift (calculate_completion_rate df).

Definition run_calculate_weighted_gpa (course_stats_df : loc) : Program T T :=
  df <- course_stats_table course_stats_df ;;
  lift (calculate_weighted_gpa df).

Definition run_get_performance_trend (carry_marks_df : loc) : Program T string :=
  marks <- carry_marks_table carry_marks_df ;;
  if empty marks || (len marks <? 2)%nat then program_ret "Insufficient data" else
  df <- copy carry_marks_df ;;
  (if negb (has_column "percentage" marks) then
     earned <- lift (col "earned" CarryMark.earned marks) ;;
     max_possible <- lift (col "max_possible" CarryMark.max_possible marks) ;;
     assign df "percentage"
       (Numbers (zip_with (fun e m => fillna0 (div e m * of_Z 100))%py
                   earned max_possible))
   else program_ret tt) ;;;
  if negb (has_column "date_added" marks) then program_ret "No date information" else
  cells <- lift (col "date_added" CarryMark.date_added marks) ;;
  date_added <- lift (mapM (fun s => from_option ValueError (to_datetime s)) cells) ;;
  assign df "date_added" (Instants (List.map Some date_added)) ;;;
  percentage <- (if has_column "percentage" marks
                 then lift (col "percentage" CarryMark.percentage marks)
                 else numbers df "percentage") ;;
  let sorted := sort_by (fun r1 r2 => (r1.1 <=? r2.1)%Z) (zip date_added percentage) in
  let x := arange (length sorted) in
  let y := List.map snd sorted in
  if (length x <? 2)%nat then program_ret "Insufficient data" else
  slope <- lift (polyfit x y) ;;
  if (slope > of_Z 2)%py then program_ret "Improving"
  else if (slope < of_Z (-2))%py then program_ret "Declining"
  else program_ret "Stable".

Definition run_calculate_study_recommendations (course_stats_df assignments_df : loc)
  : Program T (list string) :=
  stats <- course_stats_table course_stats_df ;;
  df <- assignments_table assignments_df ;;
  lift (calculate_study_recommendations format_1f stats df).

Definition run_calculate_time_to_deadline (assignments_df : loc)
  : Program T (list DeadlineRow) :=
  df <- assignments_table assignments_df ;;
  if empty df then program_ret [] else
  statuses <- lift (col "status" Assignment.status df) ;;
  pending_assignments <-
    alloc (mkObject
             (Assignments (df_mask df (List.map (fun s => String.eqb s "pending") statuses)))
             []) ;;
  pending <- assignments_table pending_assignments ;;
  if empty pending then program_ret [] else
  cells <- lift (col "due_date" Assignment.due_date pending) ;;
  due_date <- lift (mapM (to_datetime_cell to_datetime) cells) ;;
  assign pending_assignments "due_date" (Instants due_date) ;;;
  due_date <- instants pending_assignments "due_date" ;;
  today <- now ;;
  assign pending_assignments "days_remaining"
    (Integers (List.map (option_map (fun t => ((t - today) / us_per_day)%Z)) due_date)) ;;;
  days <- integers pending_assignments "days_remaining" ;;
  let table :=
    zip_with (fun a_d r => mkDeadline a_d.1 a_d.2 r) (zip (rows pending) due_date) days in
  program_ret
    (sort_by (fun r1 r2 => na_last_le (days_remaining r1) (days_remaining r2)) table).

Definition run_calculate_workload_balance (assignments_df : loc)
  : Program T (list (string * Balance.t T)) :=
  df <- assignments_table assignments_df ;;
  lift (calculate_workload_balance df).

(** A call of one of the twelve functions with its arguments, and what a
    call hands back. *)
Inductive Call : Type :=
| Carry_percentage (course_code : string) (carry_marks_df : loc)
| Final_exam_requirement (target_grade carry_percentage carry_weight exam_weight : T)
| Current_grade (course_code : string) (carry_marks_df courses_df : loc)
| Grade_letter (percentage : T)
| Days_until_due (due_date_str : string)
| Weekly_workload (assignments_df : loc)
| Completion_rate (assignments_df : loc)
| Weighted_gpa (course_stats_df : loc)
| Performance_trend (carry_marks_df : loc)
| Study_recommendations (course_stats_df assignments_df : loc)
| Time_to_deadline (assignments_df : loc)
| Workload_balance (assignments_df : loc).

Inductive Returned : Type :=
| Number (x : T)
| Text (s : string)
| Days (d : Z)
| Weeks (rows : list WeeklyRow)
| Deadlines (rows : list DeadlineRow)
| Lines (l : list string)
| Balances (b : list (string * Balance.t T)).

Definition returning {A} (tag : A -> Returned) (m : Program T A) : Program T Returned :=
  a <- m ;; program_ret (tag a).

Definition call (c : Call) : Program T Returned :=
  match c with
  | Carry_percentage code p => returning Number (run_calculate_carry_percentage code p)
  | Final_exam_requirement g c cw ew =>
    returning Number (run_calculate_final_exam_requirement g c cw ew)
  | Current_grade code p q => returning Number (run_calculate_current_grade code p q)
  | Grade_letter x => returning Text (run_get_grade_letter x)
  | Days_until_due s => returning Days (run_calculate_days_until_due s)
  | Weekly_workload p => returning Weeks (run_get_weekly_workload p)
  | Completion_rate p => returning Number (run_calculate_completion_rate p)
  | Weighted_gpa p => returning Number (run_calculate_weighted_gpa p)
  | Performance_trend p => returning Text (run_get_performance_trend p)
  | Study_recommendations p q =>
    returning Lines (run_calculate_study_recommendations p q)
  | Time_to_deadline p => returning Deadlines (run_calculate_time_to_deadline p)
  | Workload_balance p => returning Balances (run_calculate_workload_balance p)
  end.

(** The frames a call is passed, and whether its function reads the clock. *)
Definition arguments (c : Call) : list loc :=
  match c with
  | Carry_percentage _ p | Weekly_workload p | Completion_rate p | Weighted_gpa p
  | Performance_trend p | Time_to_deadline p | Workload_balance p => [p]
  | Current_grade _ p q | Study_recommendations p q => [p; q]
  | Final_exam_requirement _ _ _ _ | Grade_letter _ | Days_until_due _ => []
  end.

Definition reads_clock (c : Call) : bool :=
  match c with
  | Days_until_due _ | Time_to_deadline _ => true
  | _ => false
  end.

(** What a call should hand back if the functions kept nothing between
    calls and wrote to none of their frames: the calculation on the tables
    behind the arguments, at one reading of the clock. *)
Definition calculation (c : Call) (today : Timestamp) (objects : list (Object T))
  : result Returned :=
  let courses_at p :=
    o ← from_option KeyError (objects !! p);
    match table o with Courses df => Ok df | _ => Raise TypeError end in
  let carry_marks_at p :=
    o ← from_option KeyError (objects !! p);
    match table o with CarryMarks df => Ok df | _ => Raise TypeError end in
  let assignments_at p :=
    o ← from_option KeyError (objects !! p);
    match table o with Assignments df => Ok df | _ => Raise TypeError end in
  let course_stats_at p :=
    o ← from_option KeyError (objects !! p);
    match table o with CourseStats df => Ok df | _ => Raise TypeError end in
  match c with
  | Carry_percentage code p =>
    df ← carry_marks_at p; Number <$> calculate_carry_percentage code df
  | Final_exam_requirement g c cw ew =>
    Number <$> calculate_final_exam_requirement g c cw ew
  | Current_grade code p q =>
    marks ← carry_marks_at p; info ← courses_at q;
    Number <$> calculate_current_grade code marks info
  | Grade_letter x => Ok (Text (get_grade_letter x))
  | Days_until_due s => Ok (Days (calculate_days_until_due strptime today s))
  | Weekly_workload p =>
    df ← assignments_at p; Weeks <$> get_weekly_workload to_datetime df
  | Completion_rate p => df ← assignments_at p; Number <$> calculate_completion_rate df
  | Weighted_gpa p => df ← course_stats_at p; Number <$> calculate_weighted_gpa df
  | Performance_trend p =>
    df ← carry_marks_at p; Text <$> get_performance_trend polyfit to_datetime df
  | Study_recommendations p q =>
    stats ← course_stats_at p; df ← assignments_at q;
    Lines <$> calculate_study_recommendations format_1f stats df
  | Time_to_deadline p =>
    df ← assignments_at p; Deadlines <$> calculate_time_to_deadline to_datetime today df
  | Workload_balance p => df ← assignments_at p; Balances <$> calculate_workload_balance df
  end.

(** One call after another, each in the world the one before left. *)
Definition call_all (cs : list Call) (w : World T) : World T :=
  fold_left (fun w c => snd (call c w)) cs w.

End Programs.

Arguments Call : clear implicits.
Arguments Returned : clear implicits.

(** What a world can look like after a program that keeps to its own
    copies: the clock where it was, the objects that were there as they
    were, and new objects after them. *)
Definition extends {T} (w w' : World T) : Prop :=
  exists fresh, w' = mkWorld (clock w) (heap w ++ fresh)%list.

(** A frame as the record store supplies it: no column assigned since. *)
Definition supplied {T} (w : World T) (p : loc) : Prop :=
  exists t, heap w !! p = Some (mkObject t []).

(** The time passing: the same objects under another reading of the clock. *)
Definition at_time {T} (t : Timestamp) (w : World T) : World T :=
  mkWorld t (heap w).

(** The day number of the first midnight at or after an instant. *)
Definition next_midnight (t : Timestamp) : Z := (- ((- t) / us_per_day))%Z.

(** A parser reads the string to a midnight: a date without a time of day. *)
Definition read_to_midnight (parse : string -> option Timestamp) (s : string) : Prop :=
  forall d, parse s = Some d -> (d mod us_per_day = 0)%Z.

(** ** Worked data for the trend and for two calls in a row *)

(** The label [get_performance_trend] gives to a slope. *)
Definition trend_label {T} `{PyNum T} (slope : T) : string :=
  if ltb (of_Z 2) slope then "Improving"
  else if ltb slope (of_Z (-2)) then "Declining"
  else "Stable".

(** A fit that is off the least-squares slope by no more than [eps]. *)
Definition within (eps : Q) (polyfit : list Q -> list Q -> result Q) : Prop :=
  forall x y, exists slope,
    polyfit x y = Ok slope /\
    (least_squares_slope x y - eps <= slope <= least_squares_slope x y + eps)%Q.

(** The least-squares slope in exact arithmetic, as a fit. *)
Definition exact_polyfit (x y : list Q) : result Q := Ok (least_squares_slope x y).

(** A mark given by [earned], [max_possible] and its date, and a frame of
    such marks: it has no [percentage] column. *)
Definition scored_mark {T} `{PyNum T} (earned max_possible : Z) (date_added : string)
  : CarryMark.t T :=
  CarryMark.mk "C1" "Quiz" "" (of_Z earned) (of_Z max_possible) (of_Z 0) (of_Z 0)
    (of_Z 0) date_added.
Definition scored_frame {T} (rs : list (CarryMark.t T)) : DataFrame (CarryMark.t T) :=
  mkDF ["course_code"; "earned"; "max_possible"; "date_added"] rs.

(** A world at noon of 2025-08-14 that holds one frame of assignments. *)
Definition one_assignment : DataFrame Assignment.t :=
  assignments_frame [assignment_of "pending" (Some "2025-08-16")].
Definition noon_world : World Q :=
  mkWorld noon_aug_14 [mkObject (Assignments one_assignment) []].

(** * Properties *)

(** ** Comparisons of the two number instances *)

Lemma Q_eqb_iff (x y : Q) : eqb x y = true <-> (x == y)%Q.
Proof. apply Qeq_bool_iff. Qed.

Lemma Q_leb_iff (x y : Q) : leb x y = true <-> (x <= y)%Q.
Proof. apply Qle_bool_iff. Qed.

Lemma Q_ltb_iff (x y : Q) : ltb x y = true <-> (x < y)%Q.
Proof.
  simpl. rewrite negb_true_iff, <- not_true_iff_false, Qle_bool_iff.
  split; [apply Qnot_le_lt | apply Qlt_not_le].
Qed.

Lemma Q_eqb_false (x y : Q) : eqb x y = false <-> ~ (x == y)%Q.
Proof. rewrite <- not_true_iff_false. now rewrite Q_eqb_iff. Qed.

Lemma Q_leb_false (x y : Q) : leb x y = false <-> (y < x)%Q.
Proof.
  rewrite <- not_true_iff_false, Q_leb_iff.
  split; [apply Qnot_le_lt | apply Qlt_not_le].
Qed.

Lemma Q_ltb_false (x y : Q) : ltb x y = false <-> (y <= x)%Q.
Proof.
  rewrite <- not_true_iff_false, Q_ltb_iff.
  split; [apply Qnot_lt_le | apply Qle_not_lt].
Qed.

(** Moves every comparison of the exact instance in the context to [Prop]. *)
Ltac q_props :=
  repeat match goal with
  | H : eqb (T:=Q) _ _ = true |- _ => apply Q_eqb_iff in H
  | H : eqb (T:=Q) _ _ = false |- _ => apply Q_eqb_false in H
  | H : leb (T:=Q) _ _ = true |- _ => apply Q_leb_iff in H
  | H : leb (T:=Q) _ _ = false |- _ => apply Q_leb_false in H
  | H : ltb (T:=Q) _ _ = true |- _ => apply Q_ltb_iff in H
  | H : ltb (T:=Q) _ _ = false |- _ => apply Q_ltb_false in H
  end.

Section FloatOrder.

Lemma SFcompare_antisym (x y : spec_float) :
  SFcompare y x = option_map CompOpp (SFcompare x y).
Proof.
  destruct x as [sx|sx| |sx mx ex], y as [sy|sy| |sy my ey]; simpl; try reflexivity;
    try (destruct sx; reflexivity); try (destruct sy; reflexivity);
    try (destruct sx, sy; reflexivity).
  change (Pos.compare_cont Eq my mx) with (Pos.compare my mx).
  change (Pos.compare_cont Eq mx my) with (Pos.compare mx my).
  rewrite (Z.compare_antisym ey ex), (Pos.compare_antisym my mx).
  destruct sx, sy; try reflexivity;
    destruct (ey ?= ex)%Z; simpl; try reflexivity;
    destruct (my ?= mx)%positive; reflexivity.
Qed.

Lemma SFleb_trans (x y z : spec_float) :
  SFleb x y = true -> SFleb y z = true -> SFleb x z = true.
Proof.
  unfold SFleb.
  destruct x as [sx|sx| |sx mx ex], y as [sy|sy| |sy my ey], z as [sz|sz| |sz mz ez];
    simpl; try discriminate; try reflexivity;
    try (destruct sx; try discriminate; try reflexivity);
    try (destruct sy; try discriminate; try reflexivity);
    try (destruct sz; try discriminate; try reflexivity);
    change (Pos.compare_cont Eq mx my) with (Pos.compare mx my);
    change (Pos.compare_cont Eq my mz) with (Pos.compare my mz);
    change (Pos.compare_cont Eq mx mz) with (Pos.compare mx mz);
    destruct (Z.compare_spec ex ey), (Z.compare_spec ey ez), (Z.compare_spec ex ez);
    try discriminate; try reflexivity; try lia; subst;
    destruct (Pos.compare_spec mx my), (Pos.compare_spec my mz), (Pos.compare_spec mx mz);
    simpl; try discriminate; try reflexivity; try lia.
Qed.

Lemma SFcompare_refl (x : spec_float) :
  SFcompare x x = match x with S754_nan => None | _ => Some Eq end.
Proof.
  destruct x as [s|s| |s m e]; simpl; try reflexivity; try (destruct s; reflexivity).
  change (Pos.compare_cont Eq m m) with (Pos.compare m m).
  rewrite Z.compare_refl, Pos.compare_refl. destruct s; reflexivity.
Qed.

Lemma SFcompare_None (x y : spec_float) :
  SFcompare x y = None -> x = S754_nan \/ y = S754_nan.
Proof.
  destruct x as [sx|sx| |sx mx ex], y as [sy|sy| |sy my ey]; simpl; auto; discriminate.
Qed.

Lemma float_isna_iff (x : float) : isna x = true <-> Prim2SF x = S754_nan.
Proof.
  simpl. unfold PrimFloat.is_nan. rewrite negb_true_iff, FloatAxioms.eqb_spec.
  unfold SFeqb. rewrite SFcompare_refl.
  destruct (Prim2SF x); split; congruence.
Qed.

Lemma float_leb_trans (x y z : float) :
  leb x y = true -> leb y z = true -> leb x z = true.
Proof. simpl. rewrite !FloatAxioms.leb_spec. apply SFleb_trans. Qed.

Lemma float_ltb_leb (x y : float) : ltb x y = true -> leb x y = true.
Proof.
  simpl. rewrite FloatAxioms.ltb_spec, FloatAxioms.leb_spec. unfold SFltb, SFleb.
  destruct (SFcompare _ _) as [[]|]; congruence.
Qed.

(** On two numbers neither of which is NaN, [<] is the negation of [>=]. *)
Lemma float_ltb_negb_leb (x y : float) :
  isna x = false -> isna y = false -> ltb x y = negb (leb y x).
Proof.
  intros Hx Hy.
  assert (Prim2SF x <> S754_nan) by (rewrite <- float_isna_iff; congruence).
  assert (Prim2SF y <> S754_nan) by (rewrite <- float_isna_iff; congruence).
  simpl. rewrite FloatAxioms.ltb_spec, FloatAxioms.leb_spec. unfold SFltb, SFleb.
  rewrite (SFcompare_antisym (Prim2SF x) (Prim2SF y)).
  destruct (SFcompare (Prim2SF x) (Prim2SF y)) as [[]|] eqn:E; try reflexivity.
  apply SFcompare_None in E. tauto.
Qed.

End FloatOrder.

(** ** Grade calculator: the final-exam requirement *)

Lemma Q_clamp (lo hi v : Q) :
  (lo <= hi)%Q -> clamped lo hi v (py_max lo (py_min hi v)).
Proof.
  intros Hlh. unfold clamped, py_max, py_min.
  destruct (ltb v hi) eqn:E1.
  - destruct (ltb lo v) eqn:E2; q_props; repeat split; intros; lra.
  - destruct (ltb lo hi) eqn:E2; q_props; repeat split; intros; lra.
Qed.

Lemma final_exam_requirement_exact (tg cp cw ew : Q) :
  exists r : Q,
    calculate_final_exam_requirement tg cp cw ew = Ok r /\
    ((ew == 0)%Q -> r = 0%Q) /\
    (~ (ew == 0)%Q -> clamped 0 100 (required_exam_percentage tg cp cw ew) r).
Proof.
  unfold calculate_final_exam_requirement, truediv.
  change (eqb (of_Z 100) (of_Z 0)) with false. cbv iota.
  destruct (eqb ew (of_Z 0)) eqn:E; q_props.
  - eexists; split; [reflexivity|]. split; [reflexivity | tauto].
  - eexists; split; [reflexivity|]. split; [tauto|]. intros _.
    apply (Q_clamp 0 100). lra.
Qed.

Lemma float_clamp_range (v : float) :
  let r := py_max (of_Z 0) (py_min (of_Z 100) v) in
  leb (of_Z 0) r = true /\ leb r (of_Z 100) = true.
Proof.
  unfold py_max, py_min.
  destruct (ltb v (of_Z 100)) eqn:E1.
  - destruct (ltb (of_Z 0) v) eqn:E2.
    + split; apply float_ltb_leb; assumption.
    + split; vm_compute; reflexivity.
  - split; vm_compute; reflexivity.
Qed.

Lemma final_exam_requirement_binary64 (tg cp cw ew : float) :
  exists r : float,
    calculate_final_exam_requirement tg cp cw ew = Ok r /\
    (eqb ew (of_Z 0) = true -> r = of_Z 0) /\
    (eqb ew (of_Z 0) = false ->
       r = py_max (of_Z 0) (py_min (of_Z 100)
             (mul (div (sub tg (mul (mul (div cp (of_Z 100)) (div cw (of_Z 100)))
                                    (of_Z 100))) ew) (of_Z 100)))) /\
    leb (of_Z 0) r = true /\ leb r (of_Z 100) = true.
Proof.
  unfold calculate_final_exam_requirement, truediv.
  replace (eqb (T:=float) (of_Z 100) (of_Z 0)) with false by (vm_compute; reflexivity).
  cbv iota.
  destruct (eqb ew (of_Z 0)) eqn:E.
  - eexists; split; [reflexivity|]. repeat split; try congruence; vm_compute; reflexivity.
  - eexists; split; [reflexivity|]. split; [congruence|]. split; [reflexivity|].
    apply float_clamp_range.
Qed.

(** C1, as the specification states it, fails on its own worked example:
    with target 70, carry percentage 80 and weights 60/40 the code, run on
    doubles, does not return 55.0 but a number strictly above it. *)
Lemma C1_example_is_not_55 :
  exists r : float,
    calculate_final_exam_requirement (of_Z 70) (of_Z 80) (of_Z 60) (of_Z 40) = Ok r /\
    eqb r (of_Z 55) = false /\ ltb (of_Z 55) r = true.
Proof.
  eexists. split; [vm_compute; reflexivity|].
  split; vm_compute; reflexivity.
Qed.

(** C1 (amended): [calculate_final_exam_requirement] never raises; it
    returns 0 when [exam_weight == 0] and otherwise the value
    [(target_grade - (carry_percentage/100)*(carry_weight/100)*100) /
    exam_weight * 100] clamped to [0, 100], in exact arithmetic and, with
    every operation rounded, on doubles, where the result also lies in
    [0, 100] for every input, NaN included.  On the worked example (70, 80,
    60, 40) the exact value is 55, and the code run on doubles returns the
    double just above 55.0 (55.00000000000001), since 0.55 * 100 rounds
    up. *)
Theorem C1_final_exam_requirement :
  (forall tg cp cw ew : Q,
     exists r : Q,
       calculate_final_exam_requirement tg cp cw ew = Ok r /\
       ((ew == 0)%Q -> r = 0%Q) /\
       (~ (ew == 0)%Q -> clamped 0 100 (required_exam_percentage tg cp cw ew) r)) /\
  (forall tg cp cw ew : float,
     exists r : float,
       calculate_final_exam_requirement tg cp cw ew = Ok r /\
       (eqb ew (of_Z 0) = true -> r = of_Z 0) /\
       (eqb ew (of_Z 0) = false ->
          r = py_max (of_Z 0) (py_min (of_Z 100)
                (mul (div (sub tg (mul (mul (div cp (of_Z 100)) (div cw (of_Z 100)))
                                       (of_Z 100))) ew) (of_Z 100)))) /\
       leb (of_Z 0) r = true /\ leb r (of_Z 100) = true) /\
  (exists r : Q,
     calculate_final_exam_requirement (of_Z 70) (of_Z 80) (of_Z 60) (of_Z 40) = Ok r /\
     (r == 55)%Q) /\
  calculate_final_exam_requirement (T:=float) (of_Z 70) (of_Z 80) (of_Z 60) (of_Z 40)
  = Ok (PrimFloat.next_up (of_Z 55)).
Proof.
  split; [exact final_exam_requirement_exact|].
  split; [exact final_exam_requirement_binary64|].
  split.
  - eexists. split; [vm_compute; reflexivity|]. reflexivity.
  - vm_compute. reflexivity.
Qed.

(** ** Grade calculator: the letter ladder *)

(** Uses the chain of thresholds: a percentage at or above one threshold is
    at or above every lower one. *)
Ltac chain_up :=
  repeat match goal with
  | H : true = true -> _ |- _ => specialize (H eq_refl)
  | H : ?b = true |- _ => is_var b; subst b
  end.

Lemma ladder_bands (b0 b50 b55 b60 b65 b70 b75 b80 b85 b90 : bool) :
  (b50 = true -> b0 = true) -> (b55 = true -> b50 = true) ->
  (b60 = true -> b55 = true) -> (b65 = true -> b60 = true) ->
  (b70 = true -> b65 = true) -> (b75 = true -> b70 = true) ->
  (b80 = true -> b75 = true) -> (b85 = true -> b80 = true) ->
  (b90 = true -> b85 = true) ->
  let g :=
    if negb b0 then "F" else if b90 then "A+" else if b85 then "A"
    else if b80 then "A-" else if b75 then "B+" else if b70 then "B"
    else if b65 then "B-" else if b60 then "C+" else if b55 then "C"
    else if b50 then "C-" else "F" in
  (g = "A+" <-> b90 = true) /\
  (g = "A" <-> b85 = true /\ negb b90 = true) /\
  (g = "A-" <-> b80 = true /\ negb b85 = true) /\
  (g = "B+" <-> b75 = true /\ negb b80 = true) /\
  (g = "B" <-> b70 = true /\ negb b75 = true) /\
  (g = "B-" <-> b65 = true /\ negb b70 = true) /\
  (g = "C+" <-> b60 = true /\ negb b65 = true) /\
  (g = "C" <-> b55 = true /\ negb b60 = true) /\
  (g = "C-" <-> b50 = true /\ negb b55 = true) /\
  (g = "F" <-> negb b50 = true).
Proof.
  intros H0 H1 H2 H3 H4 H5 H6 H7 H8.
  destruct b90; chain_up; [| destruct b85; chain_up; [| destruct b80; chain_up;
    [| destruct b75; chain_up; [| destruct b70; chain_up; [| destruct b65; chain_up;
    [| destruct b60; chain_up; [| destruct b55; chain_up; [| destruct b50; chain_up;
    [| destruct b0 ]]]]]]]]];
    cbn; repeat split; intros; try discriminate; try reflexivity;
    repeat match goal with H : _ /\ _ |- _ => destruct H end; try discriminate.
Qed.

Lemma Q_chain (a b : Z) (p : Q) :
  (b <= a)%Z -> leb (of_Z a) p = true -> leb (of_Z b) p = true.
Proof.
  intros Hab. rewrite !Q_leb_iff. intros Hp.
  apply Qle_trans with (inject_Z a); [|exact Hp].
  rewrite <- Zle_Qle. exact Hab.
Qed.

Lemma grade_letter_bands_exact (p : Q) :
  (get_grade_letter p = "A+" <-> 90 <= p)%Q /\
  (get_grade_letter p = "A" <-> 85 <= p < 90)%Q /\
  (get_grade_letter p = "A-" <-> 80 <= p < 85)%Q /\
  (get_grade_letter p = "B+" <-> 75 <= p < 80)%Q /\
  (get_grade_letter p = "B" <-> 70 <= p < 75)%Q /\
  (get_grade_letter p = "B-" <-> 65 <= p < 70)%Q /\
  (get_grade_letter p = "C+" <-> 60 <= p < 65)%Q /\
  (get_grade_letter p = "C" <-> 55 <= p < 60)%Q /\
  (get_grade_letter p = "C-" <-> 50 <= p < 55)%Q /\
  (get_grade_letter p = "F" <-> p < 50)%Q.
Proof.
  pose proof (ladder_bands _ _ _ _ _ _ _ _ _ _
    (Q_chain 50 0 p ltac:(lia)) (Q_chain 55 50 p ltac:(lia))
    (Q_chain 60 55 p ltac:(lia)) (Q_chain 65 60 p ltac:(lia))
    (Q_chain 70 65 p ltac:(lia)) (Q_chain 75 70 p ltac:(lia))
    (Q_chain 80 75 p ltac:(lia)) (Q_chain 85 80 p ltac:(lia))
    (Q_chain 90 85 p ltac:(lia))) as L.
  cbv zeta in L.
  destruct L as (L1 & L2 & L3 & L4 & L5 & L6 & L7 & L8 & L9 & L10).
  rewrite Q_leb_iff in L1.
  rewrite negb_true_iff, Q_leb_false, Q_leb_iff in L2.
  rewrite negb_true_iff, Q_leb_false, Q_leb_iff in L3.
  rewrite negb_true_iff, Q_leb_false, Q_leb_iff in L4.
  rewrite negb_true_iff, Q_leb_false, Q_leb_iff in L5.
  rewrite negb_true_iff, Q_leb_false, Q_leb_iff in L6.
  rewrite negb_true_iff, Q_leb_false, Q_leb_iff in L7.
  rewrite negb_true_iff, Q_leb_false, Q_leb_iff in L8.
  rewrite negb_true_iff, Q_leb_false, Q_leb_iff in L9.
  rewrite negb_true_iff, Q_leb_false in L10.
  exact (conj L1 (conj L2 (conj L3 (conj L4 (conj L5
           (conj L6 (conj L7 (conj L8 (conj L9 L10))))))))).
Qed.

Lemma float_chain (a b : Z) (p : float) :
  leb (T:=float) (of_Z b) (of_Z a) = true ->
  leb (of_Z a) p = true -> leb (of_Z b) p = true.
Proof. intros Hab Hp. exact (float_leb_trans _ _ _ Hab Hp). Qed.

Lemma float_ltb_const (p : float) (c : Z) :
  isna p = false -> isna (T:=float) (of_Z c) = false ->
  ltb p (of_Z c) = negb (leb (of_Z c) p).
Proof. intros Hp Hc. apply float_ltb_negb_leb; assumption. Qed.

Lemma grade_letter_bands_binary64 (p : float) :
  (isna p = true -> get_grade_letter p = "F") /\
  (isna p = false ->
   (get_grade_letter p = "A+" <-> leb (of_Z 90) p = true) /\
   (get_grade_letter p = "A" <-> leb (of_Z 85) p = true /\ ltb p (of_Z 90) = true) /\
   (get_grade_letter p = "A-" <-> leb (of_Z 80) p = true /\ ltb p (of_Z 85) = true) /\
   (get_grade_letter p = "B+" <-> leb (of_Z 75) p = true /\ ltb p (of_Z 80) = true) /\
   (get_grade_letter p = "B" <-> leb (of_Z 70) p = true /\ ltb p (of_Z 75) = true) /\
   (get_grade_letter p = "B-" <-> leb (of_Z 65) p = true /\ ltb p (of_Z 70) = true) /\
   (get_grade_letter p = "C+" <-> leb (of_Z 60) p = true /\ ltb p (of_Z 65) = true) /\
   (get_grade_letter p = "C" <-> leb (of_Z 55) p = true /\ ltb p (of_Z 60) = true) /\
   (get_grade_letter p = "C-" <-> leb (of_Z 50) p = true /\ ltb p (of_Z 55) = true) /\
   (get_grade_letter p = "F" <-> ltb p (of_Z 50) = true)).
Proof.
  split.
  - intros Hp. unfold get_grade_letter. rewrite Hp. reflexivity.
  - intros Hp.
    pose proof (ladder_bands _ _ _ _ _ _ _ _ _ _
      (float_chain 50 0 p eq_refl) (float_chain 55 50 p eq_refl)
      (float_chain 60 55 p eq_refl) (float_chain 65 60 p eq_refl)
      (float_chain 70 65 p eq_refl) (float_chain 75 70 p eq_refl)
      (float_chain 80 75 p eq_refl) (float_chain 85 80 p eq_refl)
      (float_chain 90 85 p eq_refl)) as L.
    cbv zeta in L.
    unfold get_grade_letter. rewrite Hp. cbn [orb].
    rewrite (float_ltb_const p 0 Hp eq_refl), (float_ltb_const p 50 Hp eq_refl),
      (float_ltb_const p 55 Hp eq_refl), (float_ltb_const p 60 Hp eq_refl),
      (float_ltb_const p 65 Hp eq_refl), (float_ltb_const p 70 Hp eq_refl),
      (float_ltb_const p 75 Hp eq_refl), (float_ltb_const p 80 Hp eq_refl),
      (float_ltb_const p 85 Hp eq_refl), (float_ltb_const p 90 Hp eq_refl).
    exact L.
Qed.

(** C4: [get_grade_letter] is the descending ladder >=90 A+, >=85 A,
    >=80 A-, >=75 B+, >=70 B, >=65 B-, >=60 C+, >=55 C, >=50 C-, else F:
    each letter is returned exactly on its band, on exact numbers and on
    every double; NaN and every negative input give F; and
    [get_grade_letter(89.999) = "A"], [get_grade_letter(90.0) = "A+"],
    [get_grade_letter(-5) = "F"], [get_grade_letter(NaN) = "F"]. *)
Theorem C4_grade_letter_ladder :
  (forall p : Q,
     (get_grade_letter p = "A+" <-> 90 <= p)%Q /\
     (get_grade_letter p = "A" <-> 85 <= p < 90)%Q /\
     (get_grade_letter p = "A-" <-> 80 <= p < 85)%Q /\
     (get_grade_letter p = "B+" <-> 75 <= p < 80)%Q /\
     (get_grade_letter p = "B" <-> 70 <= p < 75)%Q /\
     (get_grade_letter p = "B-" <-> 65 <= p < 70)%Q /\
     (get_grade_letter p = "C+" <-> 60 <= p < 65)%Q /\
     (get_grade_letter p = "C" <-> 55 <= p < 60)%Q /\
     (get_grade_letter p = "C-" <-> 50 <= p < 55)%Q /\
     (get_grade_letter p = "F" <-> p < 50)%Q) /\
  (forall p : float,
     (isna p = true -> get_grade_letter p = "F") /\
     (ltb p (of_Z 0) = true -> get_grade_letter p = "F") /\
     (isna p = false ->
      (get_grade_letter p = "A+" <-> leb (of_Z 90) p = true) /\
      (get_grade_letter p = "A" <-> leb (of_Z 85) p = true /\ ltb p (of_Z 90) = true) /\
      (get_grade_letter p = "A-" <-> leb (of_Z 80) p = true /\ ltb p (of_Z 85) = true) /\
      (get_grade_letter p = "B+" <-> leb (of_Z 75) p = true /\ ltb p (of_Z 80) = true) /\
      (get_grade_letter p = "B" <-> leb (of_Z 70) p = true /\ ltb p (of_Z 75) = true) /\
      (get_grade_letter p = "B-" <-> leb (of_Z 65) p = true /\ ltb p (of_Z 70) = true) /\
      (get_grade_letter p = "C+" <-> leb (of_Z 60) p = true /\ ltb p (of_Z 65) = true) /\
      (get_grade_letter p = "C" <-> leb (of_Z 55) p = true /\ ltb p (of_Z 60) = true) /\
      (get_grade_letter p = "C-" <-> leb (of_Z 50) p = true /\ ltb p (of_Z 55) = true) /\
      (get_grade_letter p = "F" <-> ltb p (of_Z 50) = true))) /\
  get_grade_letter (T:=float) (of_Q 89.999) = "A" /\
  get_grade_letter (T:=float) (of_Q 90.0) = "A+" /\
  get_grade_letter (T:=float) (of_Z (-5)) = "F" /\
  get_grade_letter (T:=float) PrimFloat.nan = "F".
Proof.
  split; [exact grade_letter_bands_exact|].
  split.
  - intros p. destruct (grade_letter_bands_binary64 p) as [Hnan Hbands].
    split; [exact Hnan|]. split; [|exact Hbands].
    intros Hneg. unfold get_grade_letter. rewrite Hneg, orb_true_r. reflexivity.
  - repeat split; vm_compute; reflexivity.
Qed.

(** ** Grade calculator: letters and grade points *)

Ltac ladder_cases :=
  repeat match goal with
  | |- context [if negb ?b then _ else _] => destruct b eqn:?; cbn [negb]
  | |- context [if ?b then _ else _] => destruct b eqn:?
  end.

Lemma grade_point_monotone_exact (p q : Q) :
  (p <= q)%Q ->
  (grade_point (get_grade_letter p) <= grade_point (get_grade_letter q))%Q.
Proof.
  intros Hpq. unfold get_grade_letter. simpl isna. cbn [orb].
  ladder_cases; q_props;
    first [ apply Q_leb_iff; vm_compute; reflexivity
          | exfalso; simpl in *; lra ].
Qed.

Lemma grade_point_monotone_binary64 (p q : float) :
  isna p = false -> isna q = false -> leb p q = true ->
  leb (grade_point (get_grade_letter p)) (grade_point (get_grade_letter q)) = true.
Proof.
  intros Hp Hq Hpq. unfold get_grade_letter. rewrite Hp, Hq. cbn [orb].
  rewrite (float_ltb_const p 0 Hp eq_refl), (float_ltb_const q 0 Hq eq_refl).
  ladder_cases;
    first [ vm_compute; reflexivity
          | exfalso;
            match goal with
            | Hc : leb ?c p = true, Hd : leb ?c q = false |- _ =>
              rewrite (float_leb_trans _ _ _ Hc Hpq) in Hd; discriminate
            end ].
Qed.

(** C10: the letter grade is monotone for the grade-point order: for
    percentages [p <= q], neither of them NaN, the 4.0-scale point of
    [get_grade_letter p] is at most that of [get_grade_letter q], on exact
    numbers and on doubles. *)
Theorem C10_grade_point_monotone :
  (forall p q : Q,
     (p <= q)%Q ->
     (grade_point (get_grade_letter p) <= grade_point (get_grade_letter q))%Q) /\
  (forall p q : float,
     isna p = false -> isna q = false -> leb p q = true ->
     leb (grade_point (get_grade_letter p)) (grade_point (get_grade_letter q)) = true).
Proof.
  split.
  - exact grade_point_monotone_exact.
  - exact grade_point_monotone_binary64.
Qed.

Lemma C10_grade_point_monotone_witness :
  (grade_point (T:=Q) (get_grade_letter 72) <= grade_point (get_grade_letter 91))%Q /\
  leb (T:=float) (grade_point (get_grade_letter (of_Z 72)))
      (grade_point (get_grade_letter (of_Q 84.5))) = true.
Proof.
  split.
  - apply (proj1 C10_grade_point_monotone). lra.
  - apply (proj2 C10_grade_point_monotone); vm_compute; reflexivity.
Defined.

(** ** Frames *)

Lemma select_map {Row A} (f : Row -> A) (g : A -> bool) (rs : list Row) :
  select rs (List.map g (List.map f rs)) = List.filter (fun r => g (f r)) rs.
Proof.
  induction rs as [|r rs IH]; [reflexivity|].
  cbn. destruct (g (f r)); rewrite IH; reflexivity.
Qed.

Lemma empty_iff_no_rows {Row} (name : string) (df : DataFrame Row) :
  has_column name df = true -> empty df = true <-> rows df = [].
Proof.
  unfold has_column, empty. rewrite bool_decide_eq_true. intros Hin.
  destruct (rows df) as [|r rs]; [tauto|].
  destruct (columns df) as [|c cs]; [inversion Hin|]. split; discriminate.
Qed.

Lemma empty_no_rows {Row} (df : DataFrame Row) : rows df = [] -> empty df = true.
Proof. unfold empty. intros ->. reflexivity. Qed.

Lemma col_present {Row A} (name : string) (f : Row -> A) (df : DataFrame Row) :
  has_column name df = true -> col name f df = Ok (List.map f (rows df)).
Proof. unfold col. intros ->. reflexivity. Qed.

(** ** Series over exact rationals *)

Lemma filter_notna_Q (xs : list Q) : List.filter notna xs = xs.
Proof. induction xs as [|x xs IH]; [reflexivity|]. cbn. rewrite IH. reflexivity. Qed.

Lemma fold_left_Qplus (xs : list Q) (a : Q) :
  (fold_left Qplus xs a == a + Qsum xs)%Q.
Proof.
  revert a. induction xs as [|x xs IH]; intros a; cbn.
  - ring.
  - rewrite IH. unfold Qsum. cbn. ring.
Qed.

Lemma series_sum_exact (xs : list Q) : (series_sum xs == Qsum xs)%Q.
Proof.
  unfold series_sum. rewrite filter_notna_Q.
  change (fold_left add xs (of_Z 0)) with (fold_left Qplus xs 0%Q).
  rewrite fold_left_Qplus. ring.
Qed.

Lemma series_count_exact (xs : list Q) : series_count xs = length xs.
Proof. unfold series_count. rewrite filter_notna_Q. reflexivity. Qed.

Lemma series_mean_exact (xs : list Q) : (series_mean xs == mean xs)%Q.
Proof.
  unfold series_mean, mean. rewrite series_count_exact.
  change (div ?a ?b) with (Qdiv a b).
  rewrite series_sum_exact. reflexivity.
Qed.

Lemma carry_percentage_exact (course_code : string) (df : DataFrame (CarryMark.t Q)) :
  has_column "course_code" df = true ->
  (has_column "percentage" df = false ->
   has_column "earned" df = true /\ has_column "max_possible" df = true) ->
  let marks := marks_of course_code df in
  exists r : Q,
    calculate_carry_percentage course_code df = Ok r /\
    (marks = [] -> r = 0%Q) /\
    (marks <> [] -> has_column "percentage" df = true ->
       (r == mean (List.map CarryMark.percentage marks))%Q) /\
    (marks <> [] -> has_column "percentage" df = false ->
       let total_earned := Qsum (List.map CarryMark.earned marks) in
       let total_max := Qsum (List.map CarryMark.max_possible marks) in
       ((total_max == 0)%Q -> r = 0%Q) /\
       (~ (total_max == 0)%Q -> (r == total_earned / total_max * 100)%Q)).
Proof.
  intros Hcode Hcols marks. unfold calculate_carry_percentage.
  destruct (empty df) eqn:Hempty.
  - apply (empty_iff_no_rows _ _ Hcode) in Hempty.
    assert (Hm : marks = []) by (unfold marks, marks_of; rewrite Hempty; reflexivity).
    exists 0%Q. split; [reflexivity|]. split; [reflexivity|]. split; intros; contradiction.
  - rewrite (col_present _ _ _ Hcode). cbn [mbind result_bind].
    set (cm := df_mask df _).
    assert (Hrows : rows cm = marks).
    { unfold cm, df_mask, marks, marks_of. cbn [rows].
      apply (select_map CarryMark.course_code (fun c => String.eqb c course_code)). }
    assert (Hcm : forall n, has_column n cm = has_column n df) by reflexivity.
    destruct (empty cm) eqn:Hecm.
    + apply (empty_iff_no_rows "course_code") in Hecm; [|rewrite Hcm; exact Hcode].
      rewrite Hrows in Hecm.
      exists 0%Q. split; [reflexivity|]. split; [reflexivity|]. split; intros; contradiction.
    + assert (Hne : marks <> []).
      { intros E. rewrite <- Hrows in E. apply empty_no_rows in E. congruence. }
      rewrite Hcm. destruct (has_column "percentage" df) eqn:Hpct.
      * rewrite col_present by (rewrite Hcm; exact Hpct). cbn [mbind result_bind].
        eexists. split; [reflexivity|]. rewrite Hrows.
        split; [intros; contradiction|]. split; [|intros; discriminate].
        intros _ _. apply series_mean_exact.
      * destruct (Hcols eq_refl) as [He Hm].
        rewrite !col_present by (rewrite Hcm; assumption). cbn [mbind result_bind].
        rewrite Hrows. unfold truediv.
        destruct (eqb (series_sum (List.map CarryMark.max_possible marks)) (of_Z 0)) eqn:Hz;
          q_props; rewrite series_sum_exact in Hz.
        -- exists 0%Q. split; [reflexivity|]. split; [reflexivity|].
           split; [intros; discriminate|]. intros _ _. cbv zeta. split; [reflexivity|tauto].
        -- eexists. split; [reflexivity|]. split; [intros; contradiction|].
           split; [intros; discriminate|]. intros _ _. cbv zeta. split; [tauto|]. intros _.
           change (mul ?a ?b) with (Qmult a b). change (div ?a ?b) with (Qdiv a b).
           rewrite !series_sum_exact. reflexivity.
Qed.

Lemma Q_of_nat_pos (n : nat) : (0 < n)%nat -> (0 < inject_Z (Z.of_nat n))%Q.
Proof. intros Hn. change 0%Q with (inject_Z 0). rewrite <- Zlt_Qlt. lia. Qed.

Lemma Q_of_nat_le (m n : nat) :
  (m <= n)%nat -> (inject_Z (Z.of_nat m) <= inject_Z (Z.of_nat n))%Q.
Proof. intros Hmn. rewrite <- Zle_Qle. lia. Qed.

Lemma Q_ratio_percent (c t : Q) :
  (0 <= c)%Q -> (c <= t)%Q -> (0 < t)%Q -> (0 <= c / t * 100 <= 100)%Q.
Proof.
  intros Hc Hct Ht.
  assert (H0 : (0 <= c / t)%Q) by (apply Qle_shift_div_l; [exact Ht | lra]).
  assert (H1 : (c / t <= 1)%Q) by (apply Qle_shift_div_r; [exact Ht | lra]).
  lra.
Qed.

Lemma completion_rate_exact (df : DataFrame Assignment.t) :
  has_column "status" df = true ->
  let completed :=
    length (List.filter (fun a => String.eqb (Assignment.status a) "completed") (rows df)) in
  let total := length (rows df) in
  exists r : Q,
    calculate_completion_rate df = Ok r /\
    (rows df = [] -> r = 0%Q) /\
    (rows df <> [] ->
       r = (inject_Z (Z.of_nat completed) / inject_Z (Z.of_nat total) * 100)%Q) /\
    (0 <= r <= 100)%Q.
Proof.
  intros Hst completed total. unfold calculate_completion_rate.
  destruct (empty df) eqn:Hempty.
  - apply (empty_iff_no_rows _ _ Hst) in Hempty.
    exists 0%Q. split; [reflexivity|]. split; [reflexivity|].
    split; [intros; contradiction | lra].
  - assert (Hne : rows df <> []).
    { intros E. apply empty_no_rows in E. congruence. }
    assert (Htot : (0 < total)%nat).
    { unfold total. destruct (rows df); [contradiction | cbn; lia]. }
    rewrite (col_present _ _ _ Hst). cbn [mbind result_bind].
    unfold len, df_mask. cbn [rows].
    rewrite (select_map Assignment.status (fun s => String.eqb s "completed")).
    fold completed. fold total.
    destruct (0 <? total)%nat eqn:Hlt; [|apply Nat.ltb_ge in Hlt; lia].
    unfold truediv.
    destruct (eqb (of_Z (Z.of_nat total)) (of_Z 0)) eqn:Hz; q_props.
    + pose proof (Q_of_nat_pos total Htot) as Hpos.
      change (inject_Z (Z.of_nat total) == 0)%Q in Hz.
      revert Hz Hpos. generalize (inject_Z (Z.of_nat total)). intros t Hz Hpos. lra.
    + eexists. split; [reflexivity|]. split; [intros; contradiction|].
      split; [intros _; reflexivity|].
      apply Q_ratio_percent.
      * change 0%Q with (inject_Z (Z.of_nat 0)). apply Q_of_nat_le. lia.
      * apply Q_of_nat_le. unfold completed, total.
        pose proof (filter_length_le (fun a => String.eqb (Assignment.status a) "completed") (rows df)).
        lia.
      * apply Q_of_nat_pos. exact Htot.
Qed.

(** ** Weighted GPA *)

Lemma grade_point_range (letter : string) :
  (0 <= grade_point (T:=Q) letter <= 4)%Q.
Proof.
  unfold grade_point. destruct (grade_points !! letter) as [v|] eqn:E.
  - apply elem_of_list_to_map_2 in E.
    repeat (apply elem_of_cons in E; destruct E as [E|E];
            [injection E as _ ->; cbn; lra|]).
    apply elem_of_nil in E. contradiction.
  - cbn. lra.
Qed.

Lemma gpa_loop_true (rs : list (CourseStat.t Q)) (tp tw : Q) :
  let acc := fold_left (gpa_step true) rs (tp, tw) in
  (acc.1 == tp + weighted_points rs)%Q /\ (acc.2 == tw + weights rs)%Q.
Proof.
  revert tp tw. induction rs as [|r rs IH]; intros tp tw; cbn.
  - unfold weighted_points, weights. cbn. split; ring.
  - destruct (IH (tp + grade_point (CourseStat.Letter_Grade r) * CourseStat.Carry_Weight r)%Q
                 (tw + CourseStat.Carry_Weight r)%Q) as [H1 H2].
    cbv zeta in H1, H2. split.
    + etransitivity; [exact H1|]. unfold weighted_points, Qsum. cbn. ring.
    + etransitivity; [exact H2|]. unfold weights, Qsum. cbn. ring.
Qed.

Lemma gpa_loop_false (rs : list (CourseStat.t Q)) (acc : Q * Q) :
  fold_left (gpa_step false) rs acc = acc.
Proof.
  induction rs as [|r rs IH]; [reflexivity|].
  cbn. destruct acc. exact IH.
Qed.

Lemma weighted_points_bounds (rs : list (CourseStat.t Q)) :
  Forall (fun r => 0 <= CourseStat.Carry_Weight r)%Q rs ->
  (0 <= weights rs)%Q /\ (0 <= weighted_points rs <= 4 * weights rs)%Q.
Proof.
  unfold weights, weighted_points, Qsum.
  induction 1 as [|r rs Hr _ IH]; cbn [List.map fold_right]; [lra|].
  pose proof (grade_point_range (CourseStat.Letter_Grade r)) as Hg.
  revert Hg IH Hr.
  generalize (grade_point (T:=Q) (CourseStat.Letter_Grade r)) as g.
  generalize (CourseStat.Carry_Weight r) as w.
  generalize (fold_right Qplus 0%Q (List.map CourseStat.Carry_Weight rs)) as sw.
  generalize (fold_right Qplus 0%Q
    (List.map (fun r0 => (grade_point (CourseStat.Letter_Grade r0) * CourseStat.Carry_Weight r0)%Q) rs)) as sp.
  intros sp sw w g Hg IH Hr. nra.
Qed.

Lemma weighted_gpa_exact (df : DataFrame (CourseStat.t Q)) :
  let counted := counted_rows df in
  exists r : Q,
    calculate_weighted_gpa df = Ok r /\
    (~ (0 < weights counted)%Q -> r = 0%Q) /\
    ((0 < weights counted)%Q ->
       (r == weighted_points counted / weights counted)%Q) /\
    (Forall (fun row => 0 <= CourseStat.Carry_Weight row)%Q (rows df) ->
       (0 <= r <= 4)%Q).
Proof.
  intros counted. unfold calculate_weighted_gpa.
  destruct (empty df) eqn:Hempty.
  - assert (Hw : (weights counted == 0)%Q).
    { unfold counted, counted_rows. destruct df as [cs rs]. unfold empty in Hempty. cbn in *.
      destruct rs, cs; try discriminate; try reflexivity.
      destruct (_ && _); reflexivity. }
    exists 0%Q. split; [reflexivity|]. split; [reflexivity|].
    split; [intros Hpos; lra | intros; lra].
  - set (has_both := has_column "Letter Grade" df && has_column "Carry Weight" df) in *.
    assert (Hfold : exists tp tw,
               fold_left (gpa_step has_both) (rows df) (of_Z 0, of_Z 0) = (tp, tw) /\
               (tp == weighted_points counted)%Q /\ (tw == weights counted)%Q).
    { unfold counted, counted_rows. fold has_both. destruct has_both.
      - pose proof (gpa_loop_true (rows df) 0 0) as [H1 H2]. cbv zeta in H1, H2.
        destruct (fold_left _ _ _) as [tp tw] eqn:E. exists tp, tw. cbn in H1, H2.
        split; [reflexivity|]. split; [rewrite H1; ring | rewrite H2; ring].
      - rewrite gpa_loop_false. exists 0%Q, 0%Q. split; [reflexivity|].
        split; reflexivity. }
    destruct Hfold as (tp & tw & -> & Htp & Htw).
    unfold truediv.
    destruct (ltb (of_Z 0) tw) eqn:Hpos; q_props.
    + destruct (eqb tw (of_Z 0)) eqn:Hz; q_props; [simpl in *; lra|].
      eexists. split; [reflexivity|].
      change (of_Z 0) with 0%Q in Hpos.
      split; [intros Hn; rewrite Htw in Hpos; contradiction|].
      split.
      * intros _. change (div tp tw) with (tp / tw)%Q. rewrite Htp, Htw. reflexivity.
      * intros Hall. change (div tp tw) with (tp / tw)%Q.
        assert (Hb : (0 <= tp <= 4 * tw)%Q).
        { rewrite Htp, Htw. unfold counted, counted_rows. fold has_both. destruct has_both.
          - apply weighted_points_bounds. exact Hall.
          - unfold weights, weighted_points. cbn. lra. }
        split.
        -- apply Qle_shift_div_l; [exact Hpos | lra].
        -- apply Qle_shift_div_r; [exact Hpos | lra].
    + exists 0%Q. split; [reflexivity|].
      change (of_Z 0) with 0%Q in Hpos.
      split; [reflexivity|]. split; [intros Hp; rewrite <- Htw in Hp; lra|].
      intros; lra.
Qed.

(** ** Ranges of the carry percentage *)

Lemma Qsum_bounds (lo hi : Q) (xs : list Q) :
  Forall (fun x => lo <= x <= hi)%Q xs ->
  (lo * inject_Z (Z.of_nat (length xs)) <= Qsum xs
   <= hi * inject_Z (Z.of_nat (length xs)))%Q.
Proof.
  unfold Qsum. induction 1 as [|x xs Hx _ IH].
  - change (lo * 0 <= 0 <= hi * 0)%Q. lra.
  - cbn [fold_right length]. rewrite Nat2Z.inj_succ, <- Z.add_1_r, inject_Z_plus.
    revert IH. generalize (fold_right Qplus 0%Q xs) as s.
    generalize (inject_Z (Z.of_nat (length xs))) as n. intros n s IH.
    change (inject_Z 1) with 1%Q. lra.
Qed.

Lemma mean_bounds (lo hi : Q) (xs : list Q) :
  xs <> [] -> Forall (fun x => lo <= x <= hi)%Q xs -> (lo <= mean xs <= hi)%Q.
Proof.
  intros Hne Hall. unfold mean. fold (Qsum xs).
  pose proof (Qsum_bounds lo hi xs Hall) as Hs.
  assert (Hn : (0 < inject_Z (Z.of_nat (length xs)))%Q).
  { apply Q_of_nat_pos. destruct xs; [contradiction | cbn; lia]. }
  revert Hs Hn. generalize (inject_Z (Z.of_nat (length xs))) as n.
  generalize (Qsum xs) as s. intros s n Hs Hn. split.
  - apply Qle_shift_div_l; [exact Hn | lra].
  - apply Qle_shift_div_r; [exact Hn | lra].
Qed.

Lemma Qsum_pointwise_le (A : Type) (f g : A -> Q) (xs : list A) :
  Forall (fun x => 0 <= f x <= g x)%Q xs ->
  (0 <= Qsum (List.map f xs) <= Qsum (List.map g xs))%Q.
Proof.
  unfold Qsum. induction 1 as [|x xs Hx _ IH]; cbn [List.map fold_right]; [lra|].
  revert Hx IH. generalize (f x) as a. generalize (g x) as b.
  generalize (fold_right Qplus 0%Q (List.map f xs)) as sa.
  generalize (fold_right Qplus 0%Q (List.map g xs)) as sb.
  intros sb sa b a Hx IH. lra.
Qed.

Lemma carry_percentage_range (course_code : string) (df : DataFrame (CarryMark.t Q)) :
  has_column "course_code" df = true ->
  (has_column "percentage" df = false ->
   has_column "earned" df = true /\ has_column "max_possible" df = true) ->
  (has_column "percentage" df = true ->
   Forall (fun m => 0 <= CarryMark.percentage m <= 100)%Q (marks_of course_code df)) ->
  (has_column "percentage" df = false ->
   Forall (fun m => 0 <= CarryMark.earned m <= CarryMark.max_possible m)%Q
     (marks_of course_code df)) ->
  exists r : Q,
    calculate_carry_percentage course_code df = Ok r /\ (0 <= r <= 100)%Q.
Proof.
  intros Hcode Hcols Hpct Hem.
  destruct (carry_percentage_exact course_code df Hcode Hcols) as (r & Hr & H0 & Hmean & Hratio).
  cbv zeta in *. exists r. split; [exact Hr|].
  destruct (marks_of course_code df) as [|m ms] eqn:Hmarks.
  - rewrite (H0 eq_refl). lra.
  - rewrite <- Hmarks in *.
    assert (Hne : marks_of course_code df <> []) by (rewrite Hmarks; discriminate).
    destruct (has_column "percentage" df) eqn:Hp.
    + rewrite (Hmean Hne eq_refl). apply mean_bounds.
      * rewrite Hmarks. discriminate.
      * apply Forall_map. exact (Hpct eq_refl).
    + destruct (Hratio Hne eq_refl) as [Hz Hnz].
      pose proof (Qsum_pointwise_le _ CarryMark.earned CarryMark.max_possible _ (Hem eq_refl)) as Hs.
      destruct (Qeq_dec (Qsum (List.map CarryMark.max_possible (marks_of course_code df))) 0)
        as [E|E].
      * rewrite (Hz E). lra.
      * rewrite (Hnz E). apply Q_ratio_percent; lra.
Qed.

(** ** No exception from a division *)

Lemma carry_percentage_returns {T} `{PyNum T}
  (course_code : string) (df : DataFrame (CarryMark.t T)) :
  has_column "course_code" df = true ->
  (has_column "percentage" df = false ->
   has_column "earned" df = true /\ has_column "max_possible" df = true) ->
  exists r : T,
    calculate_carry_percentage course_code df = Ok r /\
    (has_column "percentage" df = false ->
     eqb (series_sum (List.map CarryMark.max_possible (marks_of course_code df))) (of_Z 0)
     = true -> r = of_Z 0).
Proof.
  intros Hcode Hcols. unfold calculate_carry_percentage.
  destruct (empty df) eqn:Hempty; [eexists; split; [reflexivity|reflexivity]|].
  rewrite (col_present _ _ _ Hcode). cbn [mbind result_bind].
  set (cm := df_mask df _).
  assert (Hrows : rows cm = marks_of course_code df).
  { unfold cm, df_mask, marks_of. cbn [rows].
    apply (select_map CarryMark.course_code (fun c => String.eqb c course_code)). }
  assert (Hcm : forall n, has_column n cm = has_column n df) by reflexivity.
  destruct (empty cm) eqn:Hecm; [eexists; split; [reflexivity|reflexivity]|].
  rewrite Hcm. destruct (has_column "percentage" df) eqn:Hp.
  - rewrite col_present by (rewrite Hcm; exact Hp).
    eexists; split; [reflexivity | discriminate].
  - destruct (Hcols eq_refl) as [He Hm].
    rewrite !col_present by (rewrite Hcm; assumption). cbn [mbind result_bind].
    rewrite Hrows. unfold truediv.
    destruct (eqb (series_sum (List.map CarryMark.max_possible _)) (of_Z 0)) eqn:Hz.
    + eexists; split; [reflexivity|reflexivity].
    + eexists; split; [reflexivity|]. intros _ Hzero. congruence.
Qed.

Lemma float_pos_nonzero (x : float) :
  ltb (of_Z 0) x = true -> eqb x (of_Z 0) = false.
Proof.
  intros Hpos.
  change (PrimFloat.ltb (float_of_Z 0) x = true) in Hpos.
  change (PrimFloat.eqb x (float_of_Z 0) = false).
  rewrite FloatAxioms.ltb_spec in Hpos. rewrite FloatAxioms.eqb_spec.
  unfold SFltb in Hpos. unfold SFeqb.
  rewrite (SFcompare_antisym (Prim2SF (float_of_Z 0)) (Prim2SF x)).
  destruct (SFcompare (Prim2SF (float_of_Z 0)) (Prim2SF x)) as [[]|];
    simpl; congruence.
Qed.

Lemma weighted_gpa_returns_binary64 (df : DataFrame (CourseStat.t float)) :
  exists r : float, calculate_weighted_gpa df = Ok r.
Proof.
  unfold calculate_weighted_gpa.
  destruct (empty df); [eexists; reflexivity|].
  destruct (fold_left _ _ _) as [tp tw].
  destruct (ltb (of_Z 0) tw) eqn:Hpos; [|eexists; reflexivity].
  unfold truediv. rewrite (float_pos_nonzero _ Hpos). eexists; reflexivity.
Qed.

Lemma completion_rate_empty {T} `{PyNum T} (df : DataFrame Assignment.t) :
  rows df = [] -> calculate_completion_rate df = Ok (of_Z 0).
Proof.
  intros Hrows. unfold calculate_completion_rate.
  rewrite (empty_no_rows df Hrows). reflexivity.
Qed.

(** ** The claims on percentages, rates and the GPA *)

(** C9: [calculate_carry_percentage] returns the mean of the [percentage]
    column over the marks of the course; without a [percentage] column it
    returns [sum(earned) / sum(max_possible) * 100]; it returns 0 when the
    course has no mark or the [max_possible] sum is 0.  In particular
    [carry_percentage("X", [])] is 0, one mark 18/20 gives 90.0, and one
    mark 120/100 gives 120: the percentage is not clamped. *)
Theorem C9_carry_percentage :
  (forall (course_code : string) (df : DataFrame (CarryMark.t Q)),
     has_column "course_code" df = true ->
     (has_column "percentage" df = false ->
      has_column "earned" df = true /\ has_column "max_possible" df = true) ->
     let marks := marks_of course_code df in
     exists r : Q,
       calculate_carry_percentage course_code df = Ok r /\
       (marks = [] -> r = 0%Q) /\
       (marks <> [] -> has_column "percentage" df = true ->
          (r == mean (List.map CarryMark.percentage marks))%Q) /\
       (marks <> [] -> has_column "percentage" df = false ->
          let total_earned := Qsum (List.map CarryMark.earned marks) in
          let total_max := Qsum (List.map CarryMark.max_possible marks) in
          ((total_max == 0)%Q -> r = 0%Q) /\
          (~ (total_max == 0)%Q -> (r == total_earned / total_max * 100)%Q))) /\
  calculate_carry_percentage (T:=float) "X" no_records = Ok (of_Z 0) /\
  calculate_carry_percentage (T:=float) "C1" (marks_frame [mark "C1" 18 20])
  = Ok (of_Z 90) /\
  calculate_carry_percentage (T:=float) "C1" (marks_frame [mark "C1" 120 100])
  = Ok (of_Z 120).
Proof.
  split; [exact carry_percentage_exact|].
  repeat split; vm_compute; reflexivity.
Qed.

Lemma C9_carry_percentage_witness :
  exists r : Q,
    calculate_carry_percentage "BSD 1323" sample_marks = Ok r /\ (r == 87)%Q.
Proof.
  destruct (proj1 C9_carry_percentage "BSD 1323" sample_marks eq_refl)
    as (r & Hr & _ & Hmean & _).
  { intros E. discriminate E. }
  exists r. split; [exact Hr|].
  rewrite Hmean; [reflexivity | discriminate | reflexivity].
Defined.

(** C3, as stated, fails for the carry percentage: a mark of 120 out of
    100 gives 120, above 100. *)
Lemma C3_carry_percentage_above_100 :
  exists r : float,
    calculate_carry_percentage "C1" (marks_frame [mark "C1" 120 100]) = Ok r /\
    ltb (of_Z 100) r = true.
Proof.
  exists (of_Z 120). split; [vm_compute; reflexivity|].
  vm_compute. reflexivity.
Qed.

(** C3 (amended): [calculate_completion_rate] always returns a value in
    [0, 100]; [calculate_weighted_gpa] returns a value in [0, 4] when no
    carry weight is negative; [calculate_carry_percentage] returns a value
    in [0, 100] when every mark of the course has its [percentage] in
    [0, 100] or, without a [percentage] column, [0 <= earned <=
    max_possible]: the function does not clamp.
    [calculate_final_exam_requirement], which does, always returns a value
    in [0, 100]. *)
Theorem C3_metric_ranges :
  (forall df : DataFrame Assignment.t,
     has_column "status" df = true ->
     exists r : Q, calculate_completion_rate df = Ok r /\ (0 <= r <= 100)%Q) /\
  (forall df : DataFrame (CourseStat.t Q),
     Forall (fun row => 0 <= CourseStat.Carry_Weight row)%Q (rows df) ->
     exists r : Q, calculate_weighted_gpa df = Ok r /\ (0 <= r <= 4)%Q) /\
  (forall (course_code : string) (df : DataFrame (CarryMark.t Q)),
     has_column "course_code" df = true ->
     (has_column "percentage" df = false ->
      has_column "earned" df = true /\ has_column "max_possible" df = true) ->
     (has_column "percentage" df = true ->
      Forall (fun m => 0 <= CarryMark.percentage m <= 100)%Q (marks_of course_code df)) ->
     (has_column "percentage" df = false ->
      Forall (fun m => 0 <= CarryMark.earned m <= CarryMark.max_possible m)%Q
        (marks_of course_code df)) ->
     exists r : Q,
       calculate_carry_percentage course_code df = Ok r /\ (0 <= r <= 100)%Q) /\
  (forall tg cp cw ew : Q,
     exists r : Q,
       calculate_final_exam_requirement tg cp cw ew = Ok r /\ (0 <= r <= 100)%Q) /\
  (forall tg cp cw ew : float,
     exists r : float,
       calculate_final_exam_requirement tg cp cw ew = Ok r /\
       leb (of_Z 0) r = true /\ leb r (of_Z 100) = true) /\
  calculate_completion_rate (T:=float) no_records = Ok (of_Z 0) /\
  calculate_completion_rate (T:=float)
    (assignments_frame [assignment_of "completed" None; assignment_of "pending" None])
  = Ok (of_Z 50).
Proof.
  split.
  { intros df Hst. destruct (completion_rate_exact df Hst) as (r & Hr & _ & _ & Hrange).
    exists r. split; assumption. }
  split.
  { intros df Hall. destruct (weighted_gpa_exact df) as (r & Hr & _ & _ & Hrange).
    exists r. split; [exact Hr | exact (Hrange Hall)]. }
  split; [exact carry_percentage_range|].
  split.
  { intros tg cp cw ew.
    destruct (final_exam_requirement_exact tg cp cw ew) as (r & Hr & Hzero & Hclamp).
    exists r. split; [exact Hr|].
    destruct (Qeq_dec ew 0) as [E|E]; [rewrite (Hzero E); lra|].
    destruct (Hclamp E) as (Hlow & Hmid & Hhigh).
    revert Hlow Hmid Hhigh. generalize (required_exam_percentage tg cp cw ew) as v.
    intros v Hlow Hmid Hhigh.
    destruct (Qlt_le_dec v 0) as [H0|H0]; [rewrite Hlow; lra|].
    destruct (Qlt_le_dec 100 v) as [H1|H1]; [rewrite Hhigh; lra|].
    rewrite Hmid; lra. }
  split.
  { intros tg cp cw ew.
    destruct (final_exam_requirement_binary64 tg cp cw ew) as (r & Hr & _ & _ & Hrange).
    exists r. split; [exact Hr | exact Hrange]. }
  split; vm_compute; reflexivity.
Qed.

Lemma C3_metric_ranges_witness :
  exists r : Q,
    calculate_carry_percentage "BSD 1323" sample_marks = Ok r /\ (0 <= r <= 100)%Q.
Proof.
  apply (proj1 (proj2 (proj2 C3_metric_ranges)) "BSD 1323" sample_marks).
  - reflexivity.
  - intros E. discriminate E.
  - intros _. repeat constructor; cbn; lra.
  - intros E. discriminate E.
Defined.

Lemma current_grade_without_code {T} `{PyNum T} (course_code : string)
  (marks : DataFrame (CarryMark.t T)) (courses_df : DataFrame (Course.t T)) :
  has_column "code" courses_df = false ->
  calculate_current_grade course_code marks courses_df = Raise KeyError.
Proof.
  intros Hcode. unfold calculate_current_grade, col. rewrite Hcode. reflexivity.
Qed.

(** Two marks without a [percentage] column, the earlier one first: the
    fit is given the percentages the division and [fillna(0)] produce. *)
Lemma trend_of_scored_marks (polyfit : list float -> list float -> result float)
  (e1 m1 e2 m2 : Z) :
  get_performance_trend polyfit read_iso_date
    (scored_frame [scored_mark e1 m1 "2025-01-01"; scored_mark e2 m2 "2025-01-08"])
  = trend_label <$> polyfit [of_Z 0; of_Z 1]
      [fillna0 (mul (div (of_Z e1) (of_Z m1)) (of_Z 100));
       fillna0 (mul (div (of_Z e2) (of_Z m2)) (of_Z 100))].
Proof.
  vm_compute. destruct (polyfit _ _) as [slope|e]; [|reflexivity].
  destruct (PrimFloat.ltb _ slope); [reflexivity|].
  destruct (PrimFloat.ltb slope _); reflexivity.
Qed.

(** C5: a division never raises, yet an empty collection can.
    [calculate_current_grade] reads [courses_df['code']] before any test
    for emptiness and raises [KeyError] on a frame without that column, as
    [pd.DataFrame([])] is.  Its siblings test first:
    [calculate_carry_percentage] (whatever the numbers are),
    [calculate_weighted_gpa], [calculate_completion_rate] and
    [calculate_final_exam_requirement] return a value on every frame that
    has the columns they read, and the value is 0 in each zero-divisor
    situation: no course mark or a [max_possible] sum of 0, a total weight
    of 0, an empty assignment collection, an exam weight of 0; on an empty
    collection the analyzers of frames return their default.  The division
    of [get_performance_trend] is NumPy's and does not raise: 0/0 becomes
    0 by [fillna(0)], and 5/0 stays infinite. *)
Theorem C5_no_division_by_zero :
  (forall (T : Type) (N : PyNum T) (course_code : string)
          (marks : DataFrame (CarryMark.t T)) (courses_df : DataFrame (Course.t T)),
     has_column "code" courses_df = false ->
     calculate_current_grade course_code marks courses_df = Raise KeyError) /\
  calculate_current_grade (T:=float) "BSD 1323" no_records no_records = Raise KeyError /\
  (forall (T : Type) (N : PyNum T) (course_code : string)
          (df : DataFrame (CarryMark.t T)),
     has_column "course_code" df = true ->
     (has_column "percentage" df = false ->
      has_column "earned" df = true /\ has_column "max_possible" df = true) ->
     exists r : T,
       calculate_carry_percentage course_code df = Ok r /\
       (has_column "percentage" df = false ->
        eqb (series_sum (List.map CarryMark.max_possible (marks_of course_code df)))
            (of_Z 0) = true ->
        r = of_Z 0)) /\
  (forall (course_code : string) (df : DataFrame (CarryMark.t Q)),
     has_column "course_code" df = true ->
     has_column "percentage" df = false ->
     has_column "earned" df = true /\ has_column "max_possible" df = true ->
     (Qsum (List.map CarryMark.max_possible (marks_of course_code df)) == 0)%Q ->
     calculate_carry_percentage course_code df = Ok 0%Q) /\
  (forall df : DataFrame (CourseStat.t Q),
     exists r : Q,
       calculate_weighted_gpa df = Ok r /\
       ((weights (counted_rows df) == 0)%Q -> r = 0%Q)) /\
  (forall df : DataFrame (CourseStat.t float),
     exists r : float, calculate_weighted_gpa df = Ok r) /\
  (forall df : DataFrame Assignment.t,
     has_column "status" df = true ->
     exists r : Q, calculate_completion_rate df = Ok r) /\
  (forall (T : Type) (N : PyNum T) (df : DataFrame Assignment.t),
     rows df = [] -> calculate_completion_rate (T:=T) df = Ok (of_Z 0)) /\
  (forall (T : Type) (N : PyNum T) (polyfit : list T -> list T -> result T)
          (to_datetime : string -> option Timestamp)
          (course_code : string) (marks : DataFrame (CarryMark.t T))
          (stats : DataFrame (CourseStat.t T)),
     rows marks = [] -> rows stats = [] ->
     calculate_carry_percentage course_code marks = Ok (of_Z 0) /\
     calculate_weighted_gpa stats = Ok (of_Z 0) /\
     get_performance_trend polyfit to_datetime marks = Ok "Insufficient data") /\
  (forall (to_datetime : string -> option Timestamp) (now : Timestamp)
          (df : DataFrame Assignment.t),
     rows df = [] ->
     get_weekly_workload to_datetime df = Ok [] /\
     calculate_time_to_deadline to_datetime now df = Ok [] /\
     analytics_tab_deadline_counts to_datetime now df = Ok (0%nat, 0%nat)) /\
  (forall tg cp cw ew : Q,
     exists r : Q, calculate_final_exam_requirement tg cp cw ew = Ok r /\
                   ((ew == 0)%Q -> r = 0%Q)) /\
  (forall tg cp cw ew : float,
     exists r : float, calculate_final_exam_requirement tg cp cw ew = Ok r /\
                       (eqb ew (of_Z 0) = true -> r = of_Z 0)) /\
  (forall polyfit : list float -> list float -> result float,
     get_performance_trend polyfit read_iso_date
       (scored_frame [scored_mark 0 0 "2025-01-01"; scored_mark 5 10 "2025-01-08"])
     = trend_label <$> polyfit [of_Z 0; of_Z 1] [of_Z 0; of_Z 50] /\
     get_performance_trend polyfit read_iso_date
       (scored_frame [scored_mark 5 0 "2025-01-01"; scored_mark 5 10 "2025-01-08"])
     = trend_label <$> polyfit [of_Z 0; of_Z 1] [infinity; of_Z 50]).
Proof.
  split; [intros T N; exact current_grade_without_code|].
  split; [reflexivity|].
  split; [intros T N; exact carry_percentage_returns|].
  split.
  { intros code df Hcode Hp Hcols Hz.
    destruct (carry_percentage_exact code df Hcode (fun _ => Hcols))
      as (r & Hr & H0 & _ & Hratio).
    cbv zeta in *. rewrite Hr. f_equal.
    destruct (marks_of code df) as [|m ms] eqn:Hmarks; [exact (H0 eq_refl)|].
    apply Hratio; [discriminate | exact Hp | exact Hz]. }
  split.
  { intros df. destruct (weighted_gpa_exact df) as (r & Hr & Hzero & _).
    exists r. split; [exact Hr|]. intros Hw. apply Hzero. cbv zeta. lra. }
  split; [exact weighted_gpa_returns_binary64|].
  split.
  { intros df Hst. destruct (completion_rate_exact df Hst) as (r & Hr & _).
    exists r. exact Hr. }
  split; [intros T N; exact completion_rate_empty|].
  split.
  { intros T N polyfit to_datetime code marks stats Hmarks Hstats.
    unfold calculate_carry_percentage, calculate_weighted_gpa, get_performance_trend.
    rewrite (empty_no_rows marks Hmarks), (empty_no_rows stats Hstats).
    repeat split; reflexivity. }
  split.
  { intros to_datetime now df Hrows.
    unfold get_weekly_workload, calculate_time_to_deadline, analytics_tab_deadline_counts.
    rewrite (empty_no_rows df Hrows). repeat split; reflexivity. }
  split.
  { intros tg cp cw ew.
    destruct (final_exam_requirement_exact tg cp cw ew) as (r & Hr & Hz & _).
    exists r. split; assumption. }
  split.
  { intros tg cp cw ew.
    destruct (final_exam_requirement_binary64 tg cp cw ew) as (r & Hr & Hz & _).
    exists r. split; assumption. }
  intros polyfit. split.
  - apply trend_of_scored_marks.
  - apply trend_of_scored_marks.
Qed.

Lemma C5_no_division_by_zero_witness :
  calculate_carry_percentage (T:=Q) "C1" (marks_frame [mark "C1" 7 0; mark "C1" 0 0])
  = Ok 0%Q.
Proof.
  apply (proj1 (proj2 (proj2 (proj2 C5_no_division_by_zero)))).
  - reflexivity.
  - reflexivity.
  - split; reflexivity.
  - reflexivity.
Defined.

(** ** Dates that cannot be parsed *)

Section DateErrors.
Variable strptime : string -> option Timestamp.
Variable to_datetime : string -> option Timestamp.

Lemma to_datetime_cell_raises (c : option string) (e : exn) :
  to_datetime_cell to_datetime c = Raise e -> e = ValueError.
Proof.
  destruct c as [s|]; cbn; [|discriminate].
  destruct (to_datetime s); cbn; congruence.
Qed.

Lemma mapM_to_datetime_raises (cells : list (option string)) :
  (exists s, Some s ∈ cells /\ to_datetime s = None) ->
  mapM (to_datetime_cell to_datetime) cells = Raise ValueError.
Proof.
  induction cells as [|c cells IH]; intros (s & Hin & Hs).
  - apply elem_of_nil in Hin. contradiction.
  - cbn. destruct (to_datetime_cell to_datetime c) as [t|e] eqn:Hc.
    + cbn. rewrite IH; [reflexivity|].
      apply elem_of_cons in Hin. destruct Hin as [E|Hin]; [subst c|eauto].
      cbn in Hc. rewrite Hs in Hc. discriminate Hc.
    + cbn. apply to_datetime_cell_raises in Hc. congruence.
Qed.

Lemma weekly_workload_raises (df : DataFrame Assignment.t) :
  has_column "due_date" df = true ->
  (exists a, a ∈ rows df /\ unparseable to_datetime a) ->
  get_weekly_workload to_datetime df = Raise ValueError.
Proof.
  intros Hcol (a & Hin & s & Hs & Hnone). unfold get_weekly_workload.
  assert (Hne : empty df = false).
  { unfold empty, has_column in *. apply bool_decide_eq_true in Hcol.
    destruct (rows df); [apply elem_of_nil in Hin; contradiction|].
    destruct (columns df); [apply elem_of_nil in Hcol; contradiction | reflexivity]. }
  rewrite Hne. unfold col. rewrite Hcol. cbn [mbind result_bind].
  rewrite mapM_to_datetime_raises; [reflexivity|].
  exists s. split; [|exact Hnone].
  rewrite <- Hs. apply list_elem_of_In, in_map, list_elem_of_In. exact Hin.
Qed.

Lemma time_to_deadline_raises (now : Timestamp) (df : DataFrame Assignment.t) :
  has_column "due_date" df = true -> has_column "status" df = true ->
  (exists a, a ∈ rows df /\ Assignment.status a = "pending" /\ unparseable to_datetime a) ->
  calculate_time_to_deadline to_datetime now df = Raise ValueError.
Proof.
  intros Hcol Hst (a & Hin & Hpending & s & Hs & Hnone).
  unfold calculate_time_to_deadline.
  assert (Hne : empty df = false).
  { unfold empty, has_column in *. apply bool_decide_eq_true in Hcol.
    destruct (rows df); [apply elem_of_nil in Hin; contradiction|].
    destruct (columns df); [apply elem_of_nil in Hcol; contradiction | reflexivity]. }
  rewrite Hne. rewrite (col_present _ _ _ Hst). cbn [mbind result_bind].
  set (pending := df_mask df _).
  assert (Hrows : rows pending
                  = List.filter (fun r => String.eqb (Assignment.status r) "pending") (rows df)).
  { unfold pending, df_mask. cbn [rows].
    apply (select_map Assignment.status (fun s => String.eqb s "pending")). }
  assert (Hina : a ∈ rows pending).
  { rewrite Hrows. apply list_elem_of_In, filter_In. split; [apply list_elem_of_In, Hin|].
    rewrite Hpending. reflexivity. }
  assert (Hnep : empty pending = false).
  { unfold empty. change (columns pending) with (columns df).
    unfold has_column in Hcol. apply bool_decide_eq_true in Hcol.
    destruct (rows pending); [apply elem_of_nil in Hina; contradiction|].
    destruct (columns df); [apply elem_of_nil in Hcol; contradiction | reflexivity]. }
  rewrite Hnep. unfold col. change (has_column "due_date" pending) with (has_column "due_date" df).
  rewrite Hcol. cbn [mbind result_bind].
  rewrite mapM_to_datetime_raises; [reflexivity|].
  exists s. split; [|exact Hnone].
  rewrite <- Hs. apply list_elem_of_In, in_map, list_elem_of_In. exact Hina.
Qed.

Lemma days_until_due_unparseable (now : Timestamp) (due_date_str : string) :
  strptime due_date_str = None ->
  calculate_days_until_due strptime now due_date_str = 0%Z.
Proof. intros Hs. unfold calculate_days_until_due. rewrite Hs. reflexivity. Qed.

Lemma deadline_step_skips (today : Z) (has_due : bool) (acc : nat * nat) (a : Assignment.t) :
  readable to_datetime a = false ->
  deadline_step to_datetime today has_due acc a = acc.
Proof.
  intros Hr. unfold deadline_step, readable in *. destruct acc as [o u].
  destruct (String.eqb (Assignment.status a) "pending"); [|reflexivity].
  destruct has_due; [|reflexivity]. cbn [mbind result_bind].
  destruct (Assignment.due_date a) as [s|]; [|reflexivity].
  cbn. destruct (to_datetime s) as [t|]; [|reflexivity].
  apply bool_decide_eq_false in Hr. exfalso. apply Hr. eexists; reflexivity.
Qed.

Lemma deadline_loop_skips (today : Z) (has_due : bool) (rs : list Assignment.t)
  (acc : nat * nat) :
  fold_left (deadline_step to_datetime today has_due) rs acc
  = fold_left (deadline_step to_datetime today has_due)
      (List.filter (readable to_datetime) rs) acc.
Proof.
  revert acc. induction rs as [|r rs IH]; intros acc; [reflexivity|].
  cbn. destruct (readable to_datetime r) eqn:Hr.
  - cbn. apply IH.
  - rewrite (deadline_step_skips _ _ _ _ Hr). apply IH.
Qed.

Lemma deadline_counts_skip (now : Timestamp) (df : DataFrame Assignment.t) :
  has_column "status" df = true ->
  exists counts : nat * nat,
    analytics_tab_deadline_counts to_datetime now df = Ok counts /\
    analytics_tab_deadline_counts to_datetime now
      (mkDF (columns df) (List.filter (readable to_datetime) (rows df)))
    = Ok counts.
Proof.
  intros Hst. unfold analytics_tab_deadline_counts.
  unfold col. change (has_column "status" (mkDF (columns df) ?r)) with (has_column "status" df).
  change (has_column "due_date" (mkDF (columns df) ?r)) with (has_column "due_date" df).
  rewrite Hst. cbn [mbind result_bind rows].
  set (step := deadline_step to_datetime (day_of now) (has_column "due_date" df)).
  set (kept := List.filter (readable to_datetime) (rows df)).
  assert (Hkept : fold_left step (rows df) (0, 0)%nat = fold_left step kept (0, 0)%nat)
    by apply deadline_loop_skips.
  assert (Hcols : columns df <> []).
  { unfold has_column in Hst. apply bool_decide_eq_true in Hst.
    intros E. rewrite E in Hst. apply elem_of_nil in Hst. exact Hst. }
  exists (fold_left step (rows df) (0, 0)%nat). split.
  - unfold empty. destruct (rows df); [reflexivity|].
    destruct (columns df); [contradiction | reflexivity].
  - rewrite Hkept. unfold empty. cbn [rows columns].
    destruct kept; [reflexivity|].
    destruct (columns df); [contradiction | reflexivity].
Qed.

End DateErrors.

(** C6: how each date-dependent aggregate treats a due date that cannot
    be parsed.  [calculate_days_until_due] catches the error and returns 0,
    and the overdue / near-due loop of [analytics_tab] catches it and leaves
    the record out of both counts.  [get_weekly_workload] does neither: its
    [pd.to_datetime] call stands outside any [try], so one unparseable date
    makes the whole call raise [ValueError] (as does
    [calculate_time_to_deadline] for a pending record). *)
Theorem C6_unparseable_dates :
  (forall (to_datetime : string -> option Timestamp) (df : DataFrame Assignment.t),
     has_column "due_date" df = true ->
     (exists a, a ∈ rows df /\ unparseable to_datetime a) ->
     get_weekly_workload to_datetime df = Raise ValueError) /\
  (forall (to_datetime : string -> option Timestamp) (now : Timestamp)
          (df : DataFrame Assignment.t),
     has_column "due_date" df = true -> has_column "status" df = true ->
     (exists a, a ∈ rows df /\ Assignment.status a = "pending"
                /\ unparseable to_datetime a) ->
     calculate_time_to_deadline to_datetime now df = Raise ValueError) /\
  (forall (strptime : string -> option Timestamp) (now : Timestamp) (s : string),
     strptime s = None -> calculate_days_until_due strptime now s = 0%Z) /\
  (forall (to_datetime : string -> option Timestamp) (now : Timestamp)
          (df : DataFrame Assignment.t),
     has_column "status" df = true ->
     exists counts : nat * nat,
       analytics_tab_deadline_counts to_datetime now df = Ok counts /\
       analytics_tab_deadline_counts to_datetime now
         (mkDF (columns df) (List.filter (readable to_datetime) (rows df)))
       = Ok counts) /\
  get_weekly_workload read_iso_date
    (assignments_frame [ assignment_of "pending" (Some "2025-08-15");
                         assignment_of "pending" (Some "not-a-date") ])
  = Raise ValueError /\
  get_weekly_workload read_iso_date
    (assignments_frame [ assignment_of "pending" (Some "2025-08-15") ])
  = Ok [mkWeek 2902 1 1] /\
  analytics_tab_deadline_counts read_iso_date noon_aug_14
    (assignments_frame [ assignment_of "pending" (Some "2025-08-15");
                         assignment_of "pending" (Some "not-a-date") ])
  = Ok (0%nat, 1%nat).
Proof.
  split; [exact weekly_workload_raises|].
  split; [exact time_to_deadline_raises|].
  split; [exact days_until_due_unparseable|].
  split; [exact deadline_counts_skip|].
  repeat split; vm_compute; reflexivity.
Qed.

(** C7, as stated, fails for the two analyzers it names: on one snapshot,
    a call at noon of 2025-08-14 and a call a day later disagree, also as
    two calls in a row in a world whose clock has moved on. *)
Lemma C7_clock_changes_the_result :
  calculate_days_until_due read_iso_date noon_aug_14 "2025-08-15" = 0%Z /\
  calculate_days_until_due read_iso_date noon_aug_15 "2025-08-15" = (-1)%Z /\
  (List.map days_remaining <$>
     calculate_time_to_deadline read_iso_date noon_aug_14
       (assignments_frame [assignment_of "pending" (Some "2025-08-15")])
   = Ok [Some 0%Z]) /\
  (List.map days_remaining <$>
     calculate_time_to_deadline read_iso_date noon_aug_15
       (assignments_frame [assignment_of "pending" (Some "2025-08-15")])
   = Ok [Some (-1)%Z]) /\
  (let call := call exact_polyfit read_iso_date read_iso_date plain_format in
   let first := call (Days_until_due "2025-08-15") noon_world in
   let second := call (Days_until_due "2025-08-15") (at_time noon_aug_15 (snd first)) in
   fst first = Ok (Days 0%Z) /\ fst second = Ok (Days (-1)%Z)).
Proof. repeat split; vm_compute; reflexivity. Qed.

(** ** Two calls on one snapshot *)

Lemma mapM_result_Forall2 {A B} (f : A -> result B) (l : list A) (k : list B) :
  mapM f l = Ok k -> Forall2 (fun a b => f a = Ok b) l k.
Proof.
  revert k. induction l as [|a l IH]; intros k; cbn.
  - intros E. injection E as <-. constructor.
  - destruct (f a) as [b|e] eqn:Hfa; cbn; [|discriminate].
    destruct (mapM f l) as [k'|e]; cbn; [|discriminate].
    intros E. injection E as <-. constructor; [exact Hfa | apply IH; reflexivity].
Qed.

Lemma days_until_due_same_day (strptime : string -> option Timestamp)
  (t1 t2 : Timestamp) (s : string) :
  (forall d, strptime s = Some d -> same_day_count t1 t2 d) ->
  calculate_days_until_due strptime t1 s = calculate_days_until_due strptime t2 s.
Proof.
  intros Hsame. unfold calculate_days_until_due.
  destruct (strptime s) as [d|]; [|reflexivity].
  cbn. exact (Hsame d eq_refl).
Qed.

Lemma deadline_table_same_day (to_datetime : string -> option Timestamp)
  (t1 t2 : Timestamp) (rs : list Assignment.t) (ds : list (option Timestamp)) :
  Forall2 (fun a d => to_datetime_cell to_datetime (Assignment.due_date a) = Ok d) rs ds ->
  (forall a s d, a ∈ rs -> Assignment.due_date a = Some s -> to_datetime s = Some d ->
                 same_day_count t1 t2 d) ->
  zip_with (fun a d => mkDeadline a d (option_map (fun t => ((t - t1) / us_per_day)%Z) d)) rs ds
  = zip_with (fun a d => mkDeadline a d (option_map (fun t => ((t - t2) / us_per_day)%Z) d)) rs ds.
Proof.
  induction 1 as [|a d rs ds Had _ IH]; intros Hsame; [reflexivity|].
  cbn [zip_with]. f_equal.
  - f_equal. destruct d as [t|]; [|reflexivity]. cbn. f_equal.
    destruct (Assignment.due_date a) as [s|] eqn:Hs; [|discriminate].
    cbn in Had. destruct (to_datetime s) as [t'|] eqn:Ht; [|discriminate].
    cbn in Had. injection Had as <-.
    apply (Hsame a s t'); [left | exact Hs | exact Ht].
  - apply IH. intros a' s' d' Hin. apply Hsame. right. exact Hin.
Qed.

Lemma time_to_deadline_same_day (to_datetime : string -> option Timestamp)
  (t1 t2 : Timestamp) (df : DataFrame Assignment.t) :
  (forall a s d, a ∈ rows df -> Assignment.due_date a = Some s -> to_datetime s = Some d ->
                 same_day_count t1 t2 d) ->
  calculate_time_to_deadline to_datetime t1 df = calculate_time_to_deadline to_datetime t2 df.
Proof.
  intros Hsame. unfold calculate_time_to_deadline.
  destruct (empty df); [reflexivity|].
  destruct (col "status" Assignment.status df) as [statuses|e] eqn:Hst; [|reflexivity].
  cbn [mbind result_bind].
  set (pending := df_mask df _).
  destruct (empty pending); [reflexivity|].
  destruct (col "due_date" Assignment.due_date pending) as [cells|e] eqn:Hcells; [|reflexivity].
  cbn [mbind result_bind].
  destruct (mapM (to_datetime_cell to_datetime) cells) as [ds|e] eqn:Hds; [|reflexivity].
  cbn [mbind result_bind]. do 2 f_equal.
  apply mapM_result_Forall2 in Hds.
  assert (Hcells' : cells = List.map Assignment.due_date (rows pending)).
  { unfold col in Hcells. destruct (has_column _ _); congruence. }
  subst cells. apply Forall2_fmap_l in Hds.
  apply (deadline_table_same_day to_datetime t1 t2 _ _ Hds).
  intros a s d Hin. apply Hsame.
  assert (Hrows : rows pending
                  = List.filter (fun r => String.eqb (Assignment.status r) "pending") (rows df)).
  { unfold col in Hst. destruct (has_column _ _); [|discriminate]. injection Hst as <-.
    apply (select_map Assignment.status (fun s => String.eqb s "pending")). }
  rewrite Hrows in Hin. apply list_elem_of_In, filter_In in Hin.
  apply list_elem_of_In. tauto.
Qed.

(** *** Programs over frame objects *)

Lemma lookup_fresh {A} (h : list A) (o : A) : ((h ++ [o])%list) !! length h = Some o.
Proof. rewrite lookup_app_r by lia. rewrite Nat.sub_diag. reflexivity. Qed.

Lemma insert_fresh {A} (h : list A) (o o' : A) :
  <[length h := o']> ((h ++ [o])%list) = (h ++ [o'])%list.
Proof. rewrite insert_app_r_alt by lia. rewrite Nat.sub_diag. reflexivity. Qed.

Section ProgramRuns.
Context {T : Type} `{PyNum T}.
Variable polyfit : list T -> list T -> result T.
Variable strptime : string -> option Timestamp.
Variable to_datetime : string -> option Timestamp.
Variable format_1f : T -> string.

Lemma extends_refl (w : World T) : extends w w.
Proof. exists []. destruct w. cbn. rewrite app_nil_r. reflexivity. Qed.

Lemma extends_trans (w1 w2 w3 : World T) : extends w1 w2 -> extends w2 w3 -> extends w1 w3.
Proof.
  intros [f1 ->] [f2 ->]. exists (f1 ++ f2)%list. cbn. rewrite app_assoc. reflexivity.
Qed.

Lemma bind_ok {A B} (m : Program T A) (k : A -> Program T B) (w w' : World T) (a : A) :
  m w = (Ok a, w') -> program_bind m k w = k a w'.
Proof. intros E. unfold program_bind. rewrite E. reflexivity. Qed.

Lemma bind_raise {A B} (m : Program T A) (k : A -> Program T B) (w w' : World T) (e : exn) :
  m w = (Raise e, w') -> program_bind m k w = (Raise e, w').
Proof. intros E. unfold program_bind. rewrite E. reflexivity. Qed.

Lemma load_at (p : loc) (w : World T) (o : Object T) :
  heap w !! p = Some o -> load p w = (Ok o, w).
Proof. intros E. unfold load. rewrite E. reflexivity. Qed.

Lemma load_fresh (t : Timestamp) (h : list (Object T)) (o : Object T) :
  load (length h) (mkWorld t (h ++ [o])%list) = (Ok o, mkWorld t (h ++ [o])%list).
Proof. apply load_at. apply lookup_fresh. Qed.

Lemma copy_at (p : loc) (t : Timestamp) (h : list (Object T)) (o : Object T) :
  h !! p = Some o ->
  copy p (mkWorld t h) = (Ok (length h), mkWorld t (h ++ [o])%list).
Proof. intros E. unfold copy. erewrite bind_ok by (apply load_at; exact E). reflexivity. Qed.

Lemma assign_fresh (t : Timestamp) (h : list (Object T)) (o : Object T)
  (name : string) (cells : Cells T) :
  assign (length h) name cells (mkWorld t (h ++ [o])%list)
  = (Ok tt, mkWorld t (h ++ [mkObject (table o) ((name, cells) :: assigned o)])%list).
Proof. unfold assign. cbn [heap clock]. rewrite lookup_fresh, insert_fresh. reflexivity. Qed.

Lemma assigned_latest (t : Timestamp) (h : list (Object T)) (tb : Table T)
  (rest : list (string * Cells T)) (name : string) (cells : Cells T) :
  let w := mkWorld t (h ++ [mkObject tb ((name, cells) :: rest)])%list in
  assigned_column (length h) name w = (Ok cells, w).
Proof.
  intros w. unfold assigned_column. erewrite bind_ok by apply load_fresh.
  unfold lift. cbn [assigned List.find fst]. rewrite String.eqb_refl. reflexivity.
Qed.

Lemma instants_latest (t : Timestamp) (h : list (Object T)) (tb : Table T)
  (rest : list (string * Cells T)) (name : string) (v : list (option Timestamp)) :
  let w := mkWorld t (h ++ [mkObject tb ((name, Instants v) :: rest)])%list in
  instants (length h) name w = (Ok v, w).
Proof. intros w. unfold instants. erewrite bind_ok by apply assigned_latest. reflexivity. Qed.

Lemma integers_latest (t : Timestamp) (h : list (Object T)) (tb : Table T)
  (rest : list (string * Cells T)) (name : string) (v : list (option Z)) :
  let w := mkWorld t (h ++ [mkObject tb ((name, Integers v) :: rest)])%list in
  integers (length h) name w = (Ok v, w).
Proof. intros w. unfold integers. erewrite bind_ok by apply assigned_latest. reflexivity. Qed.

Lemma assignments_table_at (p : loc) (w : World T) (o : Object T) (df : DataFrame Assignment.t) :
  heap w !! p = Some o -> table o = Assignments df -> assignments_table p w = (Ok df, w).
Proof.
  intros E Ht. unfold assignments_table. erewrite bind_ok by (apply load_at; exact E).
  rewrite Ht. reflexivity.
Qed.

Lemma carry_marks_table_at (p : loc) (w : World T) (o : Object T) (df : DataFrame (CarryMark.t T)) :
  heap w !! p = Some o -> table o = CarryMarks df -> carry_marks_table p w = (Ok df, w).
Proof.
  intros E Ht. unfold carry_marks_table. erewrite bind_ok by (apply load_at; exact E).
  rewrite Ht. reflexivity.
Qed.

Ltac nothing_new := eexists; split; [apply extends_refl|reflexivity].
Ltac one_new := eexists; split; [eexists [_]; reflexivity|reflexivity].
Ltac run_by lemma := erewrite bind_ok by (eapply lemma; first [eassumption | apply lookup_fresh | reflexivity]).
Ltac run_lift := erewrite bind_ok by reflexivity.
Ltac stop_lift := erewrite bind_raise by reflexivity.

Lemma weekly_workload_runs (p : loc) (w : World T) :
  exists w', extends w w' /\
    run_get_weekly_workload to_datetime p w
    = (o ← from_option KeyError (heap w !! p);
       df ← match table o with Assignments df => Ok df | _ => Raise TypeError end;
       get_weekly_workload to_datetime df, w').
Proof.
  destruct w as [t h]. cbn [heap]. unfold run_get_weekly_workload.
  destruct (h !! p) as [o|] eqn:Hp; cbn [from_option mbind result_bind].
  2:{ unfold assignments_table. erewrite bind_raise; [nothing_new|].
      erewrite bind_raise; [reflexivity|]. unfold load. cbn [heap]. rewrite Hp. reflexivity. }
  destruct (table o) as [df|df|df|df] eqn:Ht; cbn [mbind result_bind].
  1,2,4: unfold assignments_table; erewrite bind_raise; [nothing_new|];
    erewrite bind_ok by (apply load_at; exact Hp); rewrite Ht; reflexivity.
  run_by assignments_table_at. unfold get_weekly_workload.
  destruct (empty df); [nothing_new|].
  run_by copy_at. run_by assignments_table_at.
  destruct (col "due_date" Assignment.due_date df) as [cells|e]; cbn [mbind result_bind];
    [run_lift|stop_lift; one_new].
  destruct (mapM (to_datetime_cell to_datetime) cells) as [due|e]; cbn [mbind result_bind];
    [run_lift|stop_lift; one_new].
  run_by assign_fresh. run_by instants_latest. run_by assign_fresh. run_by integers_latest.
  destruct (col "title" Assignment.title df) as [titles|e]; cbn [mbind result_bind];
    [run_lift|stop_lift; one_new].
  destruct (col "status" Assignment.status df) as [statuses|e]; cbn [mbind result_bind];
    [run_lift|stop_lift; one_new].
  one_new.
Qed.

Lemma numbers_second (t : Timestamp) (h : list (Object T)) (tb : Table T)
  (rest : list (string * Cells T)) (name other : string) (c : Cells T) (v : list T) :
  String.eqb other name = false ->
  let w := mkWorld t (h ++ [mkObject tb ((other, c) :: (name, Numbers v) :: rest)])%list in
  numbers (length h) name w = (Ok v, w).
Proof.
  intros Hne w. unfold numbers.
  assert (E : assigned_column (length h) name w = (Ok (Numbers v), w)).
  { unfold assigned_column. erewrite bind_ok by apply load_fresh.
    unfold lift. cbn [assigned List.find fst]. rewrite Hne, String.eqb_refl. reflexivity. }
  erewrite bind_ok by exact E. reflexivity.
Qed.

Lemma alloc_at (t : Timestamp) (h : list (Object T)) (o : Object T) :
  alloc o (mkWorld t h) = (Ok (length h), mkWorld t (h ++ [o])%list).
Proof. reflexivity. Qed.

Lemma now_at (w : World T) : now w = (Ok (clock w), w).
Proof. reflexivity. Qed.

Lemma zip_with_zip_map {A B C D} (f : A * B -> C -> D) (g : B -> C) (l : list A) (k : list B) :
  zip_with f (zip l k) (List.map g k) = zip_with (fun a b => f (a, b) (g b)) l k.
Proof.
  revert k. induction l as [|a l IH]; intros [|b k]; cbn; [reflexivity..|].
  f_equal. apply IH.
Qed.

Lemma time_to_deadline_runs (p : loc) (w : World T) :
  exists w', extends w w' /\
    run_calculate_time_to_deadline to_datetime p w
    = (o ← from_option KeyError (heap w !! p);
       df ← match table o with Assignments df => Ok df | _ => Raise TypeError end;
       calculate_time_to_deadline to_datetime (clock w) df, w').
Proof.
  destruct w as [t h]. cbn [heap clock]. unfold run_calculate_time_to_deadline.
  destruct (h !! p) as [o|] eqn:Hp; cbn [from_option mbind result_bind].
  2:{ unfold assignments_table. erewrite bind_raise; [nothing_new|].
      erewrite bind_raise; [reflexivity|]. unfold load. cbn [heap]. rewrite Hp. reflexivity. }
  destruct (table o) as [df|df|df|df] eqn:Ht; cbn [mbind result_bind].
  1,2,4: unfold assignments_table; erewrite bind_raise; [nothing_new|];
    erewrite bind_ok by (apply load_at; exact Hp); rewrite Ht; reflexivity.
  run_by assignments_table_at. unfold calculate_time_to_deadline.
  destruct (empty df); [nothing_new|].
  destruct (col "status" Assignment.status df) as [statuses|e]; cbn [mbind result_bind];
    [run_lift|stop_lift; nothing_new].
  set (pending := df_mask df _).
  run_by alloc_at. run_by assignments_table_at.
  destruct (empty pending); [one_new|].
  destruct (col "due_date" Assignment.due_date pending) as [cells|e];
    cbn [mbind result_bind]; [run_lift|stop_lift; one_new].
  destruct (mapM (to_datetime_cell to_datetime) cells) as [due|e]; cbn [mbind result_bind];
    [run_lift|stop_lift; one_new].
  run_by assign_fresh. run_by instants_latest. run_by now_at. cbn [clock].
  run_by assign_fresh. run_by integers_latest.
  rewrite zip_with_zip_map. one_new.
Qed.

Lemma performance_trend_runs (p : loc) (w : World T) :
  exists w', extends w w' /\
    run_get_performance_trend polyfit to_datetime p w
    = (o ← from_option KeyError (heap w !! p);
       df ← match table o with CarryMarks df => Ok df | _ => Raise TypeError end;
       get_performance_trend polyfit to_datetime df, w').
Proof.
  destruct w as [t h]. cbn [heap clock]. unfold run_get_performance_trend.
  destruct (h !! p) as [o|] eqn:Hp; cbn [from_option mbind result_bind].
  2:{ unfold carry_marks_table. erewrite bind_raise; [nothing_new|].
      erewrite bind_raise; [reflexivity|]. unfold load. cbn [heap]. rewrite Hp. reflexivity. }
  destruct (table o) as [df|df|df|df] eqn:Ht; cbn [mbind result_bind].
  1,3,4: unfold carry_marks_table; erewrite bind_raise; [nothing_new|];
    erewrite bind_ok by (apply load_at; exact Hp); rewrite Ht; reflexivity.
  run_by carry_marks_table_at. unfold get_performance_trend.
  destruct (empty df || (len df <? 2)%nat); [nothing_new|].
  run_by copy_at.
  destruct (has_column "percentage" df) eqn:Hpct; cbn [negb].
  - run_lift.
    assert (Hc : col "percentage" CarryMark.percentage df
                 = Ok (List.map CarryMark.percentage (rows df))).
    { unfold col. rewrite Hpct. reflexivity. }
    rewrite Hc. cbn [mbind result_bind].
    destruct (negb (has_column "date_added" df)); [one_new|].
    destruct (col "date_added" CarryMark.date_added df) as [cells|e];
      cbn [mbind result_bind]; [run_lift|stop_lift; one_new].
    destruct (mapM _ cells) as [dates|e]; cbn [mbind result_bind];
      [run_lift|stop_lift; one_new].
    run_by assign_fresh. run_lift.
    destruct (_ <? 2)%nat; [one_new|].
    destruct (polyfit _ _) as [slope|e]; cbn [mbind result_bind];
      [run_lift|stop_lift; one_new].
    destruct (ltb (of_Z 2) slope); [one_new|]. destruct (ltb slope (of_Z (-2))); one_new.
  - destruct (col "earned" CarryMark.earned df) as [earned|e]; cbn [mbind result_bind].
    2:{ erewrite bind_raise; [one_new|]. stop_lift. reflexivity. }
    destruct (col "max_possible" CarryMark.max_possible df) as [maxp|e];
      cbn [mbind result_bind].
    2:{ erewrite bind_raise; [one_new|]. run_lift. stop_lift. reflexivity. }
    erewrite bind_ok; [|run_lift; run_lift; apply assign_fresh].
    destruct (negb (has_column "date_added" df)); [one_new|].
    destruct (col "date_added" CarryMark.date_added df) as [cells|e];
      cbn [mbind result_bind]; [run_lift|stop_lift; one_new].
    destruct (mapM _ cells) as [dates|e]; cbn [mbind result_bind];
      [run_lift|stop_lift; one_new].
    run_by assign_fresh. erewrite bind_ok by (apply numbers_second; reflexivity).
    destruct (_ <? 2)%nat; [one_new|].
    destruct (polyfit _ _) as [slope|e]; cbn [mbind result_bind];
      [run_lift|stop_lift; one_new].
    destruct (ltb (of_Z 2) slope); [one_new|]. destruct (ltb slope (of_Z (-2))); one_new.
Qed.

Lemma returning_runs {A} (tag : A -> Returned T) (m : Program T A) (r : result A)
  (w w' : World T) :
  m w = (r, w') -> returning tag m w = (tag <$> r, w').
Proof.
  intros E. unfold returning, program_bind. rewrite E. destruct r; reflexivity.
Qed.

Ltac read_only :=
  eexists; split; [apply extends_refl|];
  unfold returning, run_calculate_carry_percentage, run_calculate_final_exam_requirement,
    run_calculate_current_grade, run_get_grade_letter, run_calculate_completion_rate,
    run_calculate_weighted_gpa, run_calculate_study_recommendations,
    run_calculate_workload_balance, courses_table, carry_marks_table, assignments_table, course_stats_table,
    program_bind, load, lift, program_ret;
  repeat match goal with
         | |- context [heap ?w !! ?p] => destruct (heap w !! p); cbn; [|reflexivity]
         | |- context [table ?o] => destruct (table o); cbn; try reflexivity
         end;
  try match goal with
      | |- match ?r with _ => _ end = _ => destruct r
      end;
  reflexivity.

(** Every call hands back the calculation on the tables behind its
    arguments at the clock's reading, and leaves the objects that existed
    as they were. *)
Lemma call_runs (c : Call T) (w : World T) :
  exists w', extends w w' /\
    call polyfit strptime to_datetime format_1f c w
    = (calculation polyfit strptime to_datetime format_1f c (clock w) (heap w), w').
Proof.
  destruct c; cbn [call calculation].
  - read_only.
  - read_only.
  - read_only.
  - read_only.
  - eexists; split; [apply extends_refl|].
    unfold returning, run_calculate_days_until_due, try_except_program, program_bind,
      lift, now, program_ret, calculate_days_until_due, try_except.
    destruct (strptime due_date_str); reflexivity.
  - destruct (weekly_workload_runs assignments_df w) as (w' & Hext & E).
    exists w'. split; [exact Hext|]. rewrite (returning_runs _ _ _ _ _ E).
    f_equal. destruct (heap w !! assignments_df) as [o|]; cbn; [|reflexivity].
    destruct (table o); reflexivity.
  - read_only.
  - read_only.
  - destruct (performance_trend_runs carry_marks_df w) as (w' & Hext & E).
    exists w'. split; [exact Hext|]. rewrite (returning_runs _ _ _ _ _ E).
    f_equal. destruct (heap w !! carry_marks_df) as [o|]; cbn; [|reflexivity].
    destruct (table o); reflexivity.
  - read_only.
  - destruct (time_to_deadline_runs assignments_df w) as (w' & Hext & E).
    exists w'. split; [exact Hext|]. rewrite (returning_runs _ _ _ _ _ E).
    f_equal. destruct (heap w !! assignments_df) as [o|]; cbn; [|reflexivity].
    destruct (table o); reflexivity.
  - read_only.
Qed.

Lemma call_extends (c : Call T) (w : World T) :
  extends w (snd (call polyfit strptime to_datetime format_1f c w)).
Proof. destruct (call_runs c w) as (w' & Hext & ->). exact Hext. Qed.

Lemma call_all_extends (cs : list (Call T)) (w : World T) :
  extends w (call_all polyfit strptime to_datetime format_1f cs w).
Proof.
  revert w. induction cs as [|c cs IH]; intros w; [apply extends_refl|].
  cbn. eapply extends_trans; [apply call_extends|apply IH].
Qed.

Lemma extends_lookup (w w' : World T) (p : loc) (o : Object T) :
  extends w w' -> heap w !! p = Some o -> heap w' !! p = Some o.
Proof. intros [fresh ->] Hp. cbn. apply lookup_app_l_Some. exact Hp. Qed.

(** The calculation looks at the objects behind the arguments only. *)
Lemma calculation_arguments (c : Call T) (t : Timestamp) (h1 h2 : list (Object T)) :
  (forall p, p ∈ arguments c -> h1 !! p = h2 !! p) ->
  calculation polyfit strptime to_datetime format_1f c t h1
  = calculation polyfit strptime to_datetime format_1f c t h2.
Proof.
  intros Hsame. destruct c; cbn [calculation arguments] in *;
    repeat match goal with
           | |- context [h1 !! ?p] => rewrite (Hsame p) by (repeat constructor)
           end; reflexivity.
Qed.

(** It reads the clock for the two day counts only. *)
Lemma calculation_clock (c : Call T) (t1 t2 : Timestamp) (h : list (Object T)) :
  reads_clock c = false ->
  calculation polyfit strptime to_datetime format_1f c t1 h
  = calculation polyfit strptime to_datetime format_1f c t2 h.
Proof. destruct c; cbn; intros E; try discriminate; reflexivity. Qed.

End ProgramRuns.

(** *** The clock between two calls *)

Lemma same_next_midnight (t1 t2 d : Timestamp) :
  (d mod us_per_day = 0)%Z -> next_midnight t1 = next_midnight t2 ->
  same_day_count t1 t2 d.
Proof.
  unfold next_midnight, same_day_count. intros Hd Hcell.
  assert (U : (us_per_day <> 0)%Z) by (unfold us_per_day; lia).
  assert (E : forall t, ((d - t) / us_per_day = d / us_per_day + (- t) / us_per_day)%Z).
  { intros t. rewrite (Z.div_mod d us_per_day U) at 1. rewrite Hd.
    replace (us_per_day * (d / us_per_day) + 0 - t)%Z
      with (- t + (d / us_per_day) * us_per_day)%Z by ring.
    rewrite Z.div_add by exact U. ring. }
  rewrite !E. lia.
Qed.

(** C7 (amended): a call of any of the twelve functions leaves every
    frame object that existed as it was and the clock where it was (what it
    writes, it writes to a copy of its own), and its result is fixed by the
    frames it is passed and, for [calculate_days_until_due] and
    [calculate_time_to_deadline], by the reading of the clock.  So a call
    repeated on the same frames, after any other calls and at any later
    time, gives the same result when the function does not read the clock;
    the two that read it give the same result when every due date is read
    to a midnight and no midnight lies between the two readings (the
    readings have the same next midnight). *)
Theorem C7_same_snapshot_same_result :
  forall (T : Type) (N : PyNum T) (polyfit : list T -> list T -> result T)
         (strptime to_datetime : string -> option Timestamp) (format_1f : T -> string),
  let call := call polyfit strptime to_datetime format_1f in
  let call_all := call_all polyfit strptime to_datetime format_1f in
  (forall (c : Call T) (w : World T), extends w (snd (call c w))) /\
  (forall (c : Call T) (w1 w2 : World T),
     Forall (supplied w1) (arguments c) ->
     (forall p, p ∈ arguments c -> heap w1 !! p = heap w2 !! p) ->
     (reads_clock c = true -> clock w1 = clock w2) ->
     fst (call c w1) = fst (call c w2)) /\
  (forall (c : Call T) (cs : list (Call T)) (w : World T) (t : Timestamp),
     Forall (supplied w) (arguments c) ->
     reads_clock c = false ->
     fst (call c (at_time t (call_all cs w))) = fst (call c w)) /\
  (forall (due_date_str : string) (cs : list (Call T)) (w : World T) (t : Timestamp),
     read_to_midnight strptime due_date_str ->
     next_midnight t = next_midnight (clock w) ->
     fst (call (Days_until_due due_date_str) (at_time t (call_all cs w)))
     = fst (call (Days_until_due due_date_str) w)) /\
  (forall (p : loc) (df : DataFrame Assignment.t) (cs : list (Call T)) (w : World T)
          (t : Timestamp),
     heap w !! p = Some (mkObject (Assignments df) []) ->
     (forall a s, a ∈ rows df -> Assignment.due_date a = Some s ->
                  read_to_midnight to_datetime s) ->
     next_midnight t = next_midnight (clock w) ->
     fst (call (Time_to_deadline p) (at_time t (call_all cs w)))
     = fst (call (Time_to_deadline p) w)).
Proof.
  intros T N polyfit strptime to_datetime format_1f call0 call_all0.
  assert (Hlater : forall (cs : list (Call T)) (w : World T) (t : Timestamp) (p : loc)
                          (o : Object T),
             heap w !! p = Some o -> heap (at_time t (call_all0 cs w)) !! p = Some o).
  { intros cs w t p o Hp. unfold at_time. cbn [heap].
    exact (extends_lookup _ _ p o
             (call_all_extends polyfit strptime to_datetime format_1f cs w) Hp). }
  assert (Hresult : forall c w,
             fst (call0 c w)
             = calculation polyfit strptime to_datetime format_1f c (clock w) (heap w)).
  { intros c w.
    destruct (call_runs polyfit strptime to_datetime format_1f c w) as (w' & _ & E).
    unfold call0. rewrite E. reflexivity. }
  split; [intros c w; apply call_extends|].
  split.
  { intros c w1 w2 _ Hsame Hclock. rewrite !Hresult.
    rewrite (calculation_arguments polyfit strptime to_datetime format_1f c _ _ _ Hsame).
    destruct (reads_clock c) eqn:Hc.
    - rewrite (Hclock eq_refl). reflexivity.
    - apply calculation_clock. exact Hc. }
  split.
  { intros c cs w t Hsupplied Hc. rewrite !Hresult.
    rewrite (calculation_clock polyfit strptime to_datetime format_1f c _ (clock w) _ Hc).
    apply calculation_arguments. intros p Hp.
    rewrite Forall_forall in Hsupplied. destruct (Hsupplied p Hp) as [tb Htb].
    rewrite Htb. apply Hlater. exact Htb. }
  split.
  { intros s cs w t Hmid Hcell. rewrite !Hresult. cbn [calculation clock at_time].
    do 2 f_equal. apply days_until_due_same_day. intros d Hd.
    apply same_next_midnight; [exact (Hmid d Hd) | exact Hcell]. }
  intros p df cs w t Hp Hmid Hcell. rewrite !Hresult.
  cbn [calculation].
  rewrite (Hlater cs w t p _ Hp), Hp. cbn [from_option mbind result_bind table clock at_time].
  f_equal. apply time_to_deadline_same_day. intros a s d Hin Hdue Hd.
  apply same_next_midnight; [exact (Hmid a s Hin Hdue d Hd) | exact Hcell].
Qed.

Lemma C7_same_snapshot_same_result_witness :
  fst (call exact_polyfit read_iso_date read_iso_date plain_format (Time_to_deadline 0%nat)
         (at_time (noon_aug_14 + 3600000000)%Z
            (call_all exact_polyfit read_iso_date read_iso_date plain_format
               [Time_to_deadline 0%nat; Weekly_workload 0%nat] noon_world)))
  = fst (call exact_polyfit read_iso_date read_iso_date plain_format
           (Time_to_deadline 0%nat) noon_world).
Proof.
  apply (proj2 (proj2 (proj2 (proj2
           (C7_same_snapshot_same_result Q Q_PyNum exact_polyfit read_iso_date
              read_iso_date plain_format)))) 0%nat one_assignment).
  - reflexivity.
  - intros a s Hin Hdue d Hd.
    apply list_elem_of_singleton in Hin. subst a. injection Hdue as <-.
    vm_compute in Hd. injection Hd as <-. reflexivity.
  - reflexivity.
Defined.

(** ** The record store *)

Lemma get_ne_references (d : gmap string value) (code : value) :
  get_ne d "course_code" code = true <-> ~ references d code.
Proof.
  unfold get_ne, references. destruct (d !! "course_code") as [w|].
  - rewrite negb_true_iff. split.
    + intros Hw (w' & E & Hw'). injection E as <-. congruence.
    + intros Hn. destruct (value_eqb w code) eqn:E; [|reflexivity].
      exfalso. apply Hn. exists w. split; [reflexivity | exact E].
  - split; [|reflexivity]. intros _ (w & E & _). discriminate E.
Qed.

Lemma filter_get_ne (l : list (gmap string value)) (code : value) (d : gmap string value) :
  d ∈ List.filter (fun r => get_ne r "course_code" code) l <->
  d ∈ l /\ ~ references d code.
Proof. rewrite !list_elem_of_In, filter_In, get_ne_references. reflexivity. Qed.

(** C8: deleting a course cascades.  For a valid index whose course has a
    code, [delete_course] returns, removes that course, and keeps of the
    carry marks, assignments and final-exam records exactly those that do
    not reference the deleted course's code: none that remains references
    it. *)
Theorem C8_delete_course_cascades
  (st : SessionState) (index : Z) (course : gmap string value) (code : value) :
  (0 <= index < Z.of_nat (length (courses st)))%Z ->
  courses st !! Z.to_nat index = Some course ->
  course !! "code" = Some code ->
  exists st' : SessionState,
    delete_course index st = Ok st' /\
    courses st' = delete (Z.to_nat index) (courses st) /\
    (forall d, d ∈ carry_marks st' <-> d ∈ carry_marks st /\ ~ references d code) /\
    (forall d, d ∈ assignments st' <-> d ∈ assignments st /\ ~ references d code) /\
    (forall d, d ∈ final_exams st' <-> d ∈ final_exams st /\ ~ references d code).
Proof.
  intros [Hlo Hhi] Hcourse Hcode. unfold delete_course.
  apply Z.leb_le in Hlo. apply Z.ltb_lt in Hhi. rewrite Hlo, Hhi. cbn [andb].
  rewrite Hcourse. cbn [from_option mbind result_bind].
  rewrite Hcode. cbn [from_option mbind result_bind].
  eexists. split; [reflexivity|]. cbn [courses carry_marks assignments final_exams].
  split; [reflexivity|].
  split; [|split]; intros d; apply filter_get_ne.
Qed.

Lemma C8_delete_course_cascades_witness :
  exists st' : SessionState,
    delete_course 0 sample_store = Ok st' /\
    courses st' = delete (Z.to_nat 0) (courses sample_store) /\
    (forall d, d ∈ carry_marks st' <->
               d ∈ carry_marks sample_store /\ ~ references d (VStr "BSD 1323")) /\
    (forall d, d ∈ assignments st' <->
               d ∈ assignments sample_store /\ ~ references d (VStr "BSD 1323")) /\
    (forall d, d ∈ final_exams st' <->
               d ∈ final_exams sample_store /\ ~ references d (VStr "BSD 1323")).
Proof.
  apply (C8_delete_course_cascades sample_store 0
           (course_record "BSD 1323" "Storytelling & Data Visualization" 60 40)
           (VStr "BSD 1323")).
  - cbn. lia.
  - reflexivity.
  - vm_compute. reflexivity.
Defined.


(** ** Trend analyzer: sorting by date *)

Section SortFacts.
Context {A : Type} (le : A -> A -> bool).
Hypothesis le_total : forall x y, le x y = true \/ le y x = true.

Lemma insert_sorted_perm (x : A) (l : list A) :
  Permutation (insert_sorted le x l) (x :: l).
Proof.
  induction l as [|y l IH]; cbn; [reflexivity|].
  destruct (le x y); [reflexivity|].
  rewrite IH. apply perm_swap.
Qed.

Lemma sort_by_perm (l : list A) : Permutation (sort_by le l) l.
Proof.
  induction l as [|x l IH]; cbn; [reflexivity|].
  rewrite insert_sorted_perm. apply perm_skip. exact IH.
Qed.

Lemma insert_sorted_hd (x z : A) (l : list A) :
  le z x = true -> HdRel (fun a b => le a b = true) z l ->
  HdRel (fun a b => le a b = true) z (insert_sorted le x l).
Proof.
  intros Hzx Hz. destruct l as [|y l]; cbn; [constructor; exact Hzx|].
  destruct (le x y); constructor; [exact Hzx|].
  inversion Hz; assumption.
Qed.

Lemma insert_sorted_sorted (x : A) (l : list A) :
  Sorted (fun a b => le a b = true) l ->
  Sorted (fun a b => le a b = true) (insert_sorted le x l).
Proof.
  induction 1 as [|y l Hs IH Hhd]; cbn; [repeat constructor|].
  destruct (le x y) eqn:Hxy.
  - constructor; [constructor; assumption | constructor; exact Hxy].
  - constructor; [exact IH|].
    apply insert_sorted_hd; [|exact Hhd].
    destruct (le_total x y); congruence.
Qed.

Lemma sort_by_sorted (l : list A) : Sorted (fun a b => le a b = true) (sort_by le l).
Proof.
  induction l as [|x l IH]; cbn; [constructor|].
  apply insert_sorted_sorted. exact IH.
Qed.

End SortFacts.

Lemma sort_by_date_sorted (l : list (Timestamp * Q)) :
  Sorted by_date (sort_by by_date_b l).
Proof.
  assert (H : Sorted (fun a b => by_date_b a b = true) (sort_by by_date_b l)).
  { apply sort_by_sorted. intros x y. unfold by_date_b. lia. }
  revert H. generalize (sort_by by_date_b l) as s.
  induction s as [|a s IH]; intros H; [constructor|].
  inversion H as [|? ? Hs Hhd]; subst. constructor; [apply IH; exact Hs|].
  destruct Hhd as [|b s' Hab]; constructor.
  unfold by_date, by_date_b in *. lia.
Qed.

(** Rows with pairwise distinct dates have one sorted order only, whatever
    the sorting algorithm. *)
Lemma sorted_by_date_unique (l1 l2 : list (Timestamp * Q)) :
  Sorted by_date l1 -> Sorted by_date l2 -> Permutation l1 l2 ->
  NoDup (List.map fst l1) -> l1 = l2.
Proof.
  revert l2. induction l1 as [|a1 l1 IH]; intros l2 S1 S2 P ND.
  - apply Permutation_nil in P. congruence.
  - destruct l2 as [|a2 l2]; [symmetry in P; apply Permutation_nil in P; discriminate|].
    assert (T : Transitive by_date) by (intros x y z; unfold by_date; lia).
    apply Sorted_StronglySorted in S1; [|exact T].
    apply Sorted_StronglySorted in S2; [|exact T].
    inversion S1 as [|? ? S1' F1]; subst. inversion S2 as [|? ? S2' F2]; subst.
    inversion ND as [|? ? Hnotin ND']; subst.
    assert (E : a1 = a2).
    { assert (H1 : In a1 (a2 :: l2)) by (apply (Permutation_in _ P); left; reflexivity).
      assert (H2 : In a2 (a1 :: l1))
        by (apply (Permutation_in _ (Permutation_sym P)); left; reflexivity).
      destruct H1 as [H1|H1]; [congruence|]. destruct H2 as [H2|H2]; [congruence|].
      rewrite List.Forall_forall in F1, F2.
      pose proof (F1 _ H2) as L1. pose proof (F2 _ H1) as L2. unfold by_date in L1, L2.
      exfalso. apply Hnotin.
      replace a1.1 with a2.1 by lia. apply list_elem_of_In, in_map. exact H2. }
    subst a2. f_equal. apply IH.
    + apply StronglySorted_Sorted. exact S1'.
    + apply StronglySorted_Sorted. exact S2'.
    + apply Permutation_cons_inv in P. exact P.
    + exact ND'.
Qed.

(** ** Trend analyzer: the least-squares line *)

Lemma total_exact (xs : list Q) : (total xs == Qsum xs)%Q.
Proof.
  unfold total. change (fold_left add xs (of_Z 0)) with (fold_left Qplus xs 0%Q).
  rewrite fold_left_Qplus. ring.
Qed.

Lemma Qsum_app (xs ys : list Q) : (Qsum (xs ++ ys) == Qsum xs + Qsum ys)%Q.
Proof.
  unfold Qsum. induction xs as [|x xs IH]; cbn; [ring|].
  rewrite IH. ring.
Qed.

Lemma Q_of_nat_S (n : nat) :
  (inject_Z (Z.of_nat (S n)) == inject_Z (Z.of_nat n) + 1)%Q.
Proof. rewrite Nat2Z.inj_succ, <- Z.add_1_r, inject_Z_plus. reflexivity. Qed.

(** The squared error is a quadratic form in the two coefficients. *)
Lemma squared_error_expand (xs ys : list Q) (a b : Q) :
  length xs = length ys ->
  (squared_error xs ys a b ==
   Qsum (zip_with Qmult ys ys) - 2 * a * Qsum (zip_with Qmult xs ys) - 2 * b * Qsum ys
   + a * a * Qsum (zip_with Qmult xs xs) + 2 * a * b * Qsum xs
   + inject_Z (Z.of_nat (length xs)) * b * b)%Q.
Proof.
  revert ys. induction xs as [|x xs IH]; intros [|y ys] Hlen; try discriminate.
  - unfold squared_error, Qsum. cbn. ring.
  - injection Hlen as Hlen. specialize (IH ys Hlen).
    unfold squared_error in *. cbn [zip_with length].
    rewrite Q_of_nat_S. unfold Qsum in *. cbn [fold_right].
    rewrite IH. ring.
Qed.

(** The normal equations give the minimum of that quadratic form. *)
Lemma quadratic_minimum (n sx sy sxy sxx syy a b : Q) :
  (0 < n)%Q -> (0 < n * sxx - sx * sx)%Q ->
  let m := ((n * sxy - sx * sy) / (n * sxx - sx * sx))%Q in
  let c := ((sy - m * sx) / n)%Q in
  (syy - 2 * m * sxy - 2 * c * sy + m * m * sxx + 2 * m * c * sx + n * c * c
   <= syy - 2 * a * sxy - 2 * b * sy + a * a * sxx + 2 * a * b * sx + n * b * b)%Q.
Proof.
  intros Hn Hd m c.
  set (u := (b - c + (a - m) * sx / n)%Q).
  set (v := (a - m)%Q).
  assert (Hid : (syy - 2 * a * sxy - 2 * b * sy + a * a * sxx + 2 * a * b * sx + n * b * b
                 - (syy - 2 * m * sxy - 2 * c * sy + m * m * sxx + 2 * m * c * sx + n * c * c)
                 == n * (u * u) + (n * sxx - sx * sx) / n * (v * v))%Q).
  { unfold u, v, c, m. field. split; lra. }
  assert (Hk : (0 <= (n * sxx - sx * sx) / n)%Q) by (apply Qle_shift_div_l; lra).
  revert Hid Hk. generalize ((n * sxx - sx * sx) / n)%Q as k. intros k Hid Hk.
  assert (Hu : (0 <= u * u)%Q) by nra.
  assert (Hv : (0 <= v * v)%Q) by nra.
  assert (H1 : (0 <= n * (u * u))%Q) by (apply Qmult_le_0_compat; lra).
  assert (H2 : (0 <= k * (v * v))%Q) by (apply Qmult_le_0_compat; lra).
  lra.
Qed.

Lemma Q_square_zero (v : Q) : (v * v <= 0)%Q -> (v == 0)%Q.
Proof.
  intros Hv. destruct (Qlt_le_dec 0 v) as [Hpos|Hle].
  - pose proof (Qmult_lt_0_compat v v Hpos Hpos). lra.
  - destruct (Qlt_le_dec v 0) as [Hneg|Hge]; [|lra].
    assert (Hn : (0 < - v)%Q) by lra.
    pose proof (Qmult_lt_0_compat (- v) (- v) Hn Hn) as H.
    setoid_replace (- v * - v)%Q with (v * v)%Q using relation Qeq in H by ring. lra.
Qed.

(** The minimum is reached at one slope only. *)
Lemma quadratic_minimum_unique (n sx sy sxy sxx syy a b : Q) :
  (0 < n)%Q -> (0 < n * sxx - sx * sx)%Q ->
  let m := ((n * sxy - sx * sy) / (n * sxx - sx * sx))%Q in
  let c := ((sy - m * sx) / n)%Q in
  (syy - 2 * a * sxy - 2 * b * sy + a * a * sxx + 2 * a * b * sx + n * b * b
   <= syy - 2 * m * sxy - 2 * c * sy + m * m * sxx + 2 * m * c * sx + n * c * c)%Q ->
  (a == m)%Q.
Proof.
  intros Hn Hd m c Hle.
  set (u := (b - c + (a - m) * sx / n)%Q).
  set (v := (a - m)%Q).
  assert (Hid : (syy - 2 * a * sxy - 2 * b * sy + a * a * sxx + 2 * a * b * sx + n * b * b
                 - (syy - 2 * m * sxy - 2 * c * sy + m * m * sxx + 2 * m * c * sx + n * c * c)
                 == n * (u * u) + (n * sxx - sx * sx) / n * (v * v))%Q).
  { unfold u, v, c, m. field. split; lra. }
  assert (Hk : (0 < (n * sxx - sx * sx) / n)%Q) by (apply Qlt_shift_div_l; lra).
  revert Hid Hk. generalize ((n * sxx - sx * sx) / n)%Q as k. intros k Hid Hk.
  assert (Hu : (0 <= u * u)%Q) by nra.
  assert (Hv : (0 <= v * v)%Q) by nra.
  assert (H1 : (0 <= n * (u * u))%Q) by (apply Qmult_le_0_compat; lra).
  assert (H2 : (k * (v * v) <= 0)%Q) by lra.
  assert (H3 : (v * v <= 0)%Q).
  { destruct (Qlt_le_dec 0 (v * v)) as [Hp|Hp]; [|exact Hp].
    pose proof (Qmult_lt_0_compat k (v * v) Hk Hp). lra. }
  apply Q_square_zero in H3. unfold v in H3. lra.
Qed.

Lemma least_squares_slope_exact (xs ys : list Q) :
  (least_squares_slope xs ys ==
   (inject_Z (Z.of_nat (length xs)) * Qsum (zip_with Qmult xs ys) - Qsum xs * Qsum ys)
   / (inject_Z (Z.of_nat (length xs)) * Qsum (zip_with Qmult xs xs)
      - Qsum xs * Qsum xs))%Q.
Proof.
  unfold least_squares_slope.
  change (zip_with mul) with (zip_with Qmult).
  change (div ?p ?q) with (Qdiv p q). change (sub ?p ?q) with (Qminus p q).
  change (mul ?p ?q) with (Qmult p q). change (of_Z ?z) with (inject_Z z).
  rewrite !total_exact. reflexivity.
Qed.

Lemma least_squares_intercept_exact (xs ys : list Q) :
  (least_squares_intercept xs ys ==
   (Qsum ys - least_squares_slope xs ys * Qsum xs) / inject_Z (Z.of_nat (length xs)))%Q.
Proof.
  unfold least_squares_intercept.
  change (div ?p ?q) with (Qdiv p q). change (sub ?p ?q) with (Qminus p q).
  change (mul ?p ?q) with (Qmult p q). change (of_Z ?z) with (inject_Z z).
  rewrite !total_exact. reflexivity.
Qed.

Lemma least_squares_is_least (xs ys : list Q) :
  length xs = length ys ->
  (0 < inject_Z (Z.of_nat (length xs)))%Q ->
  (0 < inject_Z (Z.of_nat (length xs)) * Qsum (zip_with Qmult xs xs) - Qsum xs * Qsum xs)%Q ->
  forall a b : Q,
    (squared_error xs ys (least_squares_slope xs ys) (least_squares_intercept xs ys)
     <= squared_error xs ys a b)%Q.
Proof.
  intros Hlen Hn Hd a b.
  rewrite !(squared_error_expand xs ys _ _ Hlen).
  rewrite least_squares_intercept_exact, least_squares_slope_exact.
  apply quadratic_minimum; assumption.
Qed.

Lemma least_squares_is_unique (xs ys : list Q) :
  length xs = length ys ->
  (0 < inject_Z (Z.of_nat (length xs)))%Q ->
  (0 < inject_Z (Z.of_nat (length xs)) * Qsum (zip_with Qmult xs xs) - Qsum xs * Qsum xs)%Q ->
  forall a b : Q,
    (squared_error xs ys a b
     <= squared_error xs ys (least_squares_slope xs ys) (least_squares_intercept xs ys))%Q ->
    (a == least_squares_slope xs ys)%Q.
Proof.
  intros Hlen Hn Hd a b.
  rewrite !(squared_error_expand xs ys _ _ Hlen).
  rewrite least_squares_intercept_exact, least_squares_slope_exact.
  apply quadratic_minimum_unique; assumption.
Qed.

Lemma arange_S (n : nat) :
  arange (T:=Q) (S n) = (arange n ++ [inject_Z (Z.of_nat n)])%list.
Proof. unfold arange. rewrite seq_S, List.map_app. reflexivity. Qed.

Lemma arange_length {T} `{PyNum T} (n : nat) : length (arange (T:=T) n) = n.
Proof. unfold arange. rewrite List.length_map, List.length_seq. reflexivity. Qed.

Lemma arange_sum (n : nat) :
  (2 * Qsum (arange n) == inject_Z (Z.of_nat n) * (inject_Z (Z.of_nat n) - 1))%Q.
Proof.
  induction n as [|n IH]; [reflexivity|].
  rewrite arange_S, Qsum_app, Q_of_nat_S.
  setoid_replace (2 * (Qsum (arange n) + Qsum [inject_Z (Z.of_nat n)]))%Q
    with (2 * Qsum (arange n) + 2 * inject_Z (Z.of_nat n))%Q
    using relation Qeq by (unfold Qsum at 2; cbn; ring).
  rewrite IH. ring.
Qed.

Lemma arange_sum_squares (n : nat) :
  (6 * Qsum (zip_with Qmult (arange n) (arange n)) ==
   (inject_Z (Z.of_nat n) - 1) * inject_Z (Z.of_nat n)
   * (2 * inject_Z (Z.of_nat n) - 1))%Q.
Proof.
  induction n as [|n IH]; [reflexivity|].
  rewrite arange_S, zip_with_app by reflexivity. rewrite Qsum_app, Q_of_nat_S.
  setoid_replace
    (6 * (Qsum (zip_with Qmult (arange n) (arange n))
          + Qsum (zip_with Qmult [inject_Z (Z.of_nat n)] [inject_Z (Z.of_nat n)])))%Q
    with (6 * Qsum (zip_with Qmult (arange n) (arange n))
          + 6 * (inject_Z (Z.of_nat n) * inject_Z (Z.of_nat n)))%Q
    using relation Qeq by (unfold Qsum at 2; cbn; ring).
  rewrite IH. ring.
Qed.

(** The x-values 0 .. n-1 are not all equal once there are two of them. *)
Lemma arange_spread (n : nat) :
  (2 <= n)%nat ->
  (0 < inject_Z (Z.of_nat n) * Qsum (zip_with Qmult (arange n) (arange n))
       - Qsum (arange n) * Qsum (arange n))%Q.
Proof.
  intros Hn.
  assert (HN : (2 <= inject_Z (Z.of_nat n))%Q).
  { change 2%Q with (inject_Z 2). rewrite <- Zle_Qle. lia. }
  pose proof (arange_sum n) as H1. pose proof (arange_sum_squares n) as H2.
  revert HN H1 H2.
  generalize (inject_Z (Z.of_nat n)) as N.
  generalize (Qsum (arange n)) as s1.
  generalize (Qsum (zip_with Qmult (arange n) (arange n))) as s2.
  intros s2 s1 N HN H1 H2.
  assert (H : (12 * (N * s2 - s1 * s1) == N * N * (N - 1) * (N + 1))%Q).
  { setoid_replace (12 * (N * s2 - s1 * s1))%Q
      with (2 * N * (6 * s2) - 3 * ((2 * s1) * (2 * s1)))%Q using relation Qeq by ring.
    rewrite H1, H2. ring. }
  assert (Hpos : (0 < N * N * (N - 1) * (N + 1))%Q).
  { repeat apply Qmult_lt_0_compat; lra. }
  lra.
Qed.

(** ** Trend analyzer: the label *)

Lemma mapM_from_option_ok {A B} (f : A -> option B) (e : exn) (l : list A) (k : list B) :
  Forall2 (fun a b => f a = Some b) l k ->
  mapM (fun a => from_option e (f a)) l = Ok k.
Proof.
  induction 1 as [|a b l k Hab _ IH]; [reflexivity|].
  cbn. rewrite Hab. cbn. rewrite IH. reflexivity.
Qed.

Lemma zip_with_map_rows {A B C D} (f : B -> C -> D) (g : A -> B) (h : A -> C) (l : list A) :
  zip_with f (List.map g l) (List.map h l) = List.map (fun a => f (g a) (h a)) l.
Proof. induction l as [|a l IH]; [reflexivity|]. cbn. rewrite IH. reflexivity. Qed.

Lemma not_empty_frame {Row} (name : string) (df : DataFrame Row) :
  has_column name df = true -> (0 < len df)%nat -> empty df = false.
Proof.
  intros Hcol Hlen. destruct (empty df) eqn:E; [|reflexivity].
  apply (empty_iff_no_rows _ _ Hcol) in E. unfold len in Hlen. rewrite E in Hlen.
  cbn in Hlen. lia.
Qed.

Lemma performance_trend_insufficient {T} `{PyNum T}
  (polyfit : list T -> list T -> result T)
  (to_datetime : string -> option Timestamp) (df : DataFrame (CarryMark.t T)) :
  (len df < 2)%nat ->
  get_performance_trend polyfit to_datetime df = Ok "Insufficient data".
Proof.
  intros Hlen. unfold get_performance_trend.
  apply Nat.ltb_lt in Hlen. rewrite Hlen, orb_true_r. reflexivity.
Qed.

Lemma performance_trend_percentages
  (df : DataFrame (CarryMark.t Q)) :
  usable_percentages df ->
  (if negb (has_column "percentage" df)
   then
     earned ← col "earned" CarryMark.earned df;
     max_possible ← col "max_possible" CarryMark.max_possible df;
     Ok (zip_with (fun e m => fillna0 (mul (div e m) (of_Z 100))) earned max_possible)
   else col "percentage" CarryMark.percentage df)
  = Ok (percentage_column df).
Proof.
  intros Hus. unfold percentage_column.
  destruct (has_column "percentage" df) eqn:Hp; cbn [negb].
  - apply col_present. exact Hp.
  - destruct Hus as [Hus|(He & Hm & _)]; [congruence|].
    rewrite (col_present _ _ _ He), (col_present _ _ _ Hm). cbn [mbind result_bind].
    rewrite zip_with_map_rows. reflexivity.
Qed.

Lemma performance_trend_no_date (polyfit : list Q -> list Q -> result Q)
  (to_datetime : string -> option Timestamp) (df : DataFrame (CarryMark.t Q)) :
  (2 <= len df)%nat -> usable_percentages df -> has_column "date_added" df = false ->
  get_performance_trend polyfit to_datetime df = Ok "No date information".
Proof.
  intros Hlen Hus Hdate. unfold get_performance_trend.
  assert (He : empty df = false).
  { destruct Hus as [Hp|(He & _)]; eapply not_empty_frame; eauto; lia. }
  rewrite He. cbn [orb].
  destruct (len df <? 2)%nat eqn:Hlt; [apply Nat.ltb_lt in Hlt; lia|].
  rewrite (performance_trend_percentages df Hus). cbn [mbind result_bind].
  rewrite Hdate. reflexivity.
Qed.

Lemma mapM_from_option_raises {A B} (f : A -> option B) (e : exn) (l : list A) :
  Exists (fun a => f a = None) l -> mapM (fun a => from_option e (f a)) l = Raise e.
Proof.
  induction 1 as [a l Ha|a l _ IH]; cbn.
  - rewrite Ha. reflexivity.
  - destruct (f a); cbn; [rewrite IH|]; reflexivity.
Qed.

Lemma performance_trend_unreadable (polyfit : list Q -> list Q -> result Q)
  (to_datetime : string -> option Timestamp) (df : DataFrame (CarryMark.t Q)) :
  (2 <= len df)%nat -> usable_percentages df -> has_column "date_added" df = true ->
  Exists (fun r => to_datetime (CarryMark.date_added r) = None) (rows df) ->
  get_performance_trend polyfit to_datetime df = Raise ValueError.
Proof.
  intros Hlen Hus Hdate Hbad. unfold get_performance_trend.
  rewrite (not_empty_frame _ _ Hdate) by lia. cbn [orb].
  destruct (len df <? 2)%nat eqn:Hlt; [apply Nat.ltb_lt in Hlt; lia|].
  rewrite (performance_trend_percentages df Hus). cbn [mbind result_bind].
  rewrite Hdate. cbn [negb].
  rewrite (col_present _ _ _ Hdate). cbn [mbind result_bind].
  rewrite (mapM_from_option_raises to_datetime ValueError).
  - reflexivity.
  - apply Exists_exists. apply Exists_exists in Hbad. destruct Hbad as (r & Hin & Hr).
    exists (CarryMark.date_added r). split; [|exact Hr].
    apply list_elem_of_In, in_map, list_elem_of_In. exact Hin.
Qed.

(** With every date read, the rows ordered by date are what the fit is
    given, against 0 .. n-1, and its slope decides the label. *)
Lemma performance_trend_regression (polyfit : list Q -> list Q -> result Q)
  (to_datetime : string -> option Timestamp) (df : DataFrame (CarryMark.t Q))
  (dates : list Timestamp) :
  (2 <= len df)%nat -> usable_percentages df -> has_column "date_added" df = true ->
  dates_read to_datetime df dates ->
  let observations := sort_by by_date_b (zip dates (percentage_column df)) in
  let y := List.map snd observations in
  let x := arange (length observations) in
  length x = len df /\
  get_performance_trend polyfit to_datetime df = trend_label <$> polyfit x y.
Proof.
  intros Hlen Hus Hdate Hread observations y x.
  assert (Hx : length x = len df).
  { unfold x. rewrite arange_length.
    unfold observations. rewrite (Permutation_length (sort_by_perm _ _)).
    rewrite length_zip. apply Forall2_length in Hread.
    unfold percentage_column. destruct (has_column "percentage" df);
      rewrite List.length_map; unfold len; lia. }
  split; [exact Hx|].
  unfold get_performance_trend.
  rewrite (not_empty_frame _ _ Hdate) by lia. cbn [orb].
  destruct (len df <? 2)%nat eqn:Hlt; [apply Nat.ltb_lt in Hlt; lia|].
  rewrite (performance_trend_percentages df Hus). cbn [mbind result_bind].
  rewrite Hdate. cbn [negb].
  rewrite (col_present _ _ _ Hdate). cbn [mbind result_bind].
  rewrite (mapM_from_option_ok to_datetime ValueError _ dates)
    by (apply Forall2_fmap_l; exact Hread).
  cbn [mbind result_bind].
  change (sort_by _ (zip dates (percentage_column df))) with observations.
  change (List.map snd observations) with y.
  change (arange (length observations)) with x.
  destruct (length x <? 2)%nat eqn:Hlx; [apply Nat.ltb_lt in Hlx; lia|].
  destruct (polyfit x y) as [slope|e]; [|reflexivity].
  cbn [mbind result_bind fmap result_fmap]. unfold trend_label.
  destruct (ltb (of_Z 2) slope); [reflexivity|].
  destruct (ltb slope (of_Z (-2))); reflexivity.
Qed.

Lemma trend_label_near (eps slope exact : Q) :
  (exact - eps <= slope <= exact + eps)%Q ->
  ((2 + eps < exact)%Q -> trend_label slope = "Improving") /\
  ((exact < -2 - eps)%Q -> trend_label slope = "Declining") /\
  ((-2 + eps <= exact <= 2 - eps)%Q -> trend_label slope = "Stable").
Proof.
  intros Hnear. unfold trend_label.
  destruct (ltb (of_Z 2) slope) eqn:Hup; q_props;
    [|destruct (ltb slope (of_Z (-2))) eqn:Hdown; q_props];
    change (of_Z 2) with 2%Q in *; change (of_Z (-2)) with (-2)%Q in *;
    repeat split; intros; try reflexivity; lra.
Qed.

Lemma trend_label_by_slope (slope : Q) :
  ((2 < slope)%Q -> trend_label slope = "Improving") /\
  ((slope < -2)%Q -> trend_label slope = "Declining") /\
  ((-2 <= slope <= 2)%Q -> trend_label slope = "Stable").
Proof.
  destruct (trend_label_near 0 slope slope) as (Hi & Hd & Hs); [lra|].
  repeat split; intros; [apply Hi|apply Hd|apply Hs]; lra.
Qed.

Lemma performance_trend_slope_unique (y : list Q) :
  (2 <= length y)%nat ->
  let x := arange (length y) in
  forall a b : Q,
    (squared_error x y a b
     <= squared_error x y (least_squares_slope x y) (least_squares_intercept x y))%Q ->
    (a == least_squares_slope x y)%Q.
Proof.
  intros Hlen x. assert (Hx : length x = length y) by apply arange_length.
  apply least_squares_is_unique.
  - exact Hx.
  - rewrite Hx. apply Q_of_nat_pos. lia.
  - rewrite Hx. apply arange_spread. exact Hlen.
Qed.

Lemma performance_trend_least_squares (y : list Q) :
  (2 <= length y)%nat ->
  let x := arange (length y) in
  forall a b : Q,
    (squared_error x y (least_squares_slope x y) (least_squares_intercept x y)
     <= squared_error x y a b)%Q.
Proof.
  intros Hlen x. assert (Hx : length x = length y) by apply arange_length.
  apply least_squares_is_least.
  - exact Hx.
  - rewrite Hx. apply Q_of_nat_pos. lia.
  - rewrite Hx. apply arange_spread. exact Hlen.
Qed.

Lemma trend_of_rising_marks (polyfit : list float -> list float -> result float) :
  get_performance_trend polyfit read_iso_date rising_marks
  = trend_label <$> polyfit [of_Z 0; of_Z 1; of_Z 2; of_Z 3]
      [of_Z 60; of_Z 65; of_Z 70; of_Z 75].
Proof.
  vm_compute. destruct (polyfit _ _) as [slope|e]; [|reflexivity].
  destruct (PrimFloat.ltb _ slope); [reflexivity|].
  destruct (PrimFloat.ltb slope _); reflexivity.
Qed.

(** C2, as stated, fails on a frame with a date that cannot be read: the
    call raises [ValueError] and returns no label. *)
Lemma C2_unreadable_date_raises :
  get_performance_trend exact_polyfit read_iso_date
    (dated_frame [dated_mark 60 "2025-01-15"; dated_mark 70 "next week"])
  = Raise ValueError.
Proof. vm_compute. reflexivity. Qed.

(** C2 (amended): [get_performance_trend] answers "Insufficient data" below
    two rows and "No date information" when, with two rows or more, the
    frame has no [date_added] column; a date that cannot be read makes it
    raise [ValueError].  Otherwise, the percentages being present or
    derivable and the dates read, it orders the rows by date (the one order
    there is when the dates are distinct), hands 0 .. n-1 as x-values and
    the percentages as y-values to [np.polyfit], and classifies the slope
    that comes back: "Improving" above 2, "Declining" below -2, "Stable"
    otherwise.  The least-squares line has one slope; when the fit is
    within [eps] of it, the label is "Improving" for a least-squares slope
    above 2 + eps, "Declining" below -2 - eps and "Stable" from -2 + eps to
    2 - eps, and nothing is said in between.  Percentages 60, 65, 70, 75
    over four dates are handed over in the order of their dates and give
    "Improving" with any fit within 3 of the least-squares slope, which is
    5.  A percentage derived from 0 of 0 is 0, by [fillna(0)]. *)
Theorem C2_performance_trend :
  (forall (T : Type) (N : PyNum T) (polyfit : list T -> list T -> result T)
          (to_datetime : string -> option Timestamp) (df : DataFrame (CarryMark.t T)),
     (len df < 2)%nat ->
     get_performance_trend polyfit to_datetime df = Ok "Insufficient data") /\
  (forall (polyfit : list Q -> list Q -> result Q)
          (to_datetime : string -> option Timestamp) (df : DataFrame (CarryMark.t Q)),
     (2 <= len df)%nat -> usable_percentages df ->
     has_column "date_added" df = false ->
     get_performance_trend polyfit to_datetime df = Ok "No date information") /\
  (forall (polyfit : list Q -> list Q -> result Q)
          (to_datetime : string -> option Timestamp) (df : DataFrame (CarryMark.t Q)),
     (2 <= len df)%nat -> usable_percentages df ->
     has_column "date_added" df = true ->
     Exists (fun r => to_datetime (CarryMark.date_added r) = None) (rows df) ->
     get_performance_trend polyfit to_datetime df = Raise ValueError) /\
  (forall (polyfit : list Q -> list Q -> result Q)
          (to_datetime : string -> option Timestamp) (df : DataFrame (CarryMark.t Q))
          (dates : list Timestamp),
     (2 <= len df)%nat -> usable_percentages df ->
     has_column "date_added" df = true ->
     dates_read to_datetime df dates ->
     let observations := sort_by by_date_b (zip dates (percentage_column df)) in
     let y := List.map snd observations in
     let x := arange (length observations) in
     (* sorted by date *)
     Sorted by_date observations /\
     Permutation observations (zip dates (percentage_column df)) /\
     (NoDup dates ->
      forall other, Sorted by_date other ->
                    Permutation other (zip dates (percentage_column df)) ->
                    other = observations) /\
     (* x-values 0 .. n-1 *)
     x = List.map (fun i => inject_Z (Z.of_nat i)) (seq 0 (len df)) /\
     (* the label of the slope that comes back *)
     (forall e, polyfit x y = Raise e ->
                get_performance_trend polyfit to_datetime df = Raise e) /\
     (forall slope, polyfit x y = Ok slope ->
        exists label : string,
          get_performance_trend polyfit to_datetime df = Ok label /\
          ((2 < slope)%Q -> label = "Improving") /\
          ((slope < -2)%Q -> label = "Declining") /\
          ((-2 <= slope <= 2)%Q -> label = "Stable")) /\
     (* the least-squares line *)
     (forall a b : Q,
        (squared_error x y (least_squares_slope x y) (least_squares_intercept x y)
         <= squared_error x y a b)%Q) /\
     (forall a b : Q,
        (squared_error x y a b
         <= squared_error x y (least_squares_slope x y) (least_squares_intercept x y))%Q ->
        (a == least_squares_slope x y)%Q) /\
     (* a fit close to it *)
     (forall eps : Q, within eps polyfit ->
        exists label : string,
          get_performance_trend polyfit to_datetime df = Ok label /\
          ((2 + eps < least_squares_slope x y)%Q -> label = "Improving") /\
          ((least_squares_slope x y < -2 - eps)%Q -> label = "Declining") /\
          ((-2 + eps <= least_squares_slope x y <= 2 - eps)%Q -> label = "Stable"))) /\
  (forall (polyfit : list Q -> list Q -> result Q) (eps : Q),
     (eps < 3)%Q -> within eps polyfit ->
     get_performance_trend polyfit read_iso_date rising_marks = Ok "Improving") /\
  (forall polyfit : list float -> list float -> result float,
     get_performance_trend polyfit read_iso_date rising_marks
     = trend_label <$> polyfit [of_Z 0; of_Z 1; of_Z 2; of_Z 3]
         [of_Z 60; of_Z 65; of_Z 70; of_Z 75]) /\
  (forall polyfit : list float -> list float -> result float,
     get_performance_trend polyfit read_iso_date
       (scored_frame [scored_mark 0 0 "2025-01-01"; scored_mark 5 10 "2025-01-08"])
     = trend_label <$> polyfit [of_Z 0; of_Z 1] [of_Z 0; of_Z 50]).
Proof.
  split; [intros T N polyfit to_datetime df; apply performance_trend_insufficient|].
  split; [exact performance_trend_no_date|].
  split; [exact performance_trend_unreadable|].
  split.
  2:{ split; [|split; [exact trend_of_rising_marks|]].
      - intros polyfit eps Heps Hnear.
        destruct (performance_trend_regression polyfit read_iso_date rising_marks
                    [1738108800000000; 1736899200000000; 1738713600000000;
                     1737504000000000]%Z) as [_ Hrun].
        { cbn. lia. }
        { left. reflexivity. }
        { reflexivity. }
        { repeat constructor. }
        cbv zeta in Hrun. rewrite Hrun.
        match type of Hrun with
        | _ = _ <$> polyfit ?x ?y =>
          destruct (Hnear x y) as (slope & Hfit & Hslope);
          assert (E5 : (least_squares_slope x y == 5)%Q) by (vm_compute; reflexivity)
        end.
        rewrite Hfit. cbn [fmap result_fmap]. f_equal.
        apply (trend_label_near eps slope _ Hslope).
        rewrite E5. lra.
      - intros polyfit. apply trend_of_scored_marks. }
  intros polyfit to_datetime df dates Hlen Hus Hdate Hread observations y x.
  destruct (performance_trend_regression polyfit to_datetime df dates Hlen Hus Hdate Hread)
    as [Hx Hrun].
  fold observations in Hx, Hrun. fold y in Hrun. fold x in Hx, Hrun.
  assert (Hobs : length observations = len df).
  { unfold x in Hx. rewrite arange_length in Hx. exact Hx. }
  split; [apply sort_by_date_sorted|].
  split; [apply sort_by_perm|].
  split.
  { intros Hnodup other Hsorted Hperm. symmetry.
    apply sorted_by_date_unique.
    - apply sort_by_date_sorted.
    - exact Hsorted.
    - rewrite Hperm. apply sort_by_perm.
    - apply (NoDup_Permutation_proper (zip dates (percentage_column df)).*1).
      + apply Permutation_map. symmetry. apply sort_by_perm.
      + rewrite fst_zip; [exact Hnodup|].
        apply Forall2_length in Hread. unfold percentage_column.
        destruct (has_column "percentage" df); rewrite List.length_map; lia. }
  split; [unfold x; rewrite Hobs; reflexivity|].
  split; [intros e He; rewrite Hrun, He; reflexivity|].
  split.
  { intros slope Hslope. exists (trend_label slope).
    split; [rewrite Hrun, Hslope; reflexivity|]. apply trend_label_by_slope. }
  assert (Hy : length observations = length y)
    by (unfold y; symmetry; apply List.length_map).
  split.
  { intros a b. unfold x. rewrite Hy. apply performance_trend_least_squares. lia. }
  split.
  { intros a b. unfold x. rewrite Hy. apply performance_trend_slope_unique. lia. }
  intros eps Hnear. destruct (Hnear x y) as (slope & Hfit & Hslope).
  exists (trend_label slope). split; [rewrite Hrun, Hfit; reflexivity|].
  apply trend_label_near. exact Hslope.
Qed.

Lemma C2_performance_trend_witness :
  exists label : string,
    get_performance_trend exact_polyfit read_iso_date sample_marks = Ok label /\
    label = "Declining".
Proof.
  destruct (proj1 (proj2 (proj2 (proj2 C2_performance_trend)))
              exact_polyfit read_iso_date sample_marks
              [1736899200000000; 1737504000000000; 1737331200000000]%Z)
    as (_ & _ & _ & _ & _ & _ & _ & _ & Hnear).
  - cbn. lia.
  - left. reflexivity.
  - reflexivity.
  - repeat constructor.
  - destruct (Hnear 0%Q) as (label & Hlabel & _ & Hdeclining & _).
    + intros x y. exists (least_squares_slope x y). split; [reflexivity|lra].
    + exists label. split; [exact Hlabel|]. apply Hdeclining.
      vm_compute. reflexivity.
Defined.

(** * Properties of the remaining functions *)

(** ** Current grade *)

Lemma empty_selection {Row A} (name : string) (f : Row -> A) (g : A -> bool)
  (df : DataFrame Row) :
  has_column name df = true ->
  empty (df_mask df (List.map g (List.map f (rows df))))
  = match List.filter (fun r => g (f r)) (rows df) with [] => true | _ => false end.
Proof.
  intros Hc. destruct (List.filter (fun r => g (f r)) (rows df)) as [|r l] eqn:E.
  - apply empty_no_rows. cbn. rewrite select_map. exact E.
  - apply (not_empty_frame name); [exact Hc|].
    unfold len, df_mask. cbn [rows]. rewrite select_map, E. cbn. lia.
Qed.

Lemma filter_nil_iff {A} (p : A -> bool) (l : list A) :
  List.filter p l = [] <-> forall a, a ∈ l -> p a = false.
Proof.
  induction l as [|x l IH]; cbn.
  - split; [|reflexivity]. intros _ a Ha. inversion Ha.
  - destruct (p x) eqn:E.
    + split; [discriminate|]. intros Hall. specialize (Hall x (list_elem_of_here _ _)).
      congruence.
    + rewrite IH. split.
      * intros Hall a Ha. inversion Ha; subst; [exact E | apply Hall; assumption].
      * intros Hall a Ha. apply Hall. apply list_elem_of_further. exact Ha.
Qed.

(** X1: with a [final_contribution] column, [calculate_current_grade] returns
    the sum of the contributions of the course's marks when the course is
    listed, and 0 when no listed course has that code, whatever marks the
    frame holds for it. *)
Theorem X1_current_grade_contributions (course_code : string)
  (marks : DataFrame (CarryMark.t Q)) (listed : DataFrame (Course.t Q)) :
  has_column "code" listed = true ->
  has_column "course_code" marks = true ->
  has_column "final_contribution" marks = true ->
  exists r : Q,
    calculate_current_grade course_code marks listed = Ok r /\
    ((exists c, c ∈ rows listed /\ Course.code c = course_code) ->
       (r == Qsum (List.map CarryMark.final_contribution (marks_of course_code marks)))%Q) /\
    ((forall c, c ∈ rows listed -> Course.code c <> course_code) -> r = 0%Q).
Proof.
  intros Hcode Hcc Hfc. unfold calculate_current_grade.
  rewrite (col_present _ _ _ Hcode). cbn [mbind result_bind].
  rewrite (empty_selection "code" Course.code (fun c => String.eqb c course_code) listed Hcode).
  destruct (List.filter _ (rows listed)) as [|c0 cs] eqn:Ecs.
  - exists 0%Q. split; [reflexivity|]. split; [|reflexivity].
    intros (c & Hin & Hc). exfalso.
    pose proof (proj1 (filter_nil_iff _ _) Ecs c Hin) as Hf. cbn in Hf.
    rewrite Hc, String.eqb_refl in Hf. discriminate.
  - assert (Hex : ~ forall c, c ∈ rows listed -> Course.code c <> course_code).
    { intros Hall. assert (Hin : In c0 (List.filter (fun r => String.eqb (Course.code r) course_code) (rows listed)))
        by (rewrite Ecs; left; reflexivity).
      apply filter_In in Hin. destruct Hin as [Hin Heq]. apply String.eqb_eq in Heq.
      apply (Hall c0); [apply list_elem_of_In; exact Hin | exact Heq]. }
    rewrite (col_present _ _ _ Hcc). cbn [mbind result_bind].
    rewrite (empty_selection "course_code" CarryMark.course_code
               (fun c => String.eqb c course_code) marks Hcc).
    change (List.filter (fun r => String.eqb (CarryMark.course_code r) course_code) (rows marks))
      with (marks_of course_code marks).
    destruct (marks_of course_code marks) as [|m ms] eqn:Em.
    + exists 0%Q. split; [reflexivity|]. split; [reflexivity | intros Hall; contradiction].
    + change (has_column "final_contribution" (df_mask marks _))
        with (has_column "final_contribution" marks).
      rewrite Hfc. unfold col.
      change (has_column "final_contribution" (df_mask marks _))
        with (has_column "final_contribution" marks).
      rewrite Hfc. cbn [mbind result_bind rows df_mask].
      rewrite select_map.
      change (List.filter (fun r => String.eqb (CarryMark.course_code r) course_code) (rows marks))
        with (marks_of course_code marks).
      rewrite Em. eexists. split; [reflexivity|]. split; [|intros Hall; contradiction].
      intros _. apply series_sum_exact.
Qed.

(** X2: without a [final_contribution] column, the current grade of a listed
    course is its carry percentage (as [calculate_carry_percentage] returns
    it) over 100 times the carry weight of the first course listed with that
    code, provided the frame has a [percentage] column or the sum of
    [max_possible] is not negative.  For a negative sum the two functions
    part: [calculate_current_grade] tests [total_max > 0] and returns 0,
    where [calculate_carry_percentage] tests [total_max == 0] and divides. *)
Theorem X2_current_grade_from_carry_percentage (course_code : string)
  (marks : DataFrame (CarryMark.t Q)) (listed : DataFrame (Course.t Q))
  (c : Course.t Q) (cs : list (Course.t Q)) :
  has_column "code" listed = true ->
  has_column "carry_weight" listed = true ->
  has_column "course_code" marks = true ->
  has_column "final_contribution" marks = false ->
  (has_column "percentage" marks = false ->
   has_column "earned" marks = true /\ has_column "max_possible" marks = true) ->
  List.filter (fun r => String.eqb (Course.code r) course_code) (rows listed) = c :: cs ->
  let total_max := Qsum (List.map CarryMark.max_possible (marks_of course_code marks)) in
  exists p r : Q,
    calculate_carry_percentage course_code marks = Ok p /\
    calculate_current_grade course_code marks listed = Ok r /\
    (has_column "percentage" marks = true \/ (0 <= total_max)%Q ->
       (r == p / 100 * Course.carry_weight c)%Q) /\
    (has_column "percentage" marks = false -> (total_max < 0)%Q -> (r == 0)%Q).
Proof.
  intros Hcode Hcw Hcc Hfc Hcols Ecs total_max.
  destruct (carry_percentage_exact course_code marks Hcc Hcols)
    as (p & Hp & Hp0 & Hpmean & Hpratio).
  exists p. rewrite Hp. unfold calculate_current_grade.
  rewrite (col_present _ _ _ Hcode). cbn [mbind result_bind].
  rewrite (empty_selection "code" Course.code (fun c => String.eqb c course_code) listed Hcode).
  rewrite Ecs.
  rewrite (col_present _ _ _ Hcc). cbn [mbind result_bind].
  rewrite (empty_selection "course_code" CarryMark.course_code
             (fun c => String.eqb c course_code) marks Hcc).
  change (List.filter (fun r => String.eqb (CarryMark.course_code r) course_code) (rows marks))
    with (marks_of course_code marks).
  subst total_max.
  destruct (marks_of course_code marks) as [|m ms] eqn:Em.
  - exists 0%Q. split; [reflexivity|]. split; [reflexivity|].
    rewrite (Hp0 eq_refl). split; intros; [field | reflexivity].
  - assert (Hne : m :: ms <> []) by discriminate.
    change (has_column "final_contribution" (df_mask marks ?x))
      with (has_column "final_contribution" marks).
    rewrite Hfc. cbn [rows df_mask]. rewrite select_map, Ecs. cbn [head from_option mbind result_bind].
    change (has_column "carry_weight" (df_mask listed ?x))
      with (has_column "carry_weight" listed).
    rewrite Hcw. cbn [mbind result_bind].
    change (has_column "percentage" (df_mask marks ?x)) with (has_column "percentage" marks).
    destruct (has_column "percentage" marks) eqn:Hpc.
    + unfold col.
      change (has_column "percentage" (df_mask marks ?x)) with (has_column "percentage" marks).
      rewrite Hpc. cbn [mbind result_bind rows df_mask]. rewrite select_map.
      change (List.filter (fun r => String.eqb (CarryMark.course_code r) course_code) (rows marks))
        with (marks_of course_code marks).
      rewrite Em. unfold truediv. cbn [eqb Q_PyNum of_Z].
      change (Qeq_bool (inject_Z 100) (inject_Z 0)) with false. cbn [mbind result_bind].
      eexists. split; [reflexivity|]. split; [reflexivity|].
      split; [|discriminate]. intros _.
      specialize (Hpmean Hne eq_refl). cbn [mul div Q_PyNum].
      rewrite series_mean_exact, Hpmean. reflexivity.
    + destruct (Hcols eq_refl) as [He Hm]. unfold col.
      change (has_column "earned" (df_mask marks ?x)) with (has_column "earned" marks).
      change (has_column "max_possible" (df_mask marks ?x)) with (has_column "max_possible" marks).
      rewrite He, Hm. cbn [mbind result_bind rows df_mask]. rewrite select_map.
      change (List.filter (fun r => String.eqb (CarryMark.course_code r) course_code) (rows marks))
        with (marks_of course_code marks).
      rewrite Em.
      destruct (Hpratio Hne eq_refl) as [Hz Hnz]. cbn zeta in Hz, Hnz.
      set (te := Qsum (List.map CarryMark.earned (m :: ms))) in *.
      set (tm := Qsum (List.map CarryMark.max_possible (m :: ms))) in *.
      pose proof (series_sum_exact (List.map CarryMark.max_possible (m :: ms))) as Stm.
      pose proof (series_sum_exact (List.map CarryMark.earned (m :: ms))) as Ste.
      fold tm in Stm. fold te in Ste.
      destruct (ltb (of_Z 0) (series_sum (List.map CarryMark.max_possible (m :: ms)))) eqn:Hpos.
      * apply Q_ltb_iff in Hpos. cbn [of_Z Q_PyNum] in Hpos. rewrite Stm in Hpos.
        unfold truediv. cbn [eqb Q_PyNum of_Z].
        destruct (Qeq_bool (series_sum (List.map CarryMark.max_possible (m :: ms))) (inject_Z 0)) eqn:Ez.
        { apply Qeq_bool_iff in Ez. rewrite Stm in Ez.
          rewrite Ez in Hpos. exfalso. revert Hpos. apply Qlt_irrefl. }
        cbn [mbind result_bind].
        change (Qeq_bool (inject_Z 100) (inject_Z 0)) with false. cbn [mbind result_bind].
        eexists. split; [reflexivity|]. split; [reflexivity|].
        split.
        -- intros _. cbn [mul div Q_PyNum]. rewrite Ste, Stm.
           rewrite Hnz by (intros E; rewrite E in Hpos; revert Hpos; apply Qlt_irrefl).
           reflexivity.
        -- intros _ Hneg. exfalso. apply (Qlt_irrefl 0). apply Qlt_trans with tm; assumption.
      * apply Q_ltb_false in Hpos. cbn [of_Z Q_PyNum] in Hpos. rewrite Stm in Hpos.
        cbn [mbind result_bind]. unfold truediv. cbn [eqb Q_PyNum of_Z].
        change (Qeq_bool (inject_Z 100) (inject_Z 0)) with false. cbn [mbind result_bind].
        eexists. split; [reflexivity|]. split; [reflexivity|].
        split.
        -- intros [Hd|Hge]; [discriminate|].
           assert (Ez : (tm == 0)%Q) by (apply Qle_antisym; [exact Hpos | exact Hge]).
           rewrite (Hz Ez). cbn [mul div Q_PyNum of_Z]. reflexivity.
        -- intros _ _. cbn [mul div Q_PyNum of_Z]. reflexivity.
Qed.

(** ** Final-exam requirement: the least mark that reaches the target *)

Lemma overall_grade_gap (tg cp cw ew e : Q) :
  ~ (ew == 0)%Q ->
  (overall_grade cp cw ew e - tg
   == (e - required_exam_percentage tg cp cw ew) * (ew / 100))%Q.
Proof. intros Hew. unfold overall_grade, required_exam_percentage. field. exact Hew. Qed.

Lemma overall_grade_reaches (tg cp cw ew e : Q) :
  (0 < ew)%Q ->
  (tg <= overall_grade cp cw ew e)%Q <-> (required_exam_percentage tg cp cw ew <= e)%Q.
Proof.
  intros Hew.
  assert (Hne : ~ (ew == 0)%Q) by (intros E; rewrite E in Hew; revert Hew; apply Qlt_irrefl).
  pose proof (overall_grade_gap tg cp cw ew e Hne) as G.
  generalize dependent (overall_grade cp cw ew e). intros g G.
  generalize dependent (required_exam_percentage tg cp cw ew). intros v G.
  assert (Hs : (0 < ew / 100)%Q) by (apply Qlt_shift_div_l; lra).
  generalize dependent (ew / 100)%Q. intros s G Hs.
  split; intros L; nra.
Qed.

(** X3: for a positive exam weight, [calculate_final_exam_requirement] returns
    the least exam percentage in [0, 100] with which the overall grade
    reaches the target, whenever some percentage in [0, 100] reaches it, and
    100 when none does. *)
Theorem X3_final_exam_requirement_is_minimal (tg cp cw ew : Q) :
  (0 < ew)%Q ->
  exists r : Q,
    calculate_final_exam_requirement tg cp cw ew = Ok r /\
    (0 <= r <= 100)%Q /\
    (forall e : Q, (0 <= e <= 100)%Q -> (tg <= overall_grade cp cw ew e)%Q ->
       (tg <= overall_grade cp cw ew r)%Q /\ (r <= e)%Q) /\
    ((forall e : Q, (0 <= e <= 100)%Q -> (overall_grade cp cw ew e < tg)%Q) ->
       (r == 100)%Q).
Proof.
  intros Hew.
  assert (Hne : ~ (ew == 0)%Q) by (intros E; rewrite E in Hew; revert Hew; apply Qlt_irrefl).
  destruct (final_exam_requirement_exact tg cp cw ew) as (r & Hr & _ & Hcl).
  specialize (Hcl Hne). destruct Hcl as (Hlo & Hmid & Hhi).
  exists r. split; [exact Hr|].
  pose proof (fun e => overall_grade_reaches tg cp cw ew e Hew) as R.
  set (v := required_exam_percentage tg cp cw ew) in *.
  assert (Hrange : (0 <= r <= 100)%Q).
  { destruct (Qlt_le_dec v 0) as [L|L]; [rewrite Hlo by lra; lra|].
    destruct (Qlt_le_dec 100 v) as [L'|L']; [rewrite Hhi by lra; lra|].
    rewrite Hmid by lra. lra. }
  split; [exact Hrange|]. split.
  - intros e He Hreach. apply R in Hreach. rewrite R.
    destruct (Qlt_le_dec v 0) as [L|L]; [rewrite Hlo by lra; lra|].
    destruct (Qlt_le_dec 100 v) as [L'|L']; [lra|].
    rewrite Hmid by lra. lra.
  - intros Hnone.
    destruct (Qlt_le_dec v 100) as [L|L]; [|apply Hhi; exact L].
    exfalso. specialize (Hnone 100%Q ltac:(lra)).
    apply Qlt_not_le in Hnone. apply Hnone, R. lra.
Qed.

(** ** Whole days until a due date *)

(** X4: [calculate_days_until_due] counts whole 24-hour spans from the clock
    reading to the midnight that starts the due day.  It is the difference
    of the two calendar days when the clock shows midnight exactly, and one
    less at any later time of day: a deadline that falls tomorrow reads 0
    and one that falls today reads -1. *)
Theorem X4_days_until_due_whole_days (strptime : string -> option Timestamp)
  (now due : Timestamp) (due_date_str : string) :
  strptime due_date_str = Some due ->
  (due mod us_per_day = 0)%Z ->
  calculate_days_until_due strptime now due_date_str
  = (day_of due - day_of now - (if (now mod us_per_day =? 0)%Z then 0 else 1))%Z.
Proof.
  intros Hs Hmid. unfold calculate_days_until_due, day_of. rewrite Hs.
  cbn [from_option mbind result_bind try_except].
  unfold us_per_day in *.
  destruct (Z.eqb_spec (now mod 86400000000) 0) as [E|E];
    Z.div_mod_to_equations; lia.
Qed.

(** ** Time to deadline *)

Section Deadlines.
Variable to_datetime : string -> option Timestamp.

Lemma mapM_to_datetime_readable (rs : list Assignment.t) :
  dates_readable to_datetime rs ->
  mapM (to_datetime_cell to_datetime) (List.map Assignment.due_date rs)
  = Ok (List.map (due_instant to_datetime) rs).
Proof.
  induction 1 as [|a rs Ha _ IH]; [reflexivity|].
  cbn [List.map mapM]. rewrite IH.
  assert (E : to_datetime_cell to_datetime (Assignment.due_date a)
              = Ok (due_instant to_datetime a)).
  { unfold due_instant. destruct (Assignment.due_date a) as [s|] eqn:Es; [|reflexivity].
    destruct (Ha s eq_refl) as [t Ht]. cbn. rewrite Ht. reflexivity. }
  rewrite E. reflexivity.
Qed.

Lemma zip_with_own_rows {A B C} (f : A -> B -> C) (h : A -> B) (l : list A) :
  zip_with f l (List.map h l) = List.map (fun a => f a (h a)) l.
Proof. induction l as [|a l IH]; [reflexivity|]. cbn. rewrite IH. reflexivity. Qed.

Lemma na_last_le_total (a b : option Z) : na_last_le a b = true \/ na_last_le b a = true.
Proof. destruct a, b; cbn; auto; lia. Qed.

Lemma time_to_deadline_rows (now : Timestamp) (df : DataFrame Assignment.t) :
  has_column "status" df = true ->
  has_column "due_date" df = true ->
  dates_readable to_datetime (List.filter is_pending (rows df)) ->
  calculate_time_to_deadline to_datetime now df
  = Ok (sort_by (fun r1 r2 => na_last_le (days_remaining r1) (days_remaining r2))
          (List.map (deadline_row to_datetime now) (List.filter is_pending (rows df)))).
Proof.
  intros Hst Hdue Hread. unfold calculate_time_to_deadline.
  destruct (empty df) eqn:Hempty.
  - apply (empty_iff_no_rows "status" df Hst) in Hempty. rewrite Hempty. reflexivity.
  - rewrite (col_present _ _ _ Hst). cbn [mbind result_bind].
    rewrite (empty_selection "status" Assignment.status (fun s => String.eqb s "pending") df Hst).
    change (List.filter (fun r => String.eqb (Assignment.status r) "pending") (rows df))
      with (List.filter is_pending (rows df)).
    destruct (List.filter is_pending (rows df)) as [|a0 rs0] eqn:Ep; [reflexivity|].
    unfold col. change (has_column "due_date" (df_mask df ?m)) with (has_column "due_date" df).
    rewrite Hdue. cbn [mbind result_bind rows df_mask]. rewrite select_map.
    change (List.filter (fun r => String.eqb (Assignment.status r) "pending") (rows df))
      with (List.filter is_pending (rows df)).
    rewrite Ep. rewrite (mapM_to_datetime_readable _ Hread). cbn [mbind result_bind].
    rewrite zip_with_own_rows. reflexivity.
Qed.

(** X5: when the due date of every pending row is missing or readable,
    [calculate_time_to_deadline] returns exactly the pending rows, each with
    its due instant and its day count, in ascending order of the day count
    with the rows without a due date last.  A day count [d] says that the
    deadline lies between [d] and [d + 1] whole days ahead; it is negative
    exactly when the deadline has passed. *)
Theorem X5_time_to_deadline_table (now : Timestamp) (df : DataFrame Assignment.t) :
  has_column "status" df = true ->
  has_column "due_date" df = true ->
  dates_readable to_datetime (List.filter is_pending (rows df)) ->
  exists table : list DeadlineRow,
    calculate_time_to_deadline to_datetime now df = Ok table /\
    Permutation table
      (List.map (deadline_row to_datetime now) (List.filter is_pending (rows df))) /\
    Sorted (fun r1 r2 => na_last_le (days_remaining r1) (days_remaining r2) = true) table /\
    (forall r t d, r ∈ table -> due r = Some t -> days_remaining r = Some d ->
       ((d < 0)%Z <-> (t < now)%Z) /\ (d * us_per_day <= t - now < (d + 1) * us_per_day)%Z).
Proof.
  intros Hst Hdue Hread. rewrite (time_to_deadline_rows now df Hst Hdue Hread).
  eexists. split; [reflexivity|].
  assert (P : Permutation
                (sort_by (fun r1 r2 => na_last_le (days_remaining r1) (days_remaining r2))
                   (List.map (deadline_row to_datetime now)
                      (List.filter is_pending (rows df))))
                (List.map (deadline_row to_datetime now) (List.filter is_pending (rows df))))
    by apply sort_by_perm.
  split; [exact P|]. split.
  - apply sort_by_sorted. intros x y. apply na_last_le_total.
  - intros r t d Hin Ht Hd. rewrite P in Hin.
    apply list_elem_of_In, in_map_iff in Hin. destruct Hin as (a & <- & _).
    unfold deadline_row in Ht, Hd. cbn in Ht, Hd. rewrite Ht in Hd. cbn in Hd.
    injection Hd as <-. unfold us_per_day. Z.div_mod_to_equations. lia.
Qed.

End Deadlines.

(** ** Counting rows by key *)

Lemma list_sum_map_add {K} (c f : K -> nat) (ks : list K) :
  list_sum (List.map (fun k => (c k + f k)%nat) ks)
  = (list_sum (List.map c ks) + list_sum (List.map f ks))%nat.
Proof. unfold list_sum. induction ks as [|k ks IH]; cbn; [reflexivity|]. rewrite IH. lia. Qed.

Lemma list_sum_map_zero {K} (ks : list K) :
  list_sum (List.map (fun _ => 0%nat) ks) = 0%nat.
Proof. unfold list_sum. induction ks as [|k ks IH]; cbn; [reflexivity | exact IH]. Qed.

Lemma sum_indicator {K} `{EqDecision K} (k0 : K) (ks : list K) :
  NoDup ks ->
  list_sum (List.map (fun k => if bool_decide (k0 = k) then 1%nat else 0%nat) ks)
  = if bool_decide (k0 ∈ ks) then 1%nat else 0%nat.
Proof.
  induction 1 as [|k ks Hnotin ND IH]; [reflexivity|].
  change (list_sum (List.map (fun k => if bool_decide (k0 = k) then 1%nat else 0%nat) (k :: ks)))
    with ((if bool_decide (k0 = k) then 1 else 0)
          + list_sum (List.map (fun k => if bool_decide (k0 = k) then 1%nat else 0%nat) ks))%nat.
  rewrite IH.
  destruct (decide (k0 = k)) as [->|Hne].
  - rewrite bool_decide_eq_true_2 by reflexivity.
    rewrite (bool_decide_eq_false_2 (k ∈ ks)) by exact Hnotin.
    rewrite bool_decide_eq_true_2 by apply list_elem_of_here. reflexivity.
  - rewrite (bool_decide_eq_false_2 (k0 = k)) by exact Hne.
    destruct (decide (k0 ∈ ks)) as [Hin|Hin].
    + rewrite !bool_decide_eq_true_2; [reflexivity | apply list_elem_of_further; exact Hin | exact Hin].
    + rewrite !bool_decide_eq_false_2; [reflexivity | | exact Hin].
      intros Hc. apply elem_of_cons in Hc. destruct Hc; contradiction.
Qed.

Lemma count_by_key {A K} `{EqDecision K} (key : A -> option K) (p : A -> bool)
  (ks : list K) (l : list A) :
  NoDup ks ->
  (forall a k, a ∈ l -> key a = Some k -> k ∈ ks) ->
  list_sum
    (List.map
       (fun k => length (List.filter (fun a => bool_decide (key a = Some k) && p a) l)) ks)
  = length (List.filter (fun a => bool_decide (is_Some (key a)) && p a) l).
Proof.
  intros ND. induction l as [|a l IH]; intros Hall.
  - cbn. apply list_sum_map_zero.
  - assert (IH' := IH (fun a' k Hin => Hall a' k (list_elem_of_further _ _ _ Hin))).
    cbn [List.filter].
    transitivity
      (list_sum
         (List.map
            (fun k =>
               ((if bool_decide (key a = Some k) && p a then 1 else 0)
                + length (List.filter (fun a => bool_decide (key a = Some k) && p a) l))%nat)
            ks)).
    { f_equal. apply map_ext. intros k.
      destruct (bool_decide (key a = Some k) && p a); reflexivity. }
    rewrite list_sum_map_add, IH'.
    destruct (p a) eqn:Hp.
    + destruct (key a) as [k0|] eqn:Hk.
      * rewrite (bool_decide_eq_true_2 (is_Some (Some k0))) by (eexists; reflexivity).
        cbn [andb length].
        transitivity
          (list_sum (List.map (fun k => if bool_decide (k0 = k) then 1%nat else 0%nat) ks)
           + length (List.filter (fun a => bool_decide (is_Some (key a)) && p a) l))%nat.
        { f_equal. f_equal. apply map_ext. intros k. rewrite andb_true_r.
          destruct (decide (k0 = k)) as [->|Hne].
          - rewrite !bool_decide_eq_true_2; reflexivity.
          - rewrite !bool_decide_eq_false_2; [reflexivity | exact Hne | congruence]. }
        rewrite (sum_indicator k0 ks ND).
        rewrite bool_decide_eq_true_2; [reflexivity|].
        apply (Hall a k0); [apply list_elem_of_here | exact Hk].
      * rewrite (bool_decide_eq_false_2 (is_Some None)) by (intros [? ?]; discriminate).
        cbn [andb].
        transitivity
          (list_sum (List.map (fun _ : K => 0%nat) ks)
           + length (List.filter (fun a => bool_decide (is_Some (key a)) && p a) l))%nat.
        { reflexivity. }
        rewrite list_sum_map_zero. reflexivity.
    + rewrite andb_false_r.
      transitivity
        (list_sum (List.map (fun _ : K => 0%nat) ks)
         + length (List.filter (fun a => bool_decide (is_Some (key a)) && p a) l))%nat.
      { f_equal. f_equal. apply map_ext. intros k. rewrite andb_false_r. reflexivity. }
      rewrite list_sum_map_zero. reflexivity.
Qed.

Lemma filter_map_length {A B} (q : B -> bool) (h : A -> B) (l : list A) :
  length (List.filter q (List.map h l)) = length (List.filter (fun a => q (h a)) l).
Proof.
  induction l as [|a l IH]; [reflexivity|]. cbn. destruct (q (h a)); cbn; rewrite IH; reflexivity.
Qed.



(** ** Weekly workload *)

Section Weekly.
Variable to_datetime : string -> option Timestamp.


End Weekly.

(** ** The overdue and upcoming counts *)

Section DeadlineCounts.
Variable to_datetime : string -> option Timestamp.

Lemma deadline_step_by_day (today : Z) (acc : nat * nat) (a : Assignment.t) :
  deadline_step to_datetime today true acc a
  = ((if is_overdue to_datetime today a then S acc.1 else acc.1),
     (if is_upcoming to_datetime today a then S acc.2 else acc.2)).
Proof.
  destruct acc as [o u]. unfold deadline_step, is_overdue, is_upcoming, days_to_due_day.
  unfold is_pending, due_instant.
  destruct (String.eqb (Assignment.status a) "pending"); [|reflexivity].
  cbn [mbind result_bind fst snd].
  destruct (Assignment.due_date a) as [s|]; [|reflexivity]. cbn.
  destruct (to_datetime s) as [t|]; [|reflexivity]. cbn.
  destruct (Z.ltb_spec (day_of t - today) 0);
    destruct (Z.leb_spec 0 (day_of t - today)); try lia; [reflexivity|]. cbn.
  destruct (day_of t - today <=? 7)%Z; reflexivity.
Qed.

Lemma deadline_loop_by_day (today : Z) (rs : list Assignment.t) (acc : nat * nat) :
  fold_left (deadline_step to_datetime today true) rs acc
  = ((acc.1 + length (List.filter (is_overdue to_datetime today) rs))%nat,
     (acc.2 + length (List.filter (is_upcoming to_datetime today) rs))%nat).
Proof.
  revert acc. induction rs as [|a rs IH]; intros [o u]; cbn [fold_left List.filter].
  - cbn. f_equal; lia.
  - rewrite deadline_step_by_day, IH. cbn [fst snd].
    destruct (is_overdue to_datetime today a), (is_upcoming to_datetime today a);
      cbn [length]; f_equal; lia.
Qed.

Lemma deadline_loop_no_column (today : Z) (rs : list Assignment.t) (acc : nat * nat) :
  fold_left (deadline_step to_datetime today false) rs acc = acc.
Proof.
  revert acc. induction rs as [|a rs IH]; intros [o u]; [reflexivity|].
  cbn [fold_left]. rewrite <- (IH (o, u)) at 2. f_equal.
  unfold deadline_step. destruct (String.eqb (Assignment.status a) "pending"); reflexivity.
Qed.

Lemma overdue_upcoming_pending (today : Z) (rs : list Assignment.t) :
  (length (List.filter (is_overdue to_datetime today) rs)
   + length (List.filter (is_upcoming to_datetime today) rs)
   <= length (List.filter is_pending rs))%nat.
Proof.
  induction rs as [|a rs IH]; [reflexivity|]. cbn [List.filter].
  unfold is_overdue at 1, is_upcoming at 1, days_to_due_day.
  destruct (is_pending a); [|exact IH].
  destruct (due_instant to_datetime a) as [t|]; cbn; [|lia].
  destruct (Z.ltb_spec (day_of t - today) 0);
    destruct (Z.leb_spec 0 (day_of t - today));
    destruct (Z.leb_spec (day_of t - today) 7); cbn; lia.
Qed.

(** X7: the overdue / near-due loop of [analytics_tab] counts as overdue the
    pending rows whose due day lies before today, and as upcoming those
    whose due day is today or one of the next seven days; a row is never in
    both counts, so the two add up to at most the number of pending rows.
    Without a [due_date] column both counts are 0. *)
Theorem X7_deadline_counts_by_day (now : Timestamp) (df : DataFrame Assignment.t) :
  has_column "status" df = true ->
  exists overdue_count upcoming_count : nat,
    analytics_tab_deadline_counts to_datetime now df = Ok (overdue_count, upcoming_count) /\
    (has_column "due_date" df = true ->
       overdue_count = length (List.filter (is_overdue to_datetime (day_of now)) (rows df)) /\
       upcoming_count = length (List.filter (is_upcoming to_datetime (day_of now)) (rows df))) /\
    (has_column "due_date" df = false -> overdue_count = 0%nat /\ upcoming_count = 0%nat) /\
    (overdue_count + upcoming_count <= length (List.filter is_pending (rows df)))%nat.
Proof.
  intros Hst. unfold analytics_tab_deadline_counts.
  destruct (empty df) eqn:Hempty.
  - apply (empty_iff_no_rows "status" df Hst) in Hempty. rewrite Hempty.
    exists 0%nat, 0%nat. cbn. repeat split; lia.
  - rewrite (col_present _ _ _ Hst). cbn [mbind result_bind].
    destruct (has_column "due_date" df).
    + rewrite deadline_loop_by_day. cbn [fst snd Nat.add].
      eexists _, _. split; [reflexivity|]. split; [intros _; split; reflexivity|].
      split; [discriminate|]. apply overdue_upcoming_pending.
    + rewrite deadline_loop_no_column.
      exists 0%nat, 0%nat. split; [reflexivity|]. split; [discriminate|].
      split; [intros _; split; reflexivity|]. lia.
Qed.

End DeadlineCounts.

(** ** A deadline that falls today *)

(** X8: a pending assignment due today, once the day has begun, is reported
    with -1 day by [calculate_days_until_due] and by
    [calculate_time_to_deadline], as if it were late, while the loop of
    [analytics_tab], which compares calendar days, counts it as upcoming and
    not as overdue. *)
Theorem X8_due_today_counted_both_ways (strptime to_datetime : string -> option Timestamp)
  (now t : Timestamp) (df : DataFrame Assignment.t) (a : Assignment.t) (s : string) :
  has_column "status" df = true ->
  has_column "due_date" df = true ->
  dates_readable to_datetime (List.filter is_pending (rows df)) ->
  a ∈ rows df ->
  Assignment.status a = "pending" ->
  Assignment.due_date a = Some s ->
  strptime s = Some t ->
  to_datetime s = Some t ->
  (t mod us_per_day = 0)%Z ->
  day_of now = day_of t ->
  (now mod us_per_day <> 0)%Z ->
  calculate_days_until_due strptime now s = (-1)%Z /\
  (exists table,
     calculate_time_to_deadline to_datetime now df = Ok table /\
     mkDeadline a (Some t) (Some (-1)%Z) ∈ table) /\
  (forall acc : nat * nat,
     deadline_step to_datetime (day_of now) true acc a = (acc.1, S acc.2)).
Proof.
  intros Hst Hdue Hread Hin Hpending Hs Hstr Hto Hmid Hday Hlate.
  assert (Hdays : ((t - now) / us_per_day = -1)%Z).
  { unfold day_of, us_per_day in *. Z.div_mod_to_equations. lia. }
  split; [|split].
  - unfold calculate_days_until_due. rewrite Hstr.
    cbn [from_option mbind result_bind try_except]. exact Hdays.
  - rewrite (time_to_deadline_rows to_datetime now df Hst Hdue Hread).
    eexists. split; [reflexivity|]. rewrite sort_by_perm.
    apply list_elem_of_In, in_map_iff. exists a. split.
    + unfold deadline_row, due_instant. rewrite Hs. cbn. rewrite Hto. cbn.
      rewrite Hdays. reflexivity.
    + apply filter_In. split; [apply list_elem_of_In; exact Hin|].
      unfold is_pending. rewrite Hpending. reflexivity.
  - intros acc. rewrite deadline_step_by_day.
    unfold is_overdue, is_upcoming, days_to_due_day, is_pending, due_instant.
    rewrite Hpending, Hs. cbn. rewrite Hto. cbn. rewrite Hday.
    rewrite Z.sub_diag. reflexivity.
Qed.

(** ** Trend analyzer: what the dates contribute *)

Lemma insert_sorted_map {A B} (le : B -> B -> bool) (f : A -> B) (x : A) (l : list A) :
  insert_sorted le (f x) (List.map f l)
  = List.map f (insert_sorted (fun a b => le (f a) (f b)) x l).
Proof.
  induction l as [|y l IH]; [reflexivity|]. cbn.
  destruct (le (f x) (f y)); [reflexivity|]. cbn. rewrite IH. reflexivity.
Qed.

Lemma sort_by_map {A B} (le : B -> B -> bool) (f : A -> B) (l : list A) :
  sort_by le (List.map f l) = List.map f (sort_by (fun a b => le (f a) (f b)) l).
Proof.
  unfold sort_by. induction l as [|x l IH]; [reflexivity|].
  cbn [List.map fold_right]. rewrite IH. apply insert_sorted_map.
Qed.

Lemma insert_sorted_ext_in {A} (le1 le2 : A -> A -> bool) (x : A) (l : list A) :
  (forall b, In b l -> le1 x b = le2 x b) ->
  insert_sorted le1 x l = insert_sorted le2 x l.
Proof.
  induction l as [|y l IH]; intros Hext; [reflexivity|]. cbn.
  rewrite (Hext y) by (left; reflexivity).
  destruct (le2 x y); [reflexivity|]. f_equal. apply IH.
  intros b Hb. apply Hext. right. exact Hb.
Qed.

Lemma sort_by_ext_in {A} (le1 le2 : A -> A -> bool) (l : list A) :
  (forall a b, In a l -> In b l -> le1 a b = le2 a b) ->
  sort_by le1 l = sort_by le2 l.
Proof.
  induction l as [|x l IH]; intros Hext; [reflexivity|].
  change (insert_sorted le1 x (sort_by le1 l) = insert_sorted le2 x (sort_by le2 l)).
  rewrite IH by (intros a b Ha Hb; apply Hext; right; assumption).
  apply insert_sorted_ext_in. intros b Hb. apply Hext; [left; reflexivity|].
  right. apply (Permutation_in _ (sort_by_perm le2 l)). exact Hb.
Qed.

Lemma dates_read_instants (to_datetime : string -> option Timestamp)
  (df : DataFrame (CarryMark.t Q)) (dates : list Timestamp) :
  dates_read to_datetime df dates ->
  dates = List.map (instant_of to_datetime) (rows df).
Proof.
  unfold dates_read. induction 1 as [|r d rs ds Hr _ IH]; [reflexivity|].
  cbn. unfold instant_of at 1. rewrite Hr. cbn. f_equal. exact IH.
Qed.

Lemma percentage_column_rows (df : DataFrame (CarryMark.t Q)) :
  exists p : CarryMark.t Q -> Q, percentage_column df = List.map p (rows df).
Proof.
  unfold percentage_column. destruct (has_column "percentage" df); eexists; reflexivity.
Qed.

Lemma trend_observations_by_order (d1 d2 : string -> option Timestamp)
  (df : DataFrame (CarryMark.t Q)) (dates1 dates2 : list Timestamp) :
  dates_read d1 df dates1 -> dates_read d2 df dates2 ->
  (forall r r', r ∈ rows df -> r' ∈ rows df ->
     (instant_of d1 r <= instant_of d1 r')%Z <-> (instant_of d2 r <= instant_of d2 r')%Z) ->
  List.map snd (sort_by by_date_b (zip dates1 (percentage_column df)))
  = List.map snd (sort_by by_date_b (zip dates2 (percentage_column df))).
Proof.
  intros H1 H2 Hord.
  apply dates_read_instants in H1, H2. subst dates1 dates2.
  destruct (percentage_column_rows df) as (p & ->).
  rewrite !(zip_with_map_rows pair), !sort_by_map, !List.map_map. cbn [snd].
  f_equal. apply sort_by_ext_in. intros a b Ha Hb. unfold by_date_b. cbn [fst].
  apply list_elem_of_In in Ha, Hb. specialize (Hord a b Ha Hb).
  destruct (Z.leb_spec (instant_of d1 a) (instant_of d1 b)),
           (Z.leb_spec (instant_of d2 a) (instant_of d2 b)); try reflexivity; lia.
Qed.

(** X9: [get_performance_trend] uses the dates only to order the rows: two
    readings of the [date_added] column that order the rows alike give the
    same answer, however far apart they place them. *)
Theorem X9_performance_trend_order_only (polyfit : list Q -> list Q -> result Q)
  (d1 d2 : string -> option Timestamp)
  (df : DataFrame (CarryMark.t Q)) (dates1 dates2 : list Timestamp) :
  usable_percentages df -> has_column "date_added" df = true ->
  dates_read d1 df dates1 -> dates_read d2 df dates2 ->
  (forall r r', r ∈ rows df -> r' ∈ rows df ->
     (instant_of d1 r <= instant_of d1 r')%Z <-> (instant_of d2 r <= instant_of d2 r')%Z) ->
  get_performance_trend polyfit d1 df = get_performance_trend polyfit d2 df.
Proof.
  intros Hus Hdate H1 H2 Hord.
  destruct (Nat.lt_ge_cases (len df) 2) as [Hlt|Hge].
  - rewrite !performance_trend_insufficient by exact Hlt. reflexivity.
  - destruct (performance_trend_regression polyfit d1 df dates1 Hge Hus Hdate H1)
      as [_ E1].
    destruct (performance_trend_regression polyfit d2 df dates2 Hge Hus Hdate H2)
      as [_ E2].
    cbv zeta in E1, E2. rewrite E1, E2.
    pose proof (trend_observations_by_order d1 d2 df dates1 dates2 H1 H2 Hord) as Hy.
    assert (Hn : length (sort_by by_date_b (zip dates1 (percentage_column df)))
                 = length (sort_by by_date_b (zip dates2 (percentage_column df)))).
    { apply (f_equal (@length Q)) in Hy. rewrite !List.length_map in Hy. exact Hy. }
    rewrite Hy, Hn. reflexivity.
Qed.


(** ** Workload balance *)

Lemma mapM_all_ok {A B} (f : A -> result B) (g : A -> B) (l : list A) :
  (forall a, In a l -> f a = Ok (g a)) -> mapM f l = Ok (List.map g l).
Proof.
  induction l as [|a l IH]; intros Hall; [reflexivity|].
  cbn. rewrite (Hall a) by (left; reflexivity). cbn.
  rewrite IH by (intros b Hb; apply Hall; right; exact Hb). reflexivity.
Qed.

Lemma workload_balance_table (df : DataFrame Assignment.t) :
  has_column "course_code" df = true ->
  calculate_workload_balance df
  = Ok (List.map (fun c => (c, balance_of (rows_of_course c df) (len df)))
          (sort_by String.leb
             (remove_dups (List.map Assignment.course_code (rows df))))).
Proof.
  intros Hcc. unfold calculate_workload_balance.
  destruct (empty df) eqn:Hempty.
  - apply (empty_iff_no_rows "course_code" df Hcc) in Hempty. rewrite Hempty. reflexivity.
  - rewrite (col_present _ _ _ Hcc). cbn [mbind result_bind].
    assert (Hpos : (0 < len df)%nat).
    { unfold len. destruct (rows df) eqn:E; [|cbn; lia].
      rewrite (empty_no_rows df E) in Hempty. discriminate. }
    unfold groupby_size.
    erewrite mapM_all_ok with
      (g := fun '(c, count) => (c, balance_of count (len df))).
    + rewrite List.map_map. f_equal. apply map_ext. intros c.
      unfold rows_of_course. rewrite filter_map_length. reflexivity.
    + intros [c count] _. unfold truediv.
      assert (Hz : eqb (T:=Q) (of_Z (Z.of_nat (len df))) (of_Z 0) = false).
      { apply (proj2 (Q_eqb_false _ _)). cbn [of_Z Q_PyNum]. intros E.
        pose proof (Q_of_nat_pos (len df) Hpos) as P. rewrite E in P.
        revert P. apply Qlt_irrefl. }
      rewrite Hz. cbn [mbind result_bind]. unfold balance_of.
      cbn [ltb mul div of_Z of_Q Q_PyNum].
      destruct (Qle_bool (inject_Z (Z.of_nat count)) (inject_Z (Z.of_nat (len df)) * 0.3));
        cbn [negb]; [|reflexivity].
      destruct (Qle_bool (inject_Z (Z.of_nat count)) (inject_Z (Z.of_nat (len df)) * 0.15));
        reflexivity.
Qed.

Lemma list_sum_filter_le {K} (c : K -> nat) (p : K -> bool) (ks : list K) :
  (list_sum (List.map c (List.filter p ks)) <= list_sum (List.map c ks))%nat.
Proof.
  unfold list_sum. induction ks as [|k ks IH]; [reflexivity|]. cbn.
  destruct (p k); cbn; lia.
Qed.

Lemma list_sum_lower_bound {K} (c : K -> nat) (b : Q) (ks : list K) :
  Forall (fun k => b < inject_Z (Z.of_nat (c k)))%Q ks ->
  (inject_Z (Z.of_nat (length ks)) * b
   <= inject_Z (Z.of_nat (list_sum (List.map c ks))))%Q.
Proof.
  unfold list_sum. induction 1 as [|k ks Hk _ IH].
  - change (inject_Z (Z.of_nat (length (@nil K)))) with 0%Q.
    change (inject_Z (Z.of_nat (fold_right Init.Nat.add 0%nat (List.map c [])))) with 0%Q.
    lra.
  - cbn [length List.map fold_right].
    rewrite Nat2Z.inj_succ, Nat2Z.inj_add. unfold Z.succ. rewrite !inject_Z_plus.
    generalize dependent (inject_Z (Z.of_nat (length ks))).
    generalize (inject_Z (Z.of_nat (fold_right Init.Nat.add 0%nat (List.map c ks)))).
    generalize dependent (inject_Z (Z.of_nat (c k))).
    intros ck Hk s n IH. change (inject_Z 1) with 1%Q. lra.
Qed.

Lemma share_sum {K} (c : K -> nat) (t : Q) (ks : list K) :
  ~ (t == 0)%Q ->
  (Qsum (List.map (fun k => inject_Z (Z.of_nat (c k)) / t * 100) ks)
   == inject_Z (Z.of_nat (list_sum (List.map c ks))) / t * 100)%Q.
Proof.
  intros Ht. unfold list_sum. induction ks as [|k ks IH]; cbn [List.map Qsum fold_right].
  - cbn. field. exact Ht.
  - rewrite IH, Nat2Z.inj_add, inject_Z_plus. field. exact Ht.
Qed.

Lemma course_counts_sum (df : DataFrame Assignment.t) (ks : list string) :
  NoDup ks ->
  (forall a, a ∈ rows df -> Assignment.course_code a ∈ ks) ->
  list_sum (List.map (fun c => rows_of_course c df) ks) = len df.
Proof.
  intros ND Hall. unfold rows_of_course, len.
  replace (List.map
             (fun c => length (List.filter (fun a => String.eqb c (Assignment.course_code a))
                                 (rows df))) ks)
    with (List.map
            (fun c => length (List.filter
                                (fun a => bool_decide (Some (Assignment.course_code a) = Some c)
                                          && true) (rows df))) ks).
  2: { apply map_ext. intros c. f_equal. apply filter_ext. intros a.
       rewrite andb_true_r.
       destruct (String.eqb_spec c (Assignment.course_code a)) as [->|Hne].
       - rewrite bool_decide_eq_true_2; reflexivity.
       - rewrite bool_decide_eq_false_2; [reflexivity | congruence]. }
  rewrite (count_by_key (fun a => Some (Assignment.course_code a)) (fun _ => true)
             ks (rows df) ND).
  - f_equal. clear Hall.
    induction (rows df) as [|a l IH]; [reflexivity|]. cbn. f_equal. exact IH.
  - intros a k Hin E. injection E as <-. apply Hall. exact Hin.
Qed.

Lemma course_keys (df : DataFrame Assignment.t) :
  let ks := sort_by String.leb (remove_dups (List.map Assignment.course_code (rows df))) in
  NoDup ks /\
  Sorted (fun a b => String.leb a b = true) ks /\
  (forall c, c ∈ ks <-> exists a, a ∈ rows df /\ Assignment.course_code a = c).
Proof.
  intros ks.
  assert (P : Permutation ks (remove_dups (List.map Assignment.course_code (rows df))))
    by apply sort_by_perm.
  split; [rewrite P; apply NoDup_remove_dups|].
  split; [apply sort_by_sorted; apply String.leb_total|].
  intros c. rewrite P, elem_of_remove_dups, list_elem_of_In, in_map_iff.
  split; intros (a & H1 & H2); exists a; rewrite ?list_elem_of_In in *; tauto.
Qed.

(** X11: [calculate_workload_balance] has one entry per course code of the
    frame, in sorted order and without repetition; the entry of a course
    counts its rows (at least one), the counts add up to the number of rows
    and the percentages to 100. *)
Theorem X11_workload_balance_shares (df : DataFrame Assignment.t) :
  has_column "course_code" df = true ->
  exists table : list (string * Balance.t Q),
    calculate_workload_balance df = Ok table /\
    NoDup (List.map fst table) /\
    Sorted (fun a b => String.leb a b = true) (List.map fst table) /\
    (forall c, c ∈ List.map fst table <->
               exists a, a ∈ rows df /\ Assignment.course_code a = c) /\
    (forall c b, (c, b) ∈ table ->
       Balance.assignments b = rows_of_course c df /\ (1 <= Balance.assignments b)%nat) /\
    list_sum (List.map (fun e => Balance.assignments e.2) table) = len df /\
    (rows df <> [] ->
     (Qsum (List.map (fun e => Balance.percentage e.2) table) == 100)%Q).
Proof.
  intros Hcc. rewrite (workload_balance_table df Hcc).
  destruct (course_keys df) as (ND & Hsorted & Hkeys). cbn zeta in ND, Hsorted, Hkeys.
  set (ks := sort_by String.leb (remove_dups (List.map Assignment.course_code (rows df)))) in *.
  eexists. split; [reflexivity|].
  rewrite !List.map_map. cbn [fst snd]. rewrite List.map_id.
  split; [exact ND|]. split; [exact Hsorted|]. split; [exact Hkeys|].
  assert (Hsum : list_sum (List.map (fun c => rows_of_course c df) ks) = len df).
  { apply course_counts_sum; [exact ND|]. intros a Ha. apply Hkeys. exists a. tauto. }
  split; [|split].
  - intros c b Hin. apply list_elem_of_In, in_map_iff in Hin.
    destruct Hin as (c' & E & Hin). injection E as -> <-. cbn [Balance.assignments balance_of].
    split; [reflexivity|].
    apply list_elem_of_In, Hkeys in Hin. destruct Hin as (a & Hin & Ha).
    unfold rows_of_course.
    assert (Hf : In a (List.filter (fun a => String.eqb c (Assignment.course_code a)) (rows df))).
    { apply filter_In. split; [apply list_elem_of_In; exact Hin|].
      rewrite Ha. apply String.eqb_refl. }
    destruct (List.filter _ _); [destruct Hf | cbn; lia].
  - exact Hsum.
  - intros Hne. cbn [Balance.percentage balance_of].
    assert (Hpos : (0 < len df)%nat) by (unfold len; destruct (rows df); [congruence | cbn; lia]).
    pose proof (Q_of_nat_pos (len df) Hpos) as Ht.
    rewrite (share_sum (fun c => rows_of_course c df)) by lra.
    rewrite Hsum. field. lra.
Qed.

Lemma filter_length_disjoint {A} (p q : A -> bool) (l : list A) :
  (forall a, p a && q a = false) ->
  (length (List.filter p l) + length (List.filter q l))%nat
  = length (List.filter (fun a => p a || q a) l).
Proof.
  intros Hd. induction l as [|a l IH]; [reflexivity|]. cbn.
  specialize (Hd a). destruct (p a), (q a); cbn in *; try discriminate; lia.
Qed.

(** Groups that each hold more than the share [f] of all rows: there are
    at most [n] of them when [n + 1] such shares exceed the whole. *)
Lemma few_large_groups {K} (c : K -> nat) (p : K -> bool) (ks : list K)
  (total : nat) (f : Q) (n : nat) :
  list_sum (List.map c ks) = total ->
  (forall k, In k ks -> p k = true ->
     (inject_Z (Z.of_nat total) * f < inject_Z (Z.of_nat (c k)))%Q) ->
  (0 < total)%nat -> (0 <= f)%Q ->
  (1 < inject_Z (Z.of_nat (S n)) * f)%Q ->
  (length (List.filter p ks) <= n)%nat.
Proof.
  intros Hsum Hlarge Hpos Hf Hn.
  set (high := List.filter p ks).
  assert (Hb : (inject_Z (Z.of_nat (length high)) * (inject_Z (Z.of_nat total) * f)
                <= inject_Z (Z.of_nat (list_sum (List.map c high))))%Q).
  { apply list_sum_lower_bound. apply List.Forall_forall. intros k Hk.
    apply filter_In in Hk. destruct Hk as [Hin Hk]. apply Hlarge; assumption. }
  pose proof (list_sum_filter_le c p ks) as Hle. fold high in Hle. rewrite Hsum in Hle.
  apply Q_of_nat_le in Hle.
  destruct (Nat.le_gt_cases (length high) n) as [L|L]; [exact L|exfalso].
  assert (L' : (inject_Z (Z.of_nat (S n)) <= inject_Z (Z.of_nat (length high)))%Q)
    by (apply Q_of_nat_le; lia).
  pose proof (Q_of_nat_pos total Hpos) as Ht.
  set (s := inject_Z (Z.of_nat (list_sum (List.map c high)))) in *.
  set (h := inject_Z (Z.of_nat (length high))) in *.
  set (sn := inject_Z (Z.of_nat (S n))) in *.
  set (t := inject_Z (Z.of_nat total)) in *.
  clearbody s h sn t. clear Hlarge.
  assert (H1 : (sn * f * t <= h * f * t)%Q).
  { apply Qmult_le_compat_r; [|lra]. apply Qmult_le_compat_r; [exact L' | exact Hf]. }
  assert (H2 : (1 * t < sn * f * t)%Q) by (apply Qmult_lt_compat_r; [exact Ht | exact Hn]).
  assert (H3 : (h * (t * f) == h * f * t)%Q) by ring.
  lra.
Qed.

(** X12: in [calculate_workload_balance] a course is "High" exactly when it
    holds more than 30% of the rows, "Medium" when more than 15% and at most
    30%, "Low" otherwise; at most three courses are "High", and at most six
    are "High" or "Medium". *)
Theorem X12_workload_balance_levels (df : DataFrame Assignment.t) :
  has_column "course_code" df = true ->
  exists table : list (string * Balance.t Q),
    calculate_workload_balance df = Ok table /\
    (forall c b, (c, b) ∈ table ->
       let count := inject_Z (Z.of_nat (Balance.assignments b)) in
       let total := inject_Z (Z.of_nat (len df)) in
       (Balance.load_level b = "High" <-> (total * 0.3 < count)%Q) /\
       (Balance.load_level b = "Medium" <->
          (total * 0.15 < count)%Q /\ (count <= total * 0.3)%Q) /\
       (Balance.load_level b = "Low" <-> (count <= total * 0.15)%Q)) /\
    (level_count "High" table <= 3)%nat /\
    (level_count "High" table + level_count "Medium" table <= 6)%nat.
Proof.
  intros Hcc. rewrite (workload_balance_table df Hcc).
  destruct (course_keys df) as (ND & _ & Hkeys). cbn zeta in ND, Hkeys.
  set (ks := sort_by String.leb (remove_dups (List.map Assignment.course_code (rows df)))) in *.
  eexists. split; [reflexivity|].
  assert (Hsum : list_sum (List.map (fun c => rows_of_course c df) ks) = len df).
  { apply course_counts_sum; [exact ND|]. intros a Ha. apply Hkeys. exists a. tauto. }
  assert (Hlevel : forall count : nat,
            let c := inject_Z (Z.of_nat count) in
            let t := inject_Z (Z.of_nat (len df)) in
            (Balance.load_level (balance_of count (len df)) = "High" <-> (t * 0.3 < c)%Q) /\
            (Balance.load_level (balance_of count (len df)) = "Medium" <->
               (t * 0.15 < c)%Q /\ (c <= t * 0.3)%Q) /\
            (Balance.load_level (balance_of count (len df)) = "Low" <-> (c <= t * 0.15)%Q)).
  { intros count c t. unfold balance_of. cbn [Balance.load_level]. fold c t.
    assert (Hnn : (0 <= t)%Q) by (apply (Q_of_nat_le 0); lia).
    destruct (Qle_bool c (t * 0.3)) eqn:E1.
    - apply Qle_bool_iff in E1.
      destruct (Qle_bool c (t * 0.15)) eqn:E2.
      + apply Qle_bool_iff in E2.
        split; [|split]; (split; [try discriminate | try reflexivity]); intros; lra.
      + assert (E2' : (t * 0.15 < c)%Q).
        { apply Qnot_le_lt. intros L. apply Qle_bool_iff in L. congruence. }
        split; [|split]; (split; [try discriminate | try reflexivity]); intros; lra.
    - assert (E1' : (t * 0.3 < c)%Q).
      { apply Qnot_le_lt. intros L. apply Qle_bool_iff in L. congruence. }
      split; [|split]; (split; [try discriminate | try reflexivity]); intros; lra. }
  split.
  { intros c b Hin. apply list_elem_of_In, in_map_iff in Hin.
    destruct Hin as (c' & E & Hin). injection E as -> <-.
    apply (Hlevel (rows_of_course c df)). }
  unfold level_count. rewrite !filter_map_length. cbn [snd].
  destruct (rows df) as [|a0 rs0] eqn:Erows.
  { subst ks. cbn. lia. }
  assert (Hpos : (0 < len df)%nat) by (unfold len; rewrite Erows; cbn; lia).
  split.
  - apply (few_large_groups (fun c => rows_of_course c df) _ ks (len df) 0.3 3 Hsum);
      [|exact Hpos|lra|vm_compute; reflexivity].
    intros c _ Hc. apply String.eqb_eq in Hc.
    apply (Hlevel (rows_of_course c df)). exact Hc.
  - rewrite filter_length_disjoint.
    + apply (few_large_groups (fun c => rows_of_course c df) _ ks (len df) 0.15 6 Hsum);
        [|exact Hpos|lra|vm_compute; reflexivity].
      intros c _ Hc. apply orb_true_iff in Hc.
      destruct Hc as [Hc|Hc]; apply String.eqb_eq in Hc;
        apply (Hlevel (rows_of_course c df)) in Hc; cbn zeta in Hc.
      * assert (Hnn : (0 <= inject_Z (Z.of_nat (len df)))%Q) by (apply (Q_of_nat_le 0); lia).
        lra.
      * lra.
    + intros c. destruct (Balance.load_level (balance_of (rows_of_course c df) (len df)) =? "High") eqn:E1;
        [|reflexivity].
      apply String.eqb_eq in E1. rewrite E1. reflexivity.
Qed.

(** ** Study recommendations *)

Lemma filter_length_perm {A} (p : A -> bool) (l k : list A) :
  Permutation l k -> length (List.filter p l) = length (List.filter p k).
Proof.
  induction 1 as [|x l k _ IH|x y l|l k m _ IH1 _ IH2]; cbn.
  - reflexivity.
  - destruct (p x); cbn; rewrite IH; reflexivity.
  - destruct (p x), (p y); reflexivity.
  - congruence.
Qed.

Lemma filter_filter_zip {A} (f g : A -> string) (c : string) (l : list A) :
  List.filter (fun r : string * string => String.eqb r.2 "completed")
    (List.filter (fun r : string * string => String.eqb c r.1)
       (List.map (fun a => (f a, g a)) l))
  = List.map (fun a => (f a, g a))
      (List.filter (fun a => String.eqb (g a) "completed")
         (List.filter (fun a => String.eqb c (f a)) l)).
Proof.
  induction l as [|a l IH]; [reflexivity|]. cbn.
  destruct (String.eqb c (f a)); cbn; [|exact IH].
  destruct (String.eqb (g a) "completed"); cbn; rewrite IH; reflexivity.
Qed.

(** X13: [calculate_study_recommendations] never returns an empty list, and
    never its closing fallback "Keep up the good work!".  On empty course
    statistics it returns the single invitation to add marks; otherwise one
    message per course whose average is below 70, one per course of the
    assignments whose completion is below 80, and last exactly one general
    message, chosen by the mean of the averages: below 60, below 75, or
    neither. *)
Theorem X13_study_recommendations_shape (format_1f : Q -> string)
  (stats : DataFrame (CourseStat.t Q)) (work : DataFrame Assignment.t) :
  has_column "Average %" stats = true ->
  has_column "Course Code" stats = true ->
  (empty work = false ->
   has_column "course_code" work = true /\ has_column "status" work = true) ->
  exists recs : list string,
    calculate_study_recommendations format_1f stats work = Ok recs /\
    recs <> [] /\
    ~ "Keep up the good work! 🎉" ∈ recs /\
    (rows stats = [] ->
       recs = ["Add some carry marks to get personalized recommendations!"]) /\
    (rows stats <> [] ->
       exists (specific : list string) (general : string),
         recs = (specific ++ [general])%list /\
         length specific
         = (length (List.filter (fun r => negb (Qle_bool 70 (CourseStat.Average_pct r)))
                      (rows stats))
            + length (low_completion_courses work))%nat /\
         let avg := mean (List.map CourseStat.Average_pct (rows stats)) in
         ((avg < 60)%Q ->
            general = "🆘 Consider seeking academic support or tutoring services") /\
         ((60 <= avg)%Q -> (avg < 75)%Q ->
            general = "📖 Create a more structured study schedule") /\
         ((75 <= avg)%Q ->
            general = "🎯 Great work! Focus on maintaining consistency")).
Proof.
  intros Havg Hcode Hwork. unfold calculate_study_recommendations.
  destruct (empty stats) eqn:Hempty.
  { apply (empty_iff_no_rows _ _ Havg) in Hempty.
    eexists. split; [reflexivity|]. split; [discriminate|]. split.
    - intros Hin. apply list_elem_of_singleton in Hin. discriminate.
    - split; [reflexivity | intros Hne; contradiction]. }
  assert (Hrows : rows stats <> []).
  { intros E. rewrite (empty_no_rows stats E) in Hempty. discriminate. }
  rewrite (col_present _ _ _ Havg). cbn [mbind result_bind negb].
  rewrite (empty_selection "Average %" CourseStat.Average_pct
             (fun a => ltb a (of_Z 70)) stats Havg).
  set (low := List.filter (fun r => ltb (CourseStat.Average_pct r) (of_Z 70)) (rows stats)).
  set (focus := fun course : CourseStat.t Q =>
         "📚 Focus more study time on " +:+ CourseStat.Course_Code course
         +:+ " (current: " +:+ format_1f (CourseStat.Average_pct course) +:+ "%)").
  assert (Hfirst :
    (if negb match low with [] => true | _ :: _ => false end
     then
       if has_column "Course Code"
            (df_mask stats (List.map (fun a => ltb a (of_Z 70))
                              (List.map CourseStat.Average_pct (rows stats))))
       then Ok ([] ++ List.map focus
                  (rows (df_mask stats (List.map (fun a => ltb a (of_Z 70))
                                          (List.map CourseStat.Average_pct (rows stats))))))%list
       else Raise KeyError
     else Ok []) = Ok (List.map focus low)).
  { change (has_column "Course Code" (df_mask stats ?m)) with (has_column "Course Code" stats).
    rewrite Hcode. cbn [rows df_mask]. rewrite select_map. fold low.
    destruct low; reflexivity. }
  rewrite Hfirst. clear Hfirst. cbn [mbind result_bind].
  set (improve := fun course : string * Q =>
         "📝 Improve assignment completion for " +:+ course.1
         +:+ " (current: " +:+ format_1f course.2 +:+ "%)").
  set (keys := sort_by String.leb (remove_dups (List.map Assignment.course_code (rows work)))).
  set (low_completion :=
         List.filter (fun course : string * Q => ltb course.2 (of_Z 80))
           (List.map (fun c => (c, completion_of c work)) keys)).
  assert (Hsecond : exists second,
    (if negb (empty work)
     then
       codes ← col "course_code" Assignment.course_code work;
       statuses ← col "status" Assignment.status work;
       Ok (List.map focus low ++
           List.map improve
             (List.filter (fun course : string * Q => ltb course.2 (of_Z 80))
                (List.map
                   (fun course =>
                      (course,
                       mul (div (of_Z (Z.of_nat
                                         (length (List.filter
                                                    (fun r : string * string => String.eqb r.2 "completed")
                                                    (List.filter (fun r : string * string => String.eqb course r.1)
                                                       (zip codes statuses))))))
                              (of_Z (Z.of_nat
                                       (length (List.filter (fun r : string * string => String.eqb course r.1)
                                                  (zip codes statuses))))))
                         (of_Z 100)))
                   (sort_by String.leb (remove_dups codes)))))%list
     else Ok (List.map focus low))
    = Ok (List.map focus low ++ second)%list /\
    length second = length (low_completion_courses work) /\
    ~ "Keep up the good work! 🎉" ∈ second).
  { destruct (empty work) eqn:Hw; cbn [negb].
    - exists []. rewrite app_nil_r. split; [reflexivity|].
      split; [|intros Hin; inversion Hin].
      unfold low_completion_courses. rewrite Hw. reflexivity.
    - destruct (Hwork eq_refl) as [Hcc Hst].
      rewrite (col_present _ _ _ Hcc), (col_present _ _ _ Hst). cbn [mbind result_bind].
      rewrite (zip_with_map_rows pair).
      exists (List.map improve low_completion). split.
      + f_equal. f_equal. f_equal. unfold low_completion. f_equal.
        apply map_ext. intros c. f_equal. unfold completion_of.
        rewrite filter_filter_zip, !List.length_map.
        rewrite (filter_map_length (fun r : string * string => String.eqb c r.1)
                   (fun a => (Assignment.course_code a, Assignment.status a))).
        reflexivity.
      + split.
        { rewrite List.length_map. unfold low_completion, low_completion_courses.
          rewrite Hw, filter_map_length. cbn [snd].
          apply filter_length_perm. apply sort_by_perm. }
        intros Hin. apply list_elem_of_In, in_map_iff in Hin.
        destruct Hin as (x & Hx & _). discriminate Hx. }
  destruct Hsecond as (second & -> & Hlen & Hnot). cbn [mbind result_bind].
  set (avg := series_mean (List.map CourseStat.Average_pct (rows stats))).
  assert (Havg' : (avg == mean (List.map CourseStat.Average_pct (rows stats)))%Q)
    by apply series_mean_exact.
  set (general :=
         if ltb avg (of_Z 60)
         then "🆘 Consider seeking academic support or tutoring services"
         else if ltb avg (of_Z 75) then "📖 Create a more structured study schedule"
              else "🎯 Great work! Focus on maintaining consistency").
  exists ((List.map focus low ++ second) ++ [general])%list.
  assert (Hne : ((List.map focus low ++ second) ++ [general])%list <> [])
    by (intros E; apply app_eq_nil in E; destruct E; discriminate).
  split.
  { f_equal. unfold general.
    destruct (ltb avg (of_Z 60)); [|destruct (ltb avg (of_Z 75))];
      (destruct ((List.map focus low ++ second) ++ [_])%list eqn:E;
       [apply app_eq_nil in E; destruct E; discriminate | reflexivity]). }
  split; [exact Hne|]. split.
  { intros Hin. apply elem_of_app in Hin. destruct Hin as [Hin|Hin].
    - apply elem_of_app in Hin. destruct Hin as [Hin|Hin]; [|contradiction].
      apply list_elem_of_In, in_map_iff in Hin. destruct Hin as (x & Hx & _). discriminate Hx.
    - apply list_elem_of_singleton in Hin. unfold general in Hin.
      destruct (ltb avg (of_Z 60)); [|destruct (ltb avg (of_Z 75))]; discriminate Hin. }
  split; [intros E; contradiction|]. intros _.
  exists (List.map focus low ++ second)%list, general. split; [reflexivity|]. split.
  { rewrite length_app, List.length_map, Hlen. reflexivity. }
  cbn zeta. rewrite <- Havg'. unfold general. clearbody avg.
  destruct (ltb avg (of_Z 60)) eqn:E60; q_props; change (of_Z 60) with 60%Q in E60.
  - repeat split; intros; try reflexivity; lra.
  - destruct (ltb avg (of_Z 75)) eqn:E75; q_props; change (of_Z 75) with 75%Q in E75;
      repeat split; intros; try reflexivity; lra.
Qed.

(** ** The record store: entering carry marks *)

Section CarryMarkEntryFacts.
Variable float_of_str : string -> option Q.
Variable strftime : Timestamp -> string.

Lemma recalculate_numbers (carry_data : gmap string value) (e m w : Q) :
  carry_data !! "percentage" = None ->
  carry_data !! "earned" = Some (VNum e) ->
  carry_data !! "max_possible" = Some (VNum m) ->
  carry_data !! "weight_percentage" = Some (VNum w) ->
  exists record,
    recalculate float_of_str carry_data = Ok record /\
    recalculated carry_data record e m w.
Proof.
  intros Hp He Hm Hw. unfold recalculate. rewrite Hp, He, Hm.
  set (m' := if truthy (VNum m) then m else 1%Q).
  assert (Hm' : (if truthy (VNum m) then to_float float_of_str (VNum m) else Ok 1%Q) = Ok m')
    by (unfold m'; destruct (truthy (VNum m)); reflexivity).
  rewrite Hm'. cbn [mbind result_bind].
  set (p := if ltb 0%Q m' then (e / m' * 100)%Q else 0%Q).
  assert (Hpv : (if ltb 0%Q m'
                 then e0 ← to_float float_of_str (VNum e);
                      ratio ← truediv e0 m'; Ok (mul ratio 100%Q)
                 else Ok 0%Q) = Ok p).
  { unfold p. destruct (ltb 0%Q m') eqn:Hpos; [|reflexivity].
    cbn [to_float mbind result_bind]. unfold truediv.
    apply Q_ltb_iff in Hpos.
    destruct (eqb m' (of_Z 0)) eqn:Ez.
    - apply Q_eqb_iff in Ez. cbn [of_Z Q_PyNum] in Ez. rewrite Ez in Hpos.
      exfalso. revert Hpos. apply Qlt_irrefl.
    - reflexivity. }
  rewrite Hpv. cbn [mbind result_bind].
  rewrite lookup_insert_ne by discriminate. rewrite Hw.
  rewrite lookup_insert_eq.
  set (w' := if truthy (VNum w) then w else 0%Q).
  assert (Hw' : (if truthy (VNum w) then to_float float_of_str (VNum w) else Ok 0%Q) = Ok w')
    by (unfold w'; destruct (truthy (VNum w)); reflexivity).
  rewrite Hw'. cbn [mbind result_bind].
  set (p' := if truthy (VNum p) then p else 0%Q).
  assert (Hp' : (if truthy (VNum p) then to_float float_of_str (VNum p) else Ok 0%Q) = Ok p')
    by (unfold p'; destruct (truthy (VNum p)); reflexivity).
  rewrite Hp'. cbn [mbind result_bind]. unfold truediv.
  change (eqb 100%Q (of_Z 0)) with false. cbn [mbind result_bind].
  eexists. split; [reflexivity|].
  exists p, (p' / 100 * w')%Q.
  assert (Ew : (w' == w)%Q).
  { unfold w', truthy. destruct (Qeq_bool w 0) eqn:E; [|reflexivity].
    apply Qeq_bool_iff in E. cbn. rewrite E. reflexivity. }
  assert (Ep : (p' == p)%Q).
  { unfold p', truthy. destruct (Qeq_bool p 0) eqn:E; [|reflexivity].
    apply Qeq_bool_iff in E. cbn. rewrite E. reflexivity. }
  assert (Em : (m == 0)%Q /\ m' = 1%Q \/ ~ (m == 0)%Q /\ m' = m).
  { unfold m', truthy. destruct (Qeq_bool m 0) eqn:E.
    - left. apply Qeq_bool_iff in E. split; [exact E | reflexivity].
    - right. split; [|reflexivity]. intros E'. apply Qeq_bool_iff in E'. congruence. }
  split; [rewrite lookup_insert_ne by discriminate; apply lookup_insert_eq|].
  split; [apply lookup_insert_eq|].
  assert (Hcases : ((0 < m)%Q -> (p == e / m * 100)%Q) /\
                   ((m == 0)%Q -> (p == e * 100)%Q) /\
                   ((m < 0)%Q -> (p == 0)%Q)).
  { unfold p. destruct Em as [[Ez ->]|[Enz ->]].
    - change (ltb 0%Q 1%Q) with true. cbn match.
      split; [intros L; rewrite Ez in L; exfalso; revert L; apply Qlt_irrefl|].
      split; [intros _; field|].
      intros L; rewrite Ez in L; exfalso; revert L; apply Qlt_irrefl.
    - destruct (ltb 0%Q m) eqn:Hpos; q_props.
      + split; [intros _; reflexivity|]. split; [intros E; contradiction|].
        intros L. exfalso. apply (Qlt_irrefl 0). apply Qlt_trans with m; assumption.
      + split; [intros L; exfalso; apply (Qlt_irrefl 0); apply Qlt_le_trans with m; assumption|].
        split; [intros E; contradiction | intros _; reflexivity]. }
  destruct Hcases as (H1 & H2 & H3).
  split; [exact H1|]. split; [exact H2|]. split; [exact H3|].
  split; [cbn [mul div Q_PyNum]; rewrite Ew, Ep; reflexivity|].
  intros k Hk1 Hk2. rewrite !lookup_insert_ne by congruence. reflexivity.
Qed.

(** X14: [add_carry_mark], given a record with numeric [earned],
    [max_possible] and [weight_percentage] and no [percentage], returns and
    appends one record to the carry marks, leaving the other collections as
    they were.  The record has [percentage = earned / max_possible * 100]
    when [max_possible] is positive, [earned * 100] when it is 0 (a zero
    maximum is replaced by 1) and 0 when it is negative; its
    [final_contribution] is [percentage / 100 * weight_percentage], its
    [date_added] the day the clock shows, and its other entries are the
    given ones.  No division by zero takes place. *)
Theorem X14_add_carry_mark_derives (now : Timestamp) (carry_data : gmap string value)
  (st : SessionState) (e m w : Q) :
  carry_data !! "percentage" = None ->
  carry_data !! "earned" = Some (VNum e) ->
  carry_data !! "max_possible" = Some (VNum m) ->
  carry_data !! "weight_percentage" = Some (VNum w) ->
  exists record stored,
    add_carry_mark float_of_str strftime now carry_data st
    = Ok (mkState (courses st) (carry_marks st ++ [stored]) (final_exams st)
            (assignments st) (theme_color st) (sample_data_loaded st)) /\
    stored = <["date_added" := VStr (strftime now)]> record /\
    recalculated carry_data record e m w /\
    stored !! "date_added" = Some (VStr (strftime now)) /\
    (forall k, k <> "date_added" -> stored !! k = record !! k).
Proof.
  intros Hp He Hm Hw.
  destruct (recalculate_numbers carry_data e m w Hp He Hm Hw) as (record & Hrec & Hprops).
  exists record, (<["date_added" := VStr (strftime now)]> record).
  unfold add_carry_mark. rewrite Hrec. cbn [mbind result_bind].
  split; [reflexivity|]. split; [reflexivity|]. split; [exact Hprops|].
  split; [apply lookup_insert_eq|].
  intros k Hk. apply lookup_insert_ne. congruence.
Qed.

(** X15: [update_carry_mark] at a valid index stores the recalculated record
    in that cell and changes nothing else; the record's [date_added] is the
    one of the data handed in, not the one the cell held.  At an index
    outside [0, len), negative ones included, the store is unchanged. *)
Theorem X15_update_carry_mark_replaces (index : Z) (carry_data : gmap string value)
  (st : SessionState) (e m w : Q) :
  carry_data !! "percentage" = None ->
  carry_data !! "earned" = Some (VNum e) ->
  carry_data !! "max_possible" = Some (VNum m) ->
  carry_data !! "weight_percentage" = Some (VNum w) ->
  exists record st',
    update_carry_mark float_of_str index carry_data st = Ok st' /\
    recalculated carry_data record e m w /\
    record !! "date_added" = carry_data !! "date_added" /\
    ((0 <= index < Z.of_nat (length (carry_marks st)))%Z ->
       carry_marks st' !! Z.to_nat index = Some record /\
       length (carry_marks st') = length (carry_marks st) /\
       (forall j, j <> Z.to_nat index -> carry_marks st' !! j = carry_marks st !! j) /\
       courses st' = courses st /\ assignments st' = assignments st /\
       final_exams st' = final_exams st) /\
    (~ (0 <= index < Z.of_nat (length (carry_marks st)))%Z -> st' = st).
Proof.
  intros Hp He Hm Hw.
  destruct (recalculate_numbers carry_data e m w Hp He Hm Hw) as (record & Hrec & Hprops).
  exists record. unfold update_carry_mark, in_range. rewrite Hrec. cbn [mbind result_bind].
  assert (Hdate : record !! "date_added" = carry_data !! "date_added").
  { destruct Hprops as (p & c & _ & _ & _ & _ & _ & _ & Hk). apply Hk; discriminate. }
  destruct ((0 <=? index)%Z && (index <? Z.of_nat (length (carry_marks st)))%Z) eqn:Hin.
  - eexists. split; [reflexivity|]. split; [exact Hprops|]. split; [exact Hdate|].
    split; [|intros Hout; exfalso; apply Hout; lia].
    intros Hrange. cbn [carry_marks courses assignments final_exams].
    split; [apply list_lookup_insert_eq; lia|].
    split; [apply length_insert|].
    split; [|repeat split].
    intros j Hj. apply list_lookup_insert_ne. congruence.
  - exists st. split; [reflexivity|]. split; [exact Hprops|]. split; [exact Hdate|].
    split; [intros Hrange; lia | reflexivity].
Qed.

End CarryMarkEntryFacts.

(** ** The record store: assignments *)

Lemma in_range_iff {A} (index : Z) (l : list A) :
  in_range index l = true <-> (0 <= index < Z.of_nat (length l))%Z.
Proof. unfold in_range. lia. Qed.

(** X16: [update_assignment_status] sets the [status] entry of the record at
    the index and nothing else: the other entries of that record, the other
    records and the other collections stay as they were, the last of two
    updates of one index wins, and an index outside [0, len) changes
    nothing. *)
Theorem X16_update_assignment_status_sets (index : Z) (new_status : value) (st : SessionState) :
  let st' := update_assignment_status index new_status st in
  length (assignments st') = length (assignments st) /\
  courses st' = courses st /\ carry_marks st' = carry_marks st /\
  final_exams st' = final_exams st /\
  (forall a, (0 <= index)%Z -> assignments st !! Z.to_nat index = Some a ->
     exists a', assignments st' !! Z.to_nat index = Some a' /\
                a' !! "status" = Some new_status /\
                (forall k, k <> "status" -> a' !! k = a !! k)) /\
  (forall j, j <> Z.to_nat index -> assignments st' !! j = assignments st !! j) /\
  (~ (0 <= index < Z.of_nat (length (assignments st)))%Z -> st' = st) /\
  (forall earlier : value,
     update_assignment_status index new_status
       (update_assignment_status index earlier st) = st').
Proof.
  intros st'. subst st'. unfold update_assignment_status.
  destruct (in_range index (assignments st)) eqn:Hin.
  - apply in_range_iff in Hin. cbn [assignments courses carry_marks final_exams].
    split; [apply length_alter|]. do 3 (split; [reflexivity|]).
    split.
    { intros a _ Ha. rewrite list_lookup_alter_eq, Ha. cbn.
      eexists. split; [reflexivity|]. split; [apply lookup_insert_eq|].
      intros k Hk. apply lookup_insert_ne. congruence. }
    split; [intros j Hj; apply list_lookup_alter_ne; congruence|].
    split; [intros Hout; contradiction|].
    intros earlier.
    assert (Hin' : in_range index (assignments st) = true) by (apply in_range_iff; exact Hin).
    assert (Hin'' : in_range index
                      (alter (fun a => <["status" := earlier]> a) (Z.to_nat index)
                         (assignments st)) = true)
      by (apply in_range_iff; rewrite length_alter; exact Hin).
    cbn [assignments courses carry_marks final_exams theme_color sample_data_loaded].
    rewrite Hin''. f_equal.
    rewrite list_alter_alter_eq. apply list_alter_ext; [|reflexivity].
    intros a _. cbn. apply insert_insert_eq.
  - split; [reflexivity|]. do 3 (split; [reflexivity|]).
    assert (Hout : ~ (0 <= index < Z.of_nat (length (assignments st)))%Z).
    { intros H. apply in_range_iff in H. congruence. }
    split.
    { intros a Hlo Ha. exfalso. apply Hout. apply lookup_lt_Some in Ha. lia. }
    split; [reflexivity|]. split; [reflexivity|].
    intros earlier. rewrite Hin. reflexivity.
Qed.

(** X17: [add_assignment] appends: the new record is at index [len], the
    former records keep their places, and [delete_assignment] at that index
    gives the former store back.  [delete_assignment] at a valid index
    shortens the list by one; at an index outside [0, len) it changes
    nothing. *)
Theorem X17_add_then_delete_assignment (assignment_data : gmap string value)
  (st : SessionState) :
  let added := add_assignment assignment_data st in
  assignments added !! length (assignments st) = Some assignment_data /\
  (forall j a, assignments st !! j = Some a -> assignments added !! j = Some a) /\
  delete_assignment (Z.of_nat (length (assignments st))) added = st /\
  (forall index, (0 <= index < Z.of_nat (length (assignments st)))%Z ->
     length (assignments (delete_assignment index st)) = (length (assignments st) - 1)%nat) /\
  (forall index, ~ (0 <= index < Z.of_nat (length (assignments st)))%Z ->
     delete_assignment index st = st).
Proof.
  cbn zeta. unfold add_assignment, delete_assignment.
  cbn [assignments courses carry_marks final_exams theme_color sample_data_loaded].
  split; [apply list_lookup_middle; reflexivity|].
  split; [intros j a Ha; apply lookup_app_l_Some; exact Ha|].
  split; [|split].
  - assert (Hin : in_range (Z.of_nat (length (assignments st)))
                    (assignments st ++ [assignment_data])%list = true).
    { apply in_range_iff. rewrite length_app. cbn. lia. }
    rewrite Hin, Nat2Z.id.
    assert (E : delete (length (assignments st)) (assignments st ++ [assignment_data])%list
                = assignments st).
    { clear Hin. induction (assignments st) as [|a l IH]; [reflexivity|].
      cbn. f_equal. exact IH. }
    rewrite E. destruct st; reflexivity.
  - intros index Hin. apply in_range_iff in Hin. rewrite Hin.
    cbn [assignments]. rewrite length_delete; [reflexivity|].
    apply lookup_lt_is_Some. apply in_range_iff in Hin. lia.
  - intros index Hout.
    destruct (in_range index (assignments st)) eqn:Hin; [|reflexivity].
    apply in_range_iff in Hin. contradiction.
Qed.

(** ** The record store: two courses with one code *)

(** X18: course codes are not checked for uniqueness.  When two courses
    carry one code, deleting one of them removes one course only, the other
    stays listed, and yet no carry mark, assignment or final-exam record
    with that code remains. *)
Theorem X18_delete_course_shared_code (st : SessionState) (i j : nat)
  (ci cj : gmap string value) (code : value) :
  i <> j ->
  courses st !! i = Some ci -> courses st !! j = Some cj ->
  ci !! "code" = Some code -> cj !! "code" = Some code ->
  exists st',
    delete_course (Z.of_nat i) st = Ok st' /\
    cj ∈ courses st' /\
    length (courses st') = (length (courses st) - 1)%nat /\
    (forall d, references d code ->
       ~ d ∈ (carry_marks st' ++ assignments st' ++ final_exams st')%list).
Proof.
  intros Hij Hi Hj Hci Hcj. unfold delete_course.
  assert (Hlt : (i < length (courses st))%nat) by (apply lookup_lt_Some in Hi; exact Hi).
  assert (Hin : ((0 <=? Z.of_nat i) && (Z.of_nat i <? Z.of_nat (length (courses st))))%Z = true)
    by lia.
  rewrite Hin, Nat2Z.id, Hi. cbn [from_option mbind result_bind]. rewrite Hci.
  cbn [from_option mbind result_bind].
  eexists. split; [reflexivity|]. cbn [courses carry_marks assignments final_exams].
  split; [|split].
  - destruct (Nat.lt_ge_cases j i) as [L|L].
    + apply (list_elem_of_lookup_2 _ j). rewrite list_lookup_delete_lt by exact L. exact Hj.
    + apply (list_elem_of_lookup_2 _ (pred j)).
      rewrite list_lookup_delete_ge by lia.
      replace (S (pred j)) with j by lia. exact Hj.
  - apply length_delete. eexists; exact Hi.
  - intros d Href Hin'. rewrite !elem_of_app in Hin'.
    destruct Hin' as [H|[H|H]]; apply filter_get_ne in H; destruct H as [_ H]; contradiction.
Qed.

(** ** The record store: sample data *)

(** X19: [load_sample_data] loads once.  A first call on a store whose flag
    is unset replaces the carry marks and the assignments by the samples,
    whatever they held, sets the flag and returns [True]; any later call
    returns [False] and changes nothing.  Courses, final exams and theme are
    never touched, and every sample record belongs to one of the default
    courses. *)
Theorem X19_load_sample_data_once (st : SessionState) :
  let first := load_sample_data st in
  let second := load_sample_data first.2 in
  second = (false, first.2) /\
  sample_data_loaded first.2 = true /\
  courses first.2 = courses st /\ final_exams first.2 = final_exams st /\
  theme_color first.2 = theme_color st /\
  (sample_data_loaded st = false ->
     first.1 = true /\
     carry_marks first.2 = get_sample_carry_marks /\
     assignments first.2 = get_sample_assignments) /\
  (sample_data_loaded st = true -> first = (false, st)) /\
  (courses st = get_default_courses ->
     forallb (course_listed (courses first.2)) get_sample_carry_marks = true /\
     forallb (course_listed (courses first.2)) get_sample_assignments = true).
Proof.
  cbn zeta. unfold load_sample_data.
  destruct (sample_data_loaded st) eqn:Hflag; cbn [negb fst snd];
    [rewrite Hflag; cbn [negb]|];
    cbn [sample_data_loaded negb courses final_exams theme_color carry_marks assignments
         fst snd];
    split_and!;
    solve [ reflexivity | assumption | discriminate
          | intros _; split_and!; reflexivity
          | intros E; rewrite E; split; vm_compute; reflexivity ].
Qed.

(** ** Weighted GPA: a course without marks *)

Lemma weighted_points_app (rs ss : list (CourseStat.t Q)) :
  (weighted_points (rs ++ ss) == weighted_points rs + weighted_points ss)%Q.
Proof. unfold weighted_points. rewrite List.map_app. apply Qsum_app. Qed.

Lemma weights_app (rs ss : list (CourseStat.t Q)) :
  (weights (rs ++ ss) == weights rs + weights ss)%Q.
Proof. unfold weights. rewrite List.map_app. apply Qsum_app. Qed.

(** X20: a course without marks lowers the weighted GPA.  Its letter ("N/A",
    or any letter the table scores 0) adds no points but its carry weight
    counts in the divisor: the GPA with the course, times the enlarged total
    weight, equals the GPA without it times the former total weight. *)
Theorem X20_weighted_gpa_unmarked_course (cols : list string)
  (rs : list (CourseStat.t Q)) (unmarked : CourseStat.t Q) :
  "Letter Grade" ∈ cols -> "Carry Weight" ∈ cols ->
  Forall (fun row => 0 <= CourseStat.Carry_Weight row)%Q rs ->
  (0 < weights rs)%Q ->
  (grade_point (CourseStat.Letter_Grade unmarked) == 0)%Q ->
  (0 <= CourseStat.Carry_Weight unmarked)%Q ->
  exists g g' : Q,
    calculate_weighted_gpa (mkDF cols rs) = Ok g /\
    calculate_weighted_gpa (mkDF cols (rs ++ [unmarked])) = Ok g' /\
    (g == weighted_points rs / weights rs)%Q /\
    (g' * (weights rs + CourseStat.Carry_Weight unmarked) == g * weights rs)%Q /\
    (g' <= g)%Q /\
    ((0 < CourseStat.Carry_Weight unmarked)%Q -> (0 < g)%Q -> (g' < g)%Q).
Proof.
  intros Hl Hw Hnn Hpos Hgp Hwu.
  assert (Hlc : forall l : list (CourseStat.t Q),
            has_column "Letter Grade" (mkDF cols l) = true)
    by (intros l; apply bool_decide_eq_true_2; exact Hl).
  assert (Hwc : forall l : list (CourseStat.t Q),
            has_column "Carry Weight" (mkDF cols l) = true)
    by (intros l; apply bool_decide_eq_true_2; exact Hw).
  destruct (weighted_gpa_exact (mkDF cols rs)) as (g & Hg & _ & Hgv & Hgr).
  destruct (weighted_gpa_exact (mkDF cols (rs ++ [unmarked]))) as (g' & Hg' & _ & Hgv' & _).
  cbn zeta in Hgv, Hgv'. unfold counted_rows in Hgv, Hgv'.
  rewrite Hlc, Hwc in Hgv, Hgv'. cbn [andb rows] in Hgv, Hgv'.
  exists g, g'. split; [exact Hg|]. split; [exact Hg'|].
  specialize (Hgv Hpos). specialize (Hgr Hnn).
  assert (W' : (weights (rs ++ [unmarked]) == weights rs + CourseStat.Carry_Weight unmarked)%Q).
  { rewrite weights_app. unfold weights at 2. cbn. ring. }
  assert (P' : (weighted_points (rs ++ [unmarked]) == weighted_points rs)%Q).
  { rewrite weighted_points_app. unfold weighted_points at 2. cbn. rewrite Hgp. ring. }
  assert (Hpos' : (0 < weights (rs ++ [unmarked]))%Q) by (rewrite W'; lra).
  specialize (Hgv' Hpos'). rewrite P', W' in Hgv'.
  set (w := CourseStat.Carry_Weight unmarked) in *.
  set (W := weights rs) in *. set (P := weighted_points rs) in *.
  clearbody w W P.
  assert (E : (g' * (W + w) == g * W)%Q).
  { rewrite Hgv, Hgv'. field. split; lra. }
  split; [exact Hgv|]. split; [exact E|].
  assert (Hg0 : (0 <= g)%Q) by lra.
  split.
  - apply Qnot_lt_le. intros L.
    assert (H1 : (g * W < g' * W)%Q) by (apply Qmult_lt_compat_r; lra).
    assert (H2 : (0 <= g' * w)%Q) by (apply Qmult_le_0_compat; lra).
    lra.
  - intros Hw0 Hgpos. apply Qnot_le_lt. intros L.
    assert (H1 : (g * W <= g' * W)%Q) by (apply Qmult_le_compat_r; lra).
    assert (H2 : (0 < g' * w)%Q) by (apply Qmult_lt_0_compat; lra).
    lra.
Qed.

(** ** Completion rate: the two ends of the scale *)

Lemma filter_length_all {A} (p : A -> bool) (l : list A) :
  length (List.filter p l) = length l <-> Forall (fun a => p a = true) l.
Proof.
  induction l as [|a l IH]; cbn.
  - split; [constructor | reflexivity].
  - pose proof (filter_length_le p l) as Hle. destruct (p a) eqn:E; cbn.
    + split.
      * intros H. constructor; [exact E | apply IH; lia].
      * intros H. inversion H; subst. f_equal. apply IH. assumption.
    + split; [lia|]. intros H. inversion H; congruence.
Qed.

Lemma filter_length_none {A} (p : A -> bool) (l : list A) :
  length (List.filter p l) = 0%nat <-> Forall (fun a => p a = false) l.
Proof.
  induction l as [|a l IH]; cbn.
  - split; [constructor | reflexivity].
  - destruct (p a) eqn:E; cbn.
    + split; [discriminate|]. intros H. inversion H; congruence.
    + rewrite IH. split; [constructor; assumption | intros H; inversion H; assumption].
Qed.

(** X21: on a non-empty frame [calculate_completion_rate] is 100 exactly when
    the status of every row is the string "completed", and 0 exactly when
    that of none is. *)
Theorem X21_completion_rate_extremes (df : DataFrame Assignment.t) :
  has_column "status" df = true ->
  rows df <> [] ->
  exists r : Q,
    calculate_completion_rate df = Ok r /\
    ((r == 100)%Q <-> Forall (fun a => is_completed a = true) (rows df)) /\
    ((r == 0)%Q <-> Forall (fun a => is_completed a = false) (rows df)).
Proof.
  intros Hst Hne.
  destruct (completion_rate_exact df Hst) as (r & Hr & _ & Hv & _).
  cbn zeta in Hv. specialize (Hv Hne).
  exists r. split; [exact Hr|].
  change (fun a => String.eqb (Assignment.status a) "completed") with is_completed in Hv.
  rewrite <- filter_length_all, <- filter_length_none.
  pose proof (filter_length_le is_completed (rows df)) as Hle.
  set (c := length (List.filter is_completed (rows df))) in *.
  set (t := length (rows df)) in *.
  assert (Ht : (0 < t)%nat) by (unfold t; destruct (rows df); [congruence | cbn; lia]).
  pose proof (Q_of_nat_pos t Ht) as Htq.
  assert (Hc0 : (0 <= inject_Z (Z.of_nat c))%Q) by (apply (Q_of_nat_le 0); lia).
  assert (Hq : forall C T : Q, (0 < T)%Q ->
            ((C / T * 100 == 100)%Q <-> (C == T)%Q) /\
            ((C / T * 100 == 0)%Q <-> (C == 0)%Q)).
  { intros C T HT.
    assert (HT0 : ~ (T == 0)%Q) by (intros Z; rewrite Z in HT; revert HT; apply Qlt_irrefl).
    split; split; intros E.
    - assert (E2 : (C == C / T * 100 * (T / 100))%Q) by (field; exact HT0).
      rewrite E2, E. field.
    - rewrite E. field. exact HT0.
    - assert (E2 : (C == C / T * 100 * (T / 100))%Q) by (field; exact HT0).
      rewrite E2, E. field.
    - rewrite E. field. exact HT0. }
  destruct (Hq (inject_Z (Z.of_nat c)) (inject_Z (Z.of_nat t)) Htq) as [H100 H0].
  subst r. rewrite H100, H0. change 0%Q with (inject_Z (Z.of_nat 0)).
  split; (split; [intros E; unfold Qeq in E; cbn in E; lia | intros ->; reflexivity]).
Qed.

(** ** The record store: adding, then deleting *)

Lemma delete_last {A} (l : list A) (x : A) : delete (length l) (l ++ [x])%list = l.
Proof. induction l as [|a l IH]; [reflexivity|]. cbn. f_equal. exact IH. Qed.

Lemma filter_all_kept {A} (p : A -> bool) (l : list A) :
  (forall a, a ∈ l -> p a = true) -> List.filter p l = l.
Proof.
  induction l as [|a l IH]; intros Hall; [reflexivity|]. cbn.
  rewrite (Hall a) by apply list_elem_of_here. f_equal. apply IH.
  intros b Hb. apply Hall. apply list_elem_of_further. exact Hb.
Qed.

(** X22: [add_carry_mark] appends one record and keeps the former ones in
    place; [delete_carry_mark] at the index of the new record gives the
    former store back, and at an index outside [0, len) it changes
    nothing. *)
Theorem X22_add_then_delete_carry_mark (float_of_str : string -> option Q)
  (strftime : Timestamp -> string) (now : Timestamp)
  (carry_data : gmap string value) (st : SessionState) (e m w : Q) :
  carry_data !! "percentage" = None ->
  carry_data !! "earned" = Some (VNum e) ->
  carry_data !! "max_possible" = Some (VNum m) ->
  carry_data !! "weight_percentage" = Some (VNum w) ->
  exists added,
    add_carry_mark float_of_str strftime now carry_data st = Ok added /\
    length (carry_marks added) = S (length (carry_marks st)) /\
    (forall j r, carry_marks st !! j = Some r -> carry_marks added !! j = Some r) /\
    delete_carry_mark (Z.of_nat (length (carry_marks st))) added = st /\
    (forall index, ~ (0 <= index < Z.of_nat (length (carry_marks added)))%Z ->
       delete_carry_mark index added = added).
Proof.
  intros Hp He Hm Hw.
  destruct (recalculate_numbers float_of_str carry_data e m w Hp He Hm Hw)
    as (record & Hrec & _).
  unfold add_carry_mark. rewrite Hrec. cbn [mbind result_bind].
  eexists. split; [reflexivity|]. cbn [carry_marks].
  split; [rewrite length_app; cbn [length]; lia|].
  split; [intros j r Hr; apply lookup_app_l_Some; exact Hr|].
  unfold delete_carry_mark.
  cbn [carry_marks courses assignments final_exams theme_color sample_data_loaded].
  split.
  - assert (Hin : in_range (Z.of_nat (length (carry_marks st)))
                    (carry_marks st ++ [<["date_added":=VStr (strftime now)]> record])%list
                  = true)
      by (apply in_range_iff; rewrite length_app; cbn [length]; lia).
    rewrite Hin, Nat2Z.id, delete_last. destruct st; reflexivity.
  - intros index Hout.
    destruct (in_range index _) eqn:Hin; [|reflexivity].
    apply in_range_iff in Hin. contradiction.
Qed.

(** X23: adding a course and deleting it again leaves the list of courses as
    it was, but not always the store: the deletion removes every carry mark,
    assignment and final-exam record with the code of the added course,
    those that were there before it included.  The store is the former one
    when no record had that code. *)
Theorem X23_add_then_delete_course (course_data : gmap string value) (code : value)
  (st : SessionState) :
  course_data !! "code" = Some code ->
  exists st',
    delete_course (Z.of_nat (length (courses st))) (add_course course_data st) = Ok st' /\
    courses st' = courses st /\
    (forall d, d ∈ carry_marks st' <-> d ∈ carry_marks st /\ ~ references d code) /\
    (forall d, d ∈ assignments st' <-> d ∈ assignments st /\ ~ references d code) /\
    (forall d, d ∈ final_exams st' <-> d ∈ final_exams st /\ ~ references d code) /\
    ((forall d, d ∈ (carry_marks st ++ assignments st ++ final_exams st)%list ->
                ~ references d code) ->
     st' = st).
Proof.
  intros Hcode. unfold delete_course, add_course. cbn [courses carry_marks assignments final_exams
    theme_color sample_data_loaded].
  assert (Hin : ((0 <=? Z.of_nat (length (courses st)))
                 && (Z.of_nat (length (courses st))
                     <? Z.of_nat (length (courses st ++ [course_data])%list)))%Z = true)
    by (rewrite length_app; cbn [length]; apply andb_true_iff; split;
        [apply Z.leb_le | apply Z.ltb_lt]; lia).
  rewrite Hin, Nat2Z.id.
  rewrite (list_lookup_middle (courses st) [] course_data _ eq_refl).
  cbn [from_option mbind result_bind]. rewrite Hcode. cbn [from_option mbind result_bind].
  rewrite delete_last.
  eexists. split; [reflexivity|]. cbn [courses carry_marks assignments final_exams].
  split; [reflexivity|].
  split; [intros d; apply filter_get_ne|].
  split; [intros d; apply filter_get_ne|].
  split; [intros d; apply filter_get_ne|].
  intros Hnone.
  rewrite !filter_all_kept.
  - destruct st; reflexivity.
  - intros d Hd. apply get_ne_references, Hnone. rewrite !elem_of_app. auto.
  - intros d Hd. apply get_ne_references, Hnone. rewrite !elem_of_app. auto.
  - intros d Hd. apply get_ne_references, Hnone. rewrite !elem_of_app. auto.
Qed.

(** X24: [update_course] replaces the course record at a valid index without
    touching the records that depend on it, and a [delete_course] that
    follows cascades on the code of the new record: the records that remain
    are exactly those that do not carry the new code, so records with the
    former code stay behind when the two codes differ. *)
Theorem X24_update_then_delete_course (index : Z) (course_data : gmap string value)
  (code : value) (st : SessionState) :
  (0 <= index < Z.of_nat (length (courses st)))%Z ->
  course_data !! "code" = Some code ->
  exists st',
    delete_course index (update_course index course_data st) = Ok st' /\
    courses st' = delete (Z.to_nat index) (courses st) /\
    (forall d, d ∈ carry_marks st' <-> d ∈ carry_marks st /\ ~ references d code) /\
    (forall d, d ∈ assignments st' <-> d ∈ assignments st /\ ~ references d code) /\
    (forall d, d ∈ final_exams st' <-> d ∈ final_exams st /\ ~ references d code).
Proof.
  intros Hrange Hcode. unfold update_course.
  assert (Hin : in_range index (courses st) = true) by (apply in_range_iff; exact Hrange).
  rewrite Hin. unfold delete_course.
  cbn [courses carry_marks assignments final_exams theme_color sample_data_loaded].
  rewrite length_insert.
  change ((0 <=? index)%Z && (index <? Z.of_nat (length (courses st)))%Z)
    with (in_range index (courses st)).
  rewrite Hin. rewrite list_lookup_insert_eq by lia.
  cbn [from_option mbind result_bind]. rewrite Hcode. cbn [from_option mbind result_bind].
  eexists. split; [reflexivity|]. cbn [courses carry_marks assignments final_exams].
  split.
  { generalize (Z.to_nat index). intros i. clear.
    revert i. induction (courses st) as [|c l IH]; intros [|i]; cbn; try reflexivity.
    f_equal. apply IH. }
  split; [intros d; apply filter_get_ne|].
  split; intros d; apply filter_get_ne.
Qed.

(** ** Course statistics *)

Lemma mapM_Forall2_ok {A B} (f : A -> result B) (P : A -> B -> Prop) (l : list A) :
  (forall a, In a l -> exists b, f a = Ok b /\ P a b) ->
  exists k, mapM f l = Ok k /\ Forall2 P l k.
Proof.
  induction l as [|a l IH]; intros Hall.
  - exists []. split; [reflexivity | constructor].
  - destruct (Hall a (or_introl eq_refl)) as (b & Hb & Pb).
    destruct IH as (k & Hk & Pk); [intros a' Ha'; apply Hall; right; exact Ha'|].
    exists (b :: k). split; [|constructor; assumption].
    cbn. rewrite Hb. cbn. rewrite Hk. reflexivity.
Qed.

Lemma has_column_app {Row} (name extra : string) (cols : list string) (rs : list Row) :
  has_column name (mkDF (cols ++ [extra])%list rs)
  = has_column name (mkDF cols rs) || String.eqb name extra.
Proof.
  unfold has_column. cbn [columns].
  destruct (String.eqb_spec name extra) as [->|Hne].
  - rewrite orb_true_r. apply bool_decide_eq_true_2. apply elem_of_app. right.
    apply list_elem_of_here.
  - rewrite orb_false_r. apply bool_decide_ext. rewrite elem_of_app, list_elem_of_singleton.
    tauto.
Qed.

Lemma ensure_percentage_frame (marks : DataFrame (CarryMark.t Q)) :
  has_column "course_code" marks = true ->
  (has_column "percentage" marks = false ->
   has_column "earned" marks = true /\ has_column "max_possible" marks = true) ->
  exists ensured,
    ensure_percentage marks = Ok ensured /\
    has_column "course_code" ensured = true /\
    has_column "percentage" ensured = true /\
    List.map CarryMark.course_code (rows ensured) = List.map CarryMark.course_code (rows marks).
Proof.
  intros Hcc Hcols. unfold ensure_percentage.
  destruct (has_column "percentage" marks) eqn:Hp; cbn [negb].
  - exists marks. repeat split; assumption.
  - destruct (Hcols eq_refl) as [He Hm].
    rewrite (col_present _ _ _ He), (col_present _ _ _ Hm). cbn [mbind result_bind].
    eexists. split; [reflexivity|]. split; [|split].
    + rewrite has_column_app.
      change (has_column "course_code" (mkDF (columns marks) ?r))
        with (has_column "course_code" marks).
      rewrite Hcc. reflexivity.
    + rewrite has_column_app. apply orb_true_r.
    + cbn [rows]. rewrite List.map_map. reflexivity.
Qed.

Lemma marks_of_codes {T} (code : string) (df1 df2 : DataFrame (CarryMark.t T)) :
  List.map CarryMark.course_code (rows df1) = List.map CarryMark.course_code (rows df2) ->
  marks_of code df1 = [] <-> marks_of code df2 = [].
Proof.
  unfold marks_of. generalize (rows df1) (rows df2).
  induction l as [|a l IH]; intros [|b k] E; try discriminate; [tauto|].
  cbn in E. injection E as Eab Elk. cbn. rewrite Eab.
  destruct (String.eqb (CarryMark.course_code b) code); [split; discriminate|].
  apply IH. exact Elk.
Qed.

Lemma current_grade_returns (code : string) (marks : DataFrame (CarryMark.t Q))
  (listed : DataFrame (Course.t Q)) :
  has_column "code" listed = true -> has_column "carry_weight" listed = true ->
  has_column "course_code" marks = true -> has_column "percentage" marks = true ->
  exists r : Q,
    calculate_current_grade code marks listed = Ok r /\
    (marks_of code marks = [] -> r = 0%Q).
Proof.
  intros Hcode Hcw Hcc Hp. unfold calculate_current_grade.
  rewrite (col_present _ _ _ Hcode). cbn [mbind result_bind].
  rewrite (empty_selection "code" Course.code (fun c => String.eqb c code) listed Hcode).
  destruct (List.filter _ (rows listed)) as [|c0 cs] eqn:Ecs.
  { exists 0%Q. split; reflexivity. }
  rewrite (col_present _ _ _ Hcc). cbn [mbind result_bind].
  rewrite (empty_selection "course_code" CarryMark.course_code
             (fun c => String.eqb c code) marks Hcc).
  change (List.filter (fun r => String.eqb (CarryMark.course_code r) code) (rows marks))
    with (marks_of code marks).
  destruct (marks_of code marks) as [|m ms] eqn:Em.
  { exists 0%Q. split; reflexivity. }
  change (has_column "final_contribution" (df_mask marks ?x))
    with (has_column "final_contribution" marks).
  destruct (has_column "final_contribution" marks) eqn:Hfc.
  - unfold col.
    change (has_column "final_contribution" (df_mask marks ?x))
      with (has_column "final_contribution" marks).
    rewrite Hfc. cbn [mbind result_bind]. eexists. split; [reflexivity | discriminate].
  - cbn [rows df_mask]. rewrite select_map, Ecs. cbn [head from_option mbind result_bind].
    change (has_column "carry_weight" (df_mask listed ?x))
      with (has_column "carry_weight" listed).
    rewrite Hcw. cbn [mbind result_bind].
    change (has_column "percentage" (df_mask marks ?x)) with (has_column "percentage" marks).
    rewrite Hp. unfold col.
    change (has_column "percentage" (df_mask marks ?x)) with (has_column "percentage" marks).
    rewrite Hp. cbn [mbind result_bind]. unfold truediv. cbn [eqb Q_PyNum of_Z].
    change (Qeq_bool (inject_Z 100) (inject_Z 0)) with false. cbn [mbind result_bind].
    eexists. split; [reflexivity | discriminate].
Qed.

Lemma grade_letter_not_na (p : Q) : get_grade_letter p <> "N/A".
Proof.
  unfold get_grade_letter.
  repeat match goal with |- context [if ?b then _ else _] => destruct b end; discriminate.
Qed.

Lemma carry_percentage_mean (code : string) (marks : DataFrame (CarryMark.t Q)) :
  has_column "course_code" marks = true -> has_column "percentage" marks = true ->
  calculate_carry_percentage code marks
  = Ok (match marks_of code marks with
        | [] => 0%Q
        | ms => series_mean (List.map CarryMark.percentage ms)
        end).
Proof.
  intros Hcc Hp. unfold calculate_carry_percentage.
  destruct (empty marks) eqn:Hempty.
  { apply (empty_iff_no_rows _ _ Hcc) in Hempty. unfold marks_of. rewrite Hempty.
    reflexivity. }
  rewrite (col_present _ _ _ Hcc). cbn [mbind result_bind].
  rewrite (empty_selection "course_code" CarryMark.course_code
             (fun c => String.eqb c code) marks Hcc).
  change (List.filter (fun r => String.eqb (CarryMark.course_code r) code) (rows marks))
    with (marks_of code marks).
  destruct (marks_of code marks) as [|m ms] eqn:Em; [reflexivity|].
  change (has_column "percentage" (df_mask marks ?x)) with (has_column "percentage" marks).
  rewrite Hp. unfold col.
  change (has_column "percentage" (df_mask marks ?x)) with (has_column "percentage" marks).
  rewrite Hp. cbn [mbind result_bind rows df_mask]. rewrite select_map.
  change (List.filter (fun r => String.eqb (CarryMark.course_code r) code) (rows marks))
    with (marks_of code marks).
  rewrite Em. reflexivity.
Qed.

(** X25: for every course, [analytics_tab] records the same number as
    'Carry %' and as 'Average %' (the mean of the percentages of its marks);
    the letter is "N/A" exactly for a course without marks, whose average
    and current grade are 0, and the letter of the average otherwise; the
    completed assignments of a course are at most its assignments. *)
Theorem X25_course_statistics_rows (listed : DataFrame (Course.t Q))
  (marks : DataFrame (CarryMark.t Q)) (work : DataFrame Assignment.t) :
  has_column "code" listed = true -> has_column "name" listed = true ->
  has_column "carry_weight" listed = true -> has_column "exam_weight" listed = true ->
  has_column "course_code" marks = true ->
  (has_column "percentage" marks = false ->
   has_column "earned" marks = true /\ has_column "max_possible" marks = true) ->
  (empty work = false ->
   has_column "course_code" work = true /\ has_column "status" work = true) ->
  rows marks <> [] ->
  exists stats : list (CourseStatRow.t Q),
    analytics_tab_course_stats listed marks work = Ok stats /\
    Forall2 (course_statistics marks work) (rows listed) stats.
Proof.
  intros Hcode Hname Hcw Hew Hcc Hcols Hwork Hrows.
  unfold analytics_tab_course_stats.
  assert (Hne : empty marks = false).
  { apply (not_empty_frame "course_code"); [exact Hcc|].
    unfold len. destruct (rows marks); [congruence | cbn; lia]. }
  rewrite Hne. cbn [negb].
  destruct (ensure_percentage_frame marks Hcc Hcols) as (M & HM & HMcc & HMp & Hcodes).
  rewrite HM. cbn [mbind result_bind].
  apply mapM_Forall2_ok. intros course Hin.
  unfold cell. rewrite Hcode, Hname, Hcw, Hew. cbn [mbind result_bind].
  set (code := Course.code course).
  assert (Hnil : marks_of code M = [] <-> marks_of code marks = [])
    by (apply marks_of_codes; exact Hcodes).
  rewrite (carry_percentage_mean code M HMcc HMp). cbn [mbind result_bind].
  destruct (current_grade_returns code M listed Hcode Hcw HMcc HMp) as (g & Hg & Hg0).
  rewrite Hg. cbn [mbind result_bind].
  rewrite (col_present _ _ _ HMcc). cbn [mbind result_bind].
  rewrite (empty_selection "course_code" CarryMark.course_code
             (fun c => String.eqb c code) M HMcc).
  change (List.filter (fun r => String.eqb (CarryMark.course_code r) code) (rows M))
    with (marks_of code M).
  assert (Hstat : forall total completed : nat,
            (completed <= total)%nat -> (total <= len work)%nat ->
            course_statistics marks work course
              (CourseStatRow.mk code (Course.name course)
                 (match marks_of code M with
                  | [] => 0%Q
                  | ms => series_mean (List.map CarryMark.percentage ms)
                  end)
                 g
                 (match marks_of code M with
                  | [] => 0%Q
                  | ms => series_mean (List.map CarryMark.percentage ms)
                  end)
                 (match marks_of code M with
                  | [] => "N/A"
                  | ms => get_grade_letter (series_mean (List.map CarryMark.percentage ms))
                  end)
                 total completed (Course.carry_weight course) (Course.exam_weight course))).
  { intros total completed Hct Htl. unfold course_statistics.
    cbn [CourseStatRow.Course_Code CourseStatRow.Course_Name CourseStatRow.Carry_Weight
         CourseStatRow.Exam_Weight CourseStatRow.Carry_pct CourseStatRow.Average_pct
         CourseStatRow.Letter_Grade CourseStatRow.Current_Grade
         CourseStatRow.Completed_Assignments CourseStatRow.Total_Assignments].
    fold code. do 5 (split; [reflexivity|]).
    destruct (marks_of code M) as [|m ms] eqn:Em.
    - pose proof (proj1 Hnil eq_refl) as Hnone.
      split; [split; intros _; [exact Hnone | reflexivity]|].
      split; [intros _; split; [reflexivity | apply Hg0; reflexivity]|].
      split; [intros Hsome; contradiction|]. split; assumption.
    - assert (Hsome : marks_of code marks <> []).
      { intros E. apply Hnil in E. discriminate E. }
      split; [split; [intros E; exfalso; revert E; apply grade_letter_not_na
                     | intros E; contradiction]|].
      split; [intros E; contradiction|].
      split; [intros _; reflexivity|]. split; assumption. }
  assert (Hgraded :
    (if negb match marks_of code M with [] => true | _ :: _ => false end
     then
       percentages ← col "percentage" CarryMark.percentage
                       (df_mask M (List.map (fun c => String.eqb c code)
                                     (List.map CarryMark.course_code (rows M))));
       Ok (get_grade_letter (series_mean percentages), series_mean percentages)
     else Ok ("N/A", of_Z 0))
    = Ok (match marks_of code M with
          | [] => "N/A"
          | ms => get_grade_letter (series_mean (List.map CarryMark.percentage ms))
          end,
          match marks_of code M with
          | [] => 0%Q
          | ms => series_mean (List.map CarryMark.percentage ms)
          end)).
  { destruct (marks_of code M) as [|m ms] eqn:Em; cbn [negb]; [reflexivity|].
    unfold col.
    change (has_column "percentage" (df_mask M ?x)) with (has_column "percentage" M).
    rewrite HMp. cbn [mbind result_bind rows df_mask]. rewrite select_map.
    change (List.filter (fun r => String.eqb (CarryMark.course_code r) code) (rows M))
      with (marks_of code M).
    rewrite Em. reflexivity. }
  rewrite Hgraded. cbn [mbind result_bind].
  destruct (empty work) eqn:Hw; cbn [negb mbind result_bind].
  { change (empty (mkDF [] (@nil Assignment.t))) with true. cbn [negb mbind result_bind].
    eexists. split; [reflexivity|]. apply Hstat; cbn; lia. }
  destruct (Hwork eq_refl) as [Hwc Hws].
  rewrite (col_present _ _ _ Hwc). cbn [mbind result_bind].
  rewrite (empty_selection "course_code" Assignment.course_code
             (fun c => String.eqb c code) work Hwc).
  unfold len at 1. cbn [rows df_mask]. rewrite select_map.
  destruct (List.filter _ (rows work)) as [|a l] eqn:Ef; cbn [negb mbind result_bind].
  { eexists. split; [reflexivity|]. apply Hstat; cbn; lia. }
  unfold col. change (has_column "status" (df_mask work ?x)) with (has_column "status" work).
  rewrite Hws. cbn [mbind result_bind rows df_mask]. rewrite select_map, Ef.
  eexists. split; [reflexivity|]. apply Hstat.
  - unfold len. cbn [rows df_mask]. rewrite ?select_map, ?Ef, ?select_map.
    apply filter_length_le.
  - unfold len. rewrite <- Ef. apply filter_length_le.
Qed.

(** ** The properties on the sample data *)

Lemma dates_readable_check (to_datetime : string -> option Timestamp)
  (rs : list Assignment.t) :
  forallb (fun a => match Assignment.due_date a with
                    | Some s => bool_decide (is_Some (to_datetime s))
                    | None => true
                    end) rs = true ->
  dates_readable to_datetime rs.
Proof.
  intros Hall. apply List.Forall_forall. intros a Ha s Hs.
  rewrite forallb_forall in Hall. specialize (Hall a Ha). rewrite Hs in Hall.
  apply bool_decide_eq_true in Hall. exact Hall.
Qed.

Lemma X1_current_grade_contributions_witness :
  exists r : Q,
    calculate_current_grade "BSD 1323" sample_marks sample_courses = Ok r /\
    (r == 30)%Q.
Proof.
  destruct (X1_current_grade_contributions "BSD 1323" sample_marks sample_courses)
    as (r & Hr & Hsum & _); [reflexivity | reflexivity | reflexivity |].
  exists r. split; [exact Hr|]. rewrite Hsum; [vm_compute; reflexivity|].
  eexists. split; [apply list_elem_of_here | reflexivity].
Defined.

Lemma X2_current_grade_from_carry_percentage_witness :
  exists p r : Q,
    calculate_carry_percentage "BSD 1323" quiz_marks = Ok p /\
    calculate_current_grade "BSD 1323" quiz_marks sample_courses = Ok r /\
    (r == p / 100 * 60)%Q.
Proof.
  destruct (X2_current_grade_from_carry_percentage "BSD 1323" quiz_marks sample_courses
              (Course.mk "BSD 1323" "Storytelling & Data Visualization" 60 40)%Q [])
    as (p & r & Hp & Hr & Hrel & _); try reflexivity.
  - intros _. split; reflexivity.
  - exists p, r. split; [exact Hp|]. split; [exact Hr|].
    apply Hrel. right. vm_compute. discriminate.
Defined.

Lemma X3_final_exam_requirement_is_minimal_witness :
  exists r : Q,
    calculate_final_exam_requirement 70%Q 80%Q 60%Q 40%Q = Ok r /\
    (0 <= r <= 100)%Q /\
    (forall e : Q, (0 <= e <= 100)%Q -> (70 <= overall_grade 80 60 40 e)%Q ->
       (70 <= overall_grade 80 60 40 r)%Q /\ (r <= e)%Q) /\
    ((forall e : Q, (0 <= e <= 100)%Q -> (overall_grade 80 60 40 e < 70)%Q) ->
       (r == 100)%Q).
Proof. apply (X3_final_exam_requirement_is_minimal 70 80 60 40). reflexivity. Defined.

Lemma X4_days_until_due_whole_days_witness :
  calculate_days_until_due read_iso_date noon_aug_15 "2025-08-15"
  = (day_of (20315 * us_per_day) - day_of noon_aug_15
     - (if (noon_aug_15 mod us_per_day =? 0)%Z then 0 else 1))%Z.
Proof.
  apply (X4_days_until_due_whole_days read_iso_date noon_aug_15 (20315 * us_per_day)%Z
           "2025-08-15"); vm_compute; reflexivity.
Defined.

Lemma X5_time_to_deadline_table_witness :
  exists table : list DeadlineRow,
    calculate_time_to_deadline read_iso_date noon_aug_14 sample_assignments = Ok table /\
    Permutation table
      (List.map (deadline_row read_iso_date noon_aug_14)
         (List.filter is_pending (rows sample_assignments))).
Proof.
  destruct (X5_time_to_deadline_table read_iso_date noon_aug_14 sample_assignments)
    as (table & Htable & P & _); [reflexivity | reflexivity | |].
  - apply dates_readable_check. vm_compute. reflexivity.
  - exists table. split; [exact Htable | exact P].
Defined.


Lemma X7_deadline_counts_by_day_witness :
  exists overdue_count upcoming_count : nat,
    analytics_tab_deadline_counts read_iso_date noon_aug_14 sample_assignments
    = Ok (overdue_count, upcoming_count) /\
    (overdue_count + upcoming_count <= 2)%nat.
Proof.
  destruct (X7_deadline_counts_by_day read_iso_date noon_aug_14 sample_assignments)
    as (o & u & Hcounts & _ & _ & Hle); [reflexivity|].
  exists o, u. split; [exact Hcounts | exact Hle].
Defined.

Lemma X8_due_today_counted_both_ways_witness :
  calculate_days_until_due read_iso_date noon_aug_15 "2025-08-15" = (-1)%Z /\
  (exists table,
     calculate_time_to_deadline read_iso_date noon_aug_15 sample_assignments = Ok table /\
     mkDeadline dashboard (Some (20315 * us_per_day)%Z) (Some (-1)%Z) ∈ table) /\
  (forall acc : nat * nat,
     deadline_step read_iso_date (day_of noon_aug_15) true acc dashboard = (acc.1, S acc.2)).
Proof.
  apply (X8_due_today_counted_both_ways read_iso_date read_iso_date noon_aug_15
           (20315 * us_per_day)%Z sample_assignments dashboard "2025-08-15").
  - reflexivity.
  - reflexivity.
  - apply dates_readable_check. vm_compute. reflexivity.
  - apply list_elem_of_here.
  - reflexivity.
  - reflexivity.
  - vm_compute. reflexivity.
  - vm_compute. reflexivity.
  - reflexivity.
  - reflexivity.
  - vm_compute. discriminate.
Defined.

Lemma X9_performance_trend_order_only_witness :
  get_performance_trend exact_polyfit read_iso_date sample_marks
  = get_performance_trend exact_polyfit read_iso_noon sample_marks.
Proof.
  apply (X9_performance_trend_order_only exact_polyfit read_iso_date read_iso_noon
           sample_marks
           [1736899200000000; 1737504000000000; 1737331200000000]%Z
           [1736942400000000; 1737547200000000; 1737374400000000]%Z).
  - left. reflexivity.
  - reflexivity.
  - repeat constructor.
  - repeat constructor.
  - intros r r' Hr Hr'. apply list_elem_of_In in Hr, Hr'. cbn in Hr, Hr'.
    destruct Hr as [<-|[<-|[<-|[]]]]; destruct Hr' as [<-|[<-|[<-|[]]]];
      vm_compute; intuition congruence.
Defined.


Lemma X11_workload_balance_shares_witness :
  exists table : list (string * Balance.t Q),
    calculate_workload_balance sample_assignments = Ok table /\
    list_sum (List.map (fun e => Balance.assignments e.2) table) = 5%nat /\
    (Qsum (List.map (fun e => Balance.percentage e.2) table) == 100)%Q.
Proof.
  destruct (X11_workload_balance_shares sample_assignments)
    as (table & Htable & _ & _ & _ & _ & Hsum & Hshares); [reflexivity|].
  exists table. split; [exact Htable|]. split; [exact Hsum|].
  apply Hshares. discriminate.
Defined.

Lemma X12_workload_balance_levels_witness :
  exists table : list (string * Balance.t Q),
    calculate_workload_balance sample_assignments = Ok table /\
    (level_count "High" table <= 3)%nat /\
    (level_count "High" table + level_count "Medium" table <= 6)%nat.
Proof.
  destruct (X12_workload_balance_levels sample_assignments)
    as (table & Htable & _ & Hhigh & Hmedium); [reflexivity|].
  exists table. split; [exact Htable|]. split; [exact Hhigh | exact Hmedium].
Defined.

Lemma X13_study_recommendations_shape_witness :
  exists recs : list string,
    calculate_study_recommendations plain_format sample_stats sample_assignments = Ok recs /\
    recs <> [] /\
    ~ "Keep up the good work! 🎉" ∈ recs.
Proof.
  destruct (X13_study_recommendations_shape plain_format sample_stats sample_assignments)
    as (recs & Hrecs & Hne & Hnot & _); [reflexivity | reflexivity | |].
  - intros _. split; reflexivity.
  - exists recs. split; [exact Hrecs|]. split; [exact Hne | exact Hnot].
Defined.

Lemma X14_add_carry_mark_derives_witness :
  exists record stored,
    add_carry_mark no_float fixed_day noon_aug_14 new_mark sample_store
    = Ok (mkState (courses sample_store) (carry_marks sample_store ++ [stored])
            (final_exams sample_store) (assignments sample_store)
            (theme_color sample_store) (sample_data_loaded sample_store)) /\
    stored = <["date_added" := VStr (fixed_day noon_aug_14)]> record /\
    recalculated new_mark record 18%Q 20%Q 10%Q /\
    stored !! "date_added" = Some (VStr (fixed_day noon_aug_14)) /\
    (forall k, k <> "date_added" -> stored !! k = record !! k).
Proof.
  apply (X14_add_carry_mark_derives no_float fixed_day noon_aug_14 new_mark sample_store
           18%Q 20%Q 10%Q); vm_compute; reflexivity.
Defined.

Lemma X15_update_carry_mark_replaces_witness :
  exists record st',
    update_carry_mark no_float 0 new_mark sample_store = Ok st' /\
    recalculated new_mark record 18%Q 20%Q 10%Q /\
    carry_marks st' !! 0%nat = Some record /\
    record !! "date_added" = None.
Proof.
  destruct (X15_update_carry_mark_replaces no_float 0 new_mark sample_store 18%Q 20%Q 10%Q)
    as (record & st' & Hst' & Hrec & Hdate & Hin & _); try (vm_compute; reflexivity).
  exists record, st'. split; [exact Hst'|]. split; [exact Hrec|]. split.
  - apply Hin. cbn. lia.
  - rewrite Hdate. vm_compute. reflexivity.
Defined.

Lemma X18_delete_course_shared_code_witness :
  exists st',
    delete_course 0
      (add_course (course_record "BSD 1323" "Second listing" 50%Q 50%Q) sample_store) = Ok st' /\
    course_record "BSD 1323" "Second listing" 50%Q 50%Q ∈ courses st' /\
    (forall d, references d (VStr "BSD 1323") ->
       ~ d ∈ (carry_marks st' ++ assignments st' ++ final_exams st')%list).
Proof.
  destruct (X18_delete_course_shared_code
              (add_course (course_record "BSD 1323" "Second listing" 50%Q 50%Q) sample_store)
              0 2
              (course_record "BSD 1323" "Storytelling & Data Visualization" 60%Q 40%Q)
              (course_record "BSD 1323" "Second listing" 50%Q 50%Q)
              (VStr "BSD 1323"))
    as (st' & Hst' & Hin & _ & Hnone); try (vm_compute; reflexivity).
  - discriminate.
  - exists st'. split; [exact Hst'|]. split; [exact Hin | exact Hnone].
Defined.

Lemma X20_weighted_gpa_unmarked_course_witness :
  exists g g' : Q,
    calculate_weighted_gpa (mkDF stats_columns marked_courses) = Ok g /\
    calculate_weighted_gpa sample_stats = Ok g' /\
    (g' < g)%Q.
Proof.
  destruct (X20_weighted_gpa_unmarked_course stats_columns marked_courses unmarked_course)
    as (g & g' & Hg & Hg' & Hv & _ & _ & Hlt).
  - repeat constructor.
  - repeat constructor.
  - repeat constructor; vm_compute; discriminate.
  - vm_compute. reflexivity.
  - vm_compute. reflexivity.
  - vm_compute. discriminate.
  - exists g, g'. split; [exact Hg|]. split; [exact Hg'|].
    apply Hlt; [vm_compute; reflexivity|]. rewrite Hv. vm_compute. reflexivity.
Defined.

Lemma X21_completion_rate_extremes_witness :
  exists r : Q,
    calculate_completion_rate sample_assignments = Ok r /\
    ((r == 100)%Q <-> Forall (fun a => is_completed a = true) (rows sample_assignments)) /\
    ((r == 0)%Q <-> Forall (fun a => is_completed a = false) (rows sample_assignments)).
Proof.
  apply (X21_completion_rate_extremes sample_assignments); [reflexivity | discriminate].
Defined.

Lemma X22_add_then_delete_carry_mark_witness :
  exists added,
    add_carry_mark no_float fixed_day noon_aug_14 new_mark sample_store = Ok added /\
    delete_carry_mark (Z.of_nat (length (carry_marks sample_store))) added = sample_store.
Proof.
  destruct (X22_add_then_delete_carry_mark no_float fixed_day noon_aug_14 new_mark
              sample_store 18%Q 20%Q 10%Q)
    as (added & Hadded & _ & _ & Hback & _); try (vm_compute; reflexivity).
  exists added. split; [exact Hadded | exact Hback].
Defined.

Lemma X23_add_then_delete_course_witness :
  exists st',
    delete_course (Z.of_nat (length (courses sample_store)))
      (add_course (course_record "BSD 1323" "Second listing" 50%Q 50%Q) sample_store) = Ok st' /\
    courses st' = courses sample_store /\
    (forall d, d ∈ carry_marks st' <->
               d ∈ carry_marks sample_store /\ ~ references d (VStr "BSD 1323")).
Proof.
  destruct (X23_add_then_delete_course
              (course_record "BSD 1323" "Second listing" 50%Q 50%Q) (VStr "BSD 1323")
              sample_store)
    as (st' & Hst' & Hcourses & Hmarks & _); [vm_compute; reflexivity|].
  exists st'. split; [exact Hst'|]. split; [exact Hcourses | exact Hmarks].
Defined.

Lemma X24_update_then_delete_course_witness :
  exists st',
    delete_course 0
      (update_course 0 (course_record "BSD 2143" "Renamed" 60%Q 40%Q) sample_store) = Ok st' /\
    courses st' = delete (Z.to_nat 0) (courses sample_store) /\
    (forall d, d ∈ carry_marks st' <->
               d ∈ carry_marks sample_store /\ ~ references d (VStr "BSD 2143")).
Proof.
  destruct (X24_update_then_delete_course 0
              (course_record "BSD 2143" "Renamed" 60%Q 40%Q) (VStr "BSD 2143") sample_store)
    as (st' & Hst' & Hcourses & Hmarks & _); [cbn; lia | vm_compute; reflexivity |].
  exists st'. split; [exact Hst'|]. split; [exact Hcourses | exact Hmarks].
Defined.

Lemma X25_course_statistics_rows_witness :
  exists stats : list (CourseStatRow.t Q),
    analytics_tab_course_stats sample_courses sample_marks sample_assignments = Ok stats /\
    Forall2 (course_statistics sample_marks sample_assignments) (rows sample_courses) stats.
Proof.
  apply (X25_course_statistics_rows sample_courses sample_marks sample_assignments);
    try reflexivity.
  - intros E. discriminate E.
  - intros _. split; reflexivity.
  - discriminate.
Defined.
